(** * HuggingFace Dataset Explorer: column statistics, datetime heuristic,
      scatter sampling and loader errors

    A shallow embedding of [app/components/column_analyzer.py],
    [app/components/data_visualizer.py], [app/utils/huggingface_client.py]
    and [app/main.py], with the pandas operations the code calls written out
    next to it. *)

From Stdlib Require Import ZArith QArith Qround Qabs Qminmax Qpower Qfield.
From Stdlib Require Import List String Ascii Bool Lia Lqa Permutation Sorted.
Import ListNotations.

Set Implicit Arguments.

Local Open Scope Q_scope.

(** ** Python values: exceptions and results *)

Module Py.

(** [Exception] stands for the base class and for every subclass not
    listed before it. *)
Inductive exn_class := ValueError | KeyError | TypeError | IndexError | Exception.

(** A raised exception: its class and what [str(e)] prints. *)
Record exn := mkExn { cls : exn_class; str : string }.

(** [isinstance(e, ValueError)], the test of [except ValueError]. *)
Definition is_ValueError (e : exn) : bool :=
  match cls e with ValueError => true | _ => false end.

Inductive result (A : Type) :=
| Ok (a : A)
| Raise (e : exn).
Arguments Ok {A} a.
Arguments Raise {A} e.

End Py.
Import Py.

(** ** Floating-point numbers

    A float64 is either NaN or a rational.  Every arithmetic operation of
    the code is followed by a rounding [rnd]: the identity gives the exact
    value of a statistic, [rn53] the value the running code holds. *)

Inductive stat := NaN | Fin (q : Q).

Definition stat_eq (a b : stat) : Prop :=
  match a, b with
  | NaN, NaN => True
  | Fin x, Fin y => x == y
  | _, _ => False
  end.

Definition is_nan (a : stat) : bool :=
  match a with NaN => true | Fin _ => false end.

(** [a <= b] on floats: false as soon as one side is NaN. *)
Definition stat_le (a b : stat) : Prop :=
  match a, b with
  | Fin x, Fin y => x <= y
  | _, _ => False
  end.

Definition exact (x : Q) : Q := x.

(** Round half to even, to an integer ([rint]). *)
Definition rint (x : Q) : Z :=
  let f := Qfloor x in
  let r := x - inject_Z f in
  match Qcompare r (1 # 2) with
  | Lt => f
  | Gt => (f + 1)%Z
  | Eq => if Z.even f then f else (f + 1)%Z
  end.

(** [floor (log2 a)] for [a > 0]. *)
Definition ilog2 (a : Q) : Z :=
  let e := (Z.log2 (Qnum a) - Z.log2 (Zpos (Qden a)))%Z in
  if Qle_bool (2 ^ e) a then e else (e - 1)%Z.

(** Round to nearest, ties to even, with a 53-bit significand (the
    exponent range of binary64 is not bounded here). *)
Definition rn53 (x : Q) : Q :=
  if Qeq_bool x 0 then 0
  else
    let a := Qabs x in
    let e := ilog2 a in
    let m := inject_Z (rint (a * 2 ^ (52 - e))) * 2 ^ (e - 52) in
    Qred (if Qle_bool 0 x then m else - m).

(** ** pandas: reductions of a numeric column

    A column of numbers is a [list (option Q)]; [None] is a missing entry
    (NaN, None, NA). *)

Section Float64.

Variable rnd : Q -> Q.
Variable sqrt : Q -> Q.

Definition fadd (a b : Q) : Q := rnd (a + b).
Definition fsub (a b : Q) : Q := rnd (a - b).
Definition fmul (a b : Q) : Q := rnd (a * b).
Definition fdiv (a b : Q) : Q := rnd (a / b).

(** [Series.dropna()] *)
Fixpoint dropna {A : Type} (xs : list (option A)) : list A :=
  match xs with
  | [] => []
  | Some x :: r => x :: dropna r
  | None :: r => dropna r
  end.

(** [Series.isna().sum()] *)
Definition isna_sum {A : Type} (xs : list (option A)) : nat :=
  List.length (filter (fun c => match c with None => true | Some _ => false end) xs).

(** Number of entries that are not missing ([_get_counts]). *)
Definition notna_count {A : Type} (xs : list (option A)) : nat :=
  List.length (dropna xs).

(** [ndarray.sum()] on an array of floats, numpy's pairwise summation
    ([pairwise_sum] of [loops_utils.h]).  Fewer than 8 numbers are added
    one by one.  Up to 128 numbers, eight running sums take the numbers
    in turn, eight at a time; the running sums are then added in pairs
    and the numbers left over one by one.  A longer array is cut near
    its middle, at a multiple of 8, and the sums of the two parts are
    added. *)
Definition sum_loop (res : Q) (a : list Q) : Q := fold_left fadd a res.

Definition acc8 : Type := (Q * Q * Q * Q * Q * Q * Q * Q)%type.

Fixpoint unrolled (r : acc8) (a : list Q) : acc8 * list Q :=
  match a with
  | a0 :: a1 :: a2 :: a3 :: a4 :: a5 :: a6 :: a7 :: rest =>
      let '(r0, r1, r2, r3, r4, r5, r6, r7) := r in
      unrolled (fadd r0 a0, fadd r1 a1, fadd r2 a2, fadd r3 a3,
                fadd r4 a4, fadd r5 a5, fadd r6 a6, fadd r7 a7) rest
  | _ => (r, a)
  end.

Definition combine8 (r : acc8) : Q :=
  let '(r0, r1, r2, r3, r4, r5, r6, r7) := r in
  fadd (fadd (fadd r0 r1) (fadd r2 r3)) (fadd (fadd r4 r5) (fadd r6 r7)).

(** The recursion halves the array; [fuel] bounds its depth and is
    never used up when it is at least the length of the array. *)
Fixpoint pairwise (fuel : nat) (a : list Q) : Q :=
  let n := List.length a in
  if Nat.ltb n 8 then sum_loop 0 a
  else if Nat.leb n 128 then
    match a with
    | a0 :: a1 :: a2 :: a3 :: a4 :: a5 :: a6 :: a7 :: rest =>
        let (r, left_over) := unrolled (a0, a1, a2, a3, a4, a5, a6, a7) rest in
        sum_loop (combine8 r) left_over
    | _ => sum_loop 0 a
    end
  else
    match fuel with
    | O => sum_loop 0 a
    | S fuel' =>
        let n2 := (n / 2 - (n / 2) mod 8)%nat in
        fadd (pairwise fuel' (firstn n2 a)) (pairwise fuel' (skipn n2 a))
    end.

Definition pairwise_sum (a : list Q) : Q := pairwise (List.length a) a.

(** [np.add.reduce]: the pairwise sum, added to the identity 0.  (An
    integer column is cast to float in buffers of 8192 entries, each
    summed in this way; the result is the same as long as the partial
    sums stay below 2^53.) *)
Definition np_sum (a : list Q) : Q := fadd 0 (pairwise_sum a).

(** Missing entries are filled with 0 before the sum ([nansum]). *)
Definition fill0 (c : option Q) : Q :=
  match c with Some x => x | None => 0 end.

Definition nansum (xs : list (option Q)) : Q := np_sum (map fill0 xs).

Definition of_nat (n : nat) : Q := inject_Z (Z.of_nat n).

(** [Series.mean()] with the default [skipna=True] ([nanmean], without
    the optional bottleneck library):
    [the_sum / count if count > 0 else nan]. *)
Definition mean (xs : list (option Q)) : stat :=
  let count := notna_count xs in
  if Nat.eqb count 0 then NaN
  else Fin (fdiv (nansum xs) (of_nat count)).

(** [Series.std()] with [ddof=1] ([nanvar] and a square root): the
    squared deviations of missing entries are masked to 0, and the
    result is NaN when [count <= ddof]. *)
Definition sqdev (avg : Q) (c : option Q) : Q :=
  match c with
  | Some x => fmul (fsub avg x) (fsub avg x)
  | None => 0
  end.

Definition std (xs : list (option Q)) : stat :=
  let count := notna_count xs in
  if Nat.leb count 1 then NaN
  else
    let avg := fdiv (nansum xs) (of_nat count) in
    let sqr := np_sum (map (sqdev avg) xs) in
    Fin (rnd (sqrt (fdiv sqr (of_nat (count - 1)%nat)))).

(** [Series.min()] and [Series.max()]: missing entries are skipped, NaN
    when nothing is left. *)
Definition reduce (f : Q -> Q -> Q) (xs : list Q) : stat :=
  match xs with
  | [] => NaN
  | x :: r => Fin (fold_left f r x)
  end.

Definition min (xs : list (option Q)) : stat := reduce Qmin (dropna xs).
Definition max (xs : list (option Q)) : stat := reduce Qmax (dropna xs).

(** Sorting of the values [np.percentile] works on. *)
Fixpoint insert_sorted (x : Q) (l : list Q) : list Q :=
  match l with
  | [] => [x]
  | y :: r => if Qle_bool x y then x :: l else y :: insert_sorted x r
  end.

Fixpoint sort (l : list Q) : list Q :=
  match l with
  | [] => []
  | x :: r => insert_sorted x (sort r)
  end.

(** numpy's [_lerp]: [a + (b - a) * t], and [b - (b - a) * (1 - t)] where
    [t >= 0.5]. *)
Definition lerp (a b t : Q) : Q :=
  let diff_b_a := fsub b a in
  if Qle_bool (1 # 2) t then fsub b (fmul diff_b_a (fsub 1 t))
  else fadd a (fmul diff_b_a t).

(** [Series.quantile(q)] with linear interpolation: missing entries are
    dropped, the virtual index is [(n - 1) * q], and the result
    interpolates between the two closest ranks. *)
Definition quantile (q : Q) (xs : list (option Q)) : stat :=
  let arr := sort (dropna xs) in
  match arr with
  | [] => NaN
  | x0 :: _ =>
      let n := List.length arr in
      let virtual_index := fmul (of_nat (n - 1)%nat) q in
      let previous := Z.to_nat (Qfloor virtual_index) in
      let next := Nat.min (previous + 1)%nat (n - 1)%nat in
      let gamma := fsub virtual_index (of_nat previous) in
      Fin (lerp (nth previous arr x0) (nth next arr x0) gamma)
  end.

(** [Series.median()] ([nanmedian]): the middle value, or the mean of
    the two middle values. *)
Definition median (xs : list (option Q)) : stat :=
  let arr := sort (dropna xs) in
  match arr with
  | [] => NaN
  | x0 :: _ =>
      let n := List.length arr in
      if Nat.even n
      then Fin (fdiv (fadd (nth (n / 2 - 1)%nat arr x0) (nth (n / 2)%nat arr x0)) 2)
      else Fin (nth (n / 2)%nat arr x0)
  end.

End Float64.

(** ** pandas: columns and frames *)

(** The declared kinds a loaded column can have. *)
Inductive num_dtype := int64 | uint64 | float64.
Inductive text_dtype := object_ | string_.
Inductive other_dtype := timedelta64 | categorical.

Inductive dtype :=
| DNum (d : num_dtype)
| DBool
| DText (d : text_dtype)
| DDatetime (tz : bool)
| DOther (d : other_dtype).

(** A column is a typed array with missing entries; timestamps and
    durations are counted in nanoseconds. *)
Inductive Series :=
| NumSeries (d : num_dtype) (xs : list (option Q))
| BoolSeries (xs : list (option bool))
| TextSeries (d : text_dtype) (xs : list (option string))
| TimeSeries (tz : bool) (xs : list (option Z))
| OtherSeries (d : other_dtype) (xs : list (option Z)).

Definition dtype_of (s : Series) : dtype :=
  match s with
  | NumSeries d _ => DNum d
  | BoolSeries _ => DBool
  | TextSeries d _ => DText d
  | TimeSeries tz _ => DDatetime tz
  | OtherSeries d _ => DOther d
  end.

(** [pd.api.types.is_numeric_dtype]: the numpy number kinds and the
    boolean kind, never a datetime or a timedelta. *)
Definition is_numeric_dtype (d : dtype) : bool :=
  match d with DNum _ | DBool => true | _ => false end.

(** [pd.api.types.is_string_dtype] and [is_object_dtype]; the code only
    uses their disjunction. *)
Definition is_string_dtype (d : dtype) : bool :=
  match d with DText _ => true | _ => false end.

Definition is_object_dtype (d : dtype) : bool :=
  match d with DText object_ => true | _ => false end.

Definition is_datetime64_any_dtype (d : dtype) : bool :=
  match d with DDatetime _ => true | _ => false end.

Inductive value :=
| VNum (q : Q) | VBool (b : bool) | VStr (s : string) | VTime (t : Z) | VOther (z : Z).

Definition value_eqb (a b : value) : bool :=
  match a, b with
  | VNum x, VNum y => Qeq_bool x y
  | VBool x, VBool y => Bool.eqb x y
  | VStr x, VStr y => String.eqb x y
  | VTime x, VTime y => Z.eqb x y
  | VOther x, VOther y => Z.eqb x y
  | _, _ => false
  end.

(** The entries of a column, whatever its kind. *)
Definition cells (s : Series) : list (option value) :=
  match s with
  | NumSeries _ xs => map (option_map VNum) xs
  | BoolSeries xs => map (option_map VBool) xs
  | TextSeries _ xs => map (option_map VStr) xs
  | TimeSeries _ xs => map (option_map VTime) xs
  | OtherSeries _ xs => map (option_map VOther) xs
  end.

Definition len (s : Series) : nat := List.length (cells s).

(** The numbers a numeric reduction sees; booleans count as 0 and 1. *)
Definition numeric_values (s : Series) : list (option Q) :=
  match s with
  | NumSeries _ xs => xs
  | BoolSeries xs => map (option_map (fun b : bool => if b then 1 else 0)) xs
  | _ => []
  end.

Definition datetime_values (s : Series) : list (option Z) :=
  match s with
  | TimeSeries _ xs => xs
  | _ => []
  end.

(** Occurrences of [v] in [l]. *)
Definition count_occ_b (v : value) (l : list value) : nat :=
  List.length (filter (value_eqb v) l).

(** Distinct values in order of first appearance. *)
Fixpoint unique (l : list value) : list value :=
  match l with
  | [] => []
  | v :: r => v :: filter (fun w => negb (value_eqb v w)) (unique r)
  end.

(** [Series.nunique()]: missing entries are not counted. *)
Definition nunique (s : Series) : nat :=
  List.length (unique (dropna (cells s))).

(** Stable insertion sort of (value, count) pairs, largest count first. *)
Fixpoint insert_desc (p : value * nat) (l : list (value * nat)) : list (value * nat) :=
  match l with
  | [] => [p]
  | q :: r => if Nat.ltb (snd p) (snd q) then q :: insert_desc p r else p :: l
  end.

Definition sort_desc (l : list (value * nat)) : list (value * nat) :=
  fold_right insert_desc [] l.

(** [Series.value_counts()]: the count of each distinct non-missing
    value, sorted by descending count. *)
Definition value_counts (s : Series) : list (value * nat) :=
  let vals := dropna (cells s) in
  sort_desc (map (fun v => (v, count_occ_b v vals)) (unique vals)).

(** [.head(n)] *)
Definition head {A : Type} (n : nat) (l : list A) : list A := firstn n l.

(** A frame: the length of its index and its named columns. *)
Record DataFrame := mkDataFrame {
  index_len : nat;
  columns : list (string * Series)
}.

(** Every column is as long as the index, and no name is used twice. *)
Definition wf_frame (df : DataFrame) : Prop :=
  Forall (fun c => len (snd c) = index_len df) (columns df) /\
  NoDup (map fst (columns df)).

Definition column_names (df : DataFrame) : list string := map fst (columns df).

(** [df.empty]: one of the axes has length 0. *)
Definition empty (df : DataFrame) : bool :=
  Nat.eqb (index_len df) 0 || Nat.eqb (List.length (columns df)) 0.

Fixpoint lookup (name : string) (cols : list (string * Series)) : option Series :=
  match cols with
  | [] => None
  | (n, s) :: r => if String.eqb n name then Some s else lookup name r
  end.

(** [df[column]] *)
Definition getitem (df : DataFrame) (column : string) : result Series :=
  match lookup column (columns df) with
  | Some s => Ok s
  | None => Raise (mkExn KeyError column)
  end.

Fixpoint replace (name : string) (s : Series) (cols : list (string * Series))
  : list (string * Series) :=
  match cols with
  | [] => []
  | (n, s0) :: r =>
      if String.eqb n name then (n, s) :: r else (n, s0) :: replace name s r
  end.

(** [df[col] = s] for a column that exists. *)
Definition setitem (df : DataFrame) (col : string) (s : Series) : DataFrame :=
  mkDataFrame (index_len df) (replace col s (columns df)).

(** ** Streamlit: what a run writes to the page *)

Module St.

(** A piece of an f-string: literal text or a formatted value. *)
Inductive piece :=
| Lit (s : string)
| Int (n : Z)
| Float (decimals : nat) (x : stat)
| Strftime (seconds : Z)
| Dtype (d : dtype).

Definition fstring := list piece.

Inductive table :=
| FreqTable (rows : list (value * nat * stat))
| ColumnTable (name : string) (rows : list (option value)).

Inductive mark := mark_bar | mark_line | mark_circle.

Inductive chart_data :=
| Values (column : string) (vals : list value)
| Counts (column : string) (rows : list (value * nat))
| Timeline (rows : list (Z * nat))
| Points (x y : string) (rows : list (nat * (Q * Q))).

Record chart := mkChart { chart_mark : mark; title : fstring; data : chart_data }.

Inductive event :=
| subheader (s : string)
| write (s : fstring)
| warning (s : fstring)
| info (s : fstring)
| success (s : fstring)
| error (s : fstring)
| dataframe (t : table)
| altair_chart (c : chart).

(** A rendering function writes events in order and returns, or stops
    at the first exception. *)
Definition ui (A : Type) : Type := list event * result A.

Definition ret {A : Type} (a : A) : ui A := ([], Ok a).

Definition bind {A B : Type} (m : ui A) (f : A -> ui B) : ui B :=
  match snd m with
  | Ok a => (fst m ++ fst (f a), snd (f a))
  | Raise e => (fst m, Raise e)
  end.

Definition emit (e : event) : ui unit := ([e], Ok tt).

Definition lift {A : Type} (r : result A) : ui A := ([], r).

End St.
Import St.

Declare Scope ui_scope.
Delimit Scope ui_scope with ui.
Notation "x <- m ;; k" := (bind m (fun x => k))
  (at level 61, m at next level, right associativity) : ui_scope.
Notation "m ;; k" := (bind m (fun _ => k))
  (at level 61, right associativity) : ui_scope.

(** [format(x, ".<d>f")]: the value rounded half-even to [d] decimals. *)
Definition round_to (d : nat) (x : stat) : stat :=
  match x with
  | NaN => NaN
  | Fin q => Fin (inject_Z (rint (q * 10 ^ Z.of_nat d)) / 10 ^ Z.of_nat d)
  end.

Definition fmt (d : nat) (x : stat) : piece := Float d (round_to d x).

(** ** numpy: scalar arithmetic on counts and percentages *)

Section Scalars.

Variable rnd : Q -> Q.

(** [a / b] on numpy scalars: a zero divisor gives a non-finite value
    and a warning, not an exception. *)
Definition true_divide (a b : Q) : stat :=
  if Qeq_bool b 0 then NaN else Fin (fdiv rnd a b).

Definition stat_mul (a : stat) (k : Q) : stat :=
  match a with NaN => NaN | Fin x => Fin (fmul rnd x k) end.

Definition stat_rsub (k : Q) (a : stat) : stat :=
  match a with NaN => NaN | Fin x => Fin (fsub rnd k x) end.

Definition stat_eqb (a : stat) (k : Q) : bool :=
  match a with NaN => false | Fin x => Qeq_bool x k end.

Definition stat_geb (a : stat) (k : Q) : bool :=
  match a with NaN => false | Fin x => Qle_bool k x end.

(** [np.round(x, d)]: scale, round half to even, scale back. *)
Definition np_round (d : nat) (x : stat) : stat :=
  match x with
  | NaN => NaN
  | Fin q =>
      Fin (fdiv rnd (inject_Z (rint (fmul rnd q (10 ^ Z.of_nat d)))) (10 ^ Z.of_nat d))
  end.

End Scalars.

(** [Series.dropna()] on a column: the same kind, without the missing
    entries. *)
Definition keep {A : Type} (xs : list (option A)) : list (option A) :=
  map Some (dropna xs).

Definition Series_dropna (s : Series) : Series :=
  match s with
  | NumSeries d xs => NumSeries d (keep xs)
  | BoolSeries xs => BoolSeries (keep xs)
  | TextSeries d xs => TextSeries d (keep xs)
  | TimeSeries tz xs => TimeSeries tz (keep xs)
  | OtherSeries d xs => OtherSeries d (keep xs)
  end.

(** Timestamps and durations. *)
Definition ns_per_second : Z := 1000000000.
Definition ns_per_day : Z := 86400 * ns_per_second.

(** The second [strftime("%Y-%m-%d %H:%M:%S")] prints. *)
Definition strftime (t : Z) : Z := (t / ns_per_second)%Z.

(** [Timedelta.days]: the day component, a floor division. *)
Definition days (td : Z) : Z := (td / ns_per_day)%Z.

(** [Timestamp.date()], as a day number. *)
Definition date (t : Z) : Z := (t / ns_per_day)%Z.

(** [Timestamp - Timestamp]: a Timedelta holds a signed 64-bit number
    of nanoseconds, about 292 years either way, the lowest value being
    kept for NaT; a difference outside raises OutOfBoundsDatetime, a
    ValueError. *)
Definition int64_max : Z := 9223372036854775807.

Definition timestamp_sub (a b : Z) : result Z :=
  if (Z.leb (- int64_max) (a - b) && Z.leb (a - b) int64_max)%bool then Ok (a - b)%Z
  else Raise (mkExn ValueError
                "Result is too large for pandas.Timedelta. Convert inputs to datetime.datetime with 'Timestamp.to_pydatetime()' before subtracting.").

(** Minimum and maximum of the timestamps of a column; [None] for NaT. *)
Definition time_min (s : Series) : option Z :=
  match dropna (datetime_values s) with
  | [] => None
  | t :: r => Some (fold_left Z.min r t)
  end.

Definition time_max (s : Series) : option Z :=
  match dropna (datetime_values s) with
  | [] => None
  | t :: r => Some (fold_left Z.max r t)
  end.

(** [groupby(key).size()]: one row per key, keys ascending. *)
Fixpoint count_key (k : Z) (acc : list (Z * nat)) : list (Z * nat) :=
  match acc with
  | [] => [(k, 1%nat)]
  | (k0, n) :: r =>
      if Z.eqb k k0 then (k0, S n) :: r
      else if Z.ltb k k0 then (k, 1%nat) :: acc
      else (k0, n) :: count_key k r
  end.

Definition groupby_size (keys : list Z) : list (Z * nat) :=
  fold_left (fun acc k => count_key k acc) keys [].

(** ** app/components/column_analyzer.py *)

Module ColumnAnalyzer.
Section Render.

Variable rnd : Q -> Q.
Variable sqrt : Q -> Q.

Local Open Scope string_scope.
Local Open Scope ui_scope.

(** A [for] loop over a list, in the page monad. *)
Fixpoint for_each {A : Type} (l : list A) (body : A -> ui unit) : ui unit :=
  match l with
  | [] => ret tt
  | a :: r => body a ;; for_each r body
  end.

(** [for label, value in stats.items(): st.write(...)] *)
Definition write_stats (stats : list (string * piece)) : ui unit :=
  for_each stats (fun kv =>
    emit (write [Lit "- **"; Lit (fst kv); Lit ":** "; snd kv])).

(** [null_pct = (null_count / total_count) * 100] *)
Definition null_pct (s : Series) : stat :=
  let total_count := len s in
  let null_count := isna_sum (cells s) in
  stat_mul rnd (true_divide rnd (of_nat null_count) (of_nat total_count)) 100.

Definition _show_basic_info (df : DataFrame) (column : string) : ui unit :=
  emit (write [Lit "**Informações Básicas**"]) ;;
  s <- lift (getitem df column) ;;
  let dtype := dtype_of s in
  let total_count := len s in
  let unique_count := nunique s in
  let null_count := isna_sum (cells s) in
  let null_pct := null_pct s in
  emit (write [Lit "- **Tipo:** `"; Dtype dtype; Lit "`"]) ;;
  emit (write [Lit "- **Total de valores:** "; Int (Z.of_nat total_count)]) ;;
  emit (write [Lit "- **Valores únicos:** "; Int (Z.of_nat unique_count)]) ;;
  emit (write [Lit "- **Valores nulos:** "; Int (Z.of_nat null_count);
               Lit " ("; fmt 1 null_pct; Lit "%)"]) ;;
  let completeness := stat_rsub rnd 100 null_pct in
  if stat_eqb completeness 100 then
    emit (success [Lit "✓ Completude: "; fmt 1 completeness; Lit "%"])
  else if stat_geb completeness 90 then
    emit (info [Lit "Completude: "; fmt 1 completeness; Lit "%"])
  else
    emit (warning [Lit "⚠ Completude: "; fmt 1 completeness; Lit "%"]).

(** The [stats] dictionary of [_show_numeric_stats], on the column
    without its missing entries. *)
Definition numeric_stats (clean_data : Series) : list (string * piece) :=
  let xs := numeric_values clean_data in
  [ ("Média", fmt 2 (mean rnd xs));
    ("Desvio Padrão", fmt 2 (std rnd sqrt xs));
    ("Mínimo", fmt 2 (min xs));
    ("Q25 (25%)", fmt 2 (quantile rnd (1 # 4) xs));
    ("Mediana (50%)", fmt 2 (quantile rnd (1 # 2) xs));
    ("Q75 (75%)", fmt 2 (quantile rnd (3 # 4) xs));
    ("Máximo", fmt 2 (max xs)) ].

Definition _show_numeric_stats (df : DataFrame) (column : string) : ui unit :=
  emit (write [Lit "**Estatísticas (Numérico)**"]) ;;
  s <- lift (getitem df column) ;;
  let clean_data := Series_dropna s in
  if Nat.eqb (len clean_data) 0 then
    emit (warning [Lit "Todos os valores são nulos"])
  else
    write_stats (numeric_stats clean_data).

(** [(value_counts.values / len(df) * 100).round(1)], one entry. *)
Definition percentual (count total : nat) : stat :=
  np_round rnd 1 (stat_mul rnd (true_divide rnd (of_nat count) (of_nat total)) 100).

Definition _show_categorical_stats (df : DataFrame) (column : string) : ui unit :=
  emit (write [Lit "**Top 10 Valores Mais Frequentes**"]) ;;
  s <- lift (getitem df column) ;;
  let value_counts := head 10 (value_counts s) in
  if Nat.eqb (List.length value_counts) 0 then
    emit (warning [Lit "Nenhum valor encontrado"])
  else
    let freq_df :=
      map (fun vc => (fst vc, snd vc, percentual (snd vc) (index_len df))) value_counts in
    emit (dataframe (FreqTable freq_df)).

(** The [stats] dictionary of [_show_datetime_stats]; [strftime] on a
    missing minimum raises, and so does the subtraction of two
    timestamps too far apart. *)
Definition datetime_stats (clean_data : Series) : result (list (string * piece)) :=
  match time_min clean_data, time_max clean_data with
  | Some lo, Some hi =>
      match timestamp_sub hi lo with
      | Ok span =>
          Ok [ ("Data Mais Antiga", Strftime (strftime lo));
               ("Data Mais Recente", Strftime (strftime hi));
               ("Intervalo (dias)", Int (days span)) ]
      | Raise e => Raise e
      end
  | _, _ => Raise (mkExn ValueError "NaTType does not support strftime")
  end.

Definition _show_datetime_stats (df : DataFrame) (column : string) : ui unit :=
  emit (write [Lit "**Estatísticas (Data/Hora)**"]) ;;
  s <- lift (getitem df column) ;;
  let clean_data := Series_dropna s in
  if Nat.eqb (len clean_data) 0 then
    emit (warning [Lit "Todos os valores são nulos"])
  else
    stats <- lift (datetime_stats clean_data) ;;
    write_stats stats.

Definition _show_type_specific_stats (df : DataFrame) (column : string) : ui unit :=
  s <- lift (getitem df column) ;;
  if is_numeric_dtype (dtype_of s) then
    _show_numeric_stats df column
  else if is_string_dtype (dtype_of s) || is_object_dtype (dtype_of s) then
    _show_categorical_stats df column
  else if is_datetime64_any_dtype (dtype_of s) then
    _show_datetime_stats df column
  else
    emit (write [Lit "**Estatísticas**"]) ;;
    emit (info [Lit "Tipo de dado não suportado para estatísticas detalhadas"]).

Definition _plot_histogram (clean : Series) (column : string) : ui unit :=
  emit (altair_chart
          (mkChart mark_bar [Lit "Distribuição: "; Lit column]
                   (Values column (dropna (cells clean))))).

Definition _plot_bar_chart (clean : Series) (column : string) : ui unit :=
  let value_counts := head 15 (value_counts clean) in
  emit (altair_chart
          (mkChart mark_bar [Lit "Top 15 Valores: "; Lit column]
                   (Counts column value_counts))).

Definition _plot_timeline (clean : Series) (column : string) : ui unit :=
  let counts := groupby_size (map date (dropna (datetime_values clean))) in
  emit (altair_chart
          (mkChart mark_line [Lit "Distribuição Temporal: "; Lit column]
                   (Timeline counts))).

Definition _show_column_visualization (df : DataFrame) (column : string) : ui unit :=
  emit (write [Lit "**Visualização**"]) ;;
  s <- lift (getitem df column) ;;
  let clean_df := Series_dropna s in
  if Nat.eqb (len clean_df) 0 then
    emit (warning [Lit "Todos os valores são nulos - visualização não disponível"])
  else if is_numeric_dtype (dtype_of s) then
    _plot_histogram clean_df column
  else if is_string_dtype (dtype_of s) || is_object_dtype (dtype_of s) then
    _plot_bar_chart clean_df column
  else if is_datetime64_any_dtype (dtype_of s) then
    _plot_timeline clean_df column
  else
    emit (info [Lit "Visualização não disponível para este tipo de dado"]).

(** [analyze_columns(df)]; [selected] is what the select box returns. *)
Definition analyze_columns (df : DataFrame) (selected : option string) : ui unit :=
  emit (subheader "Análise Detalhada de Colunas") ;;
  if empty df then
    emit (warning [Lit "DataFrame vazio. Carregue um dataset para começar."])
  else
    match selected with
    | None => ret tt
    | Some "" => ret tt
    | Some column =>
        _show_basic_info df column ;;
        _show_type_specific_stats df column ;;
        _show_column_visualization df column ;;
        emit (write [Lit "**Amostra de Valores**"]) ;;
        let sample_size := Nat.min 20 (index_len df) in
        s <- lift (getitem df column) ;;
        emit (dataframe (ColumnTable column (head sample_size (cells s))))
    end.

End Render.
End ColumnAnalyzer.

(** ** Python strings *)

Definition lower_ascii (c : ascii) : ascii :=
  let n := nat_of_ascii c in
  if Nat.leb 65 n && Nat.leb n 90 then ascii_of_nat (n + 32) else c.

(** [str.lower()] on ASCII letters; other bytes are kept. *)
Fixpoint lower (s : string) : string :=
  match s with
  | EmptyString => EmptyString
  | String c r => String (lower_ascii c) (lower r)
  end.

(** [pattern in s] *)
Fixpoint contains (pattern s : string) : bool :=
  String.prefix pattern s ||
  match s with
  | EmptyString => false
  | String _ r => contains pattern r
  end.

(** ** app/utils/huggingface_client.py *)

Module HuggingfaceClient.

Local Open Scope string_scope.
Local Open Scope list_scope.

(** What the module logs. *)
Inductive log_record :=
| info_loading (dataset_name split : string)
| info_loaded (records : nat)
| info_processed (records columns : nat)
| error_validation (e : exn)
| error_loading (e : exn)
| debug_converted (col : string)
| debug_not_converted (col : string) (e : exn).

Definition date_patterns : list string :=
  ["date"; "time"; "timestamp"; "_at"; "_date"; "_time"].

Section Datetime.

(** The parser of one string, and the conversion of the columns that
    do not hold text (numbers, booleans, durations, categories), which
    may raise. *)
Variable parse_datetime : string -> option Z.
Variable convert_non_text : Series -> result Series.

(** [pd.to_datetime(arg, errors="coerce")]: a text entry that does
    not parse becomes NaT. *)
Definition to_datetime (arg : Series) : result Series :=
  match arg with
  | TextSeries _ xs =>
      Ok (TimeSeries false
            (map (fun c => match c with
                           | Some str => parse_datetime str
                           | None => None
                           end) xs))
  | TimeSeries _ _ => Ok arg
  | _ => convert_non_text arg
  end.

(** One turn of the loop over [df.columns]. *)
Definition process_column (st : DataFrame * list log_record) (col : string)
  : DataFrame * list log_record :=
  let (df, log) := st in
  let col_lower := lower col in
  if existsb (fun pattern => contains pattern col_lower) date_patterns then
    match getitem df col with
    | Ok s =>
        match to_datetime s with
        | Ok converted => (setitem df col converted, log ++ [debug_converted col])
        | Raise e => (df, log ++ [debug_not_converted col e])
        end
    | Raise e => (df, log ++ [debug_not_converted col e])
    end
  else (df, log).

Definition _process_datetime_columns (df : DataFrame) : DataFrame * list log_record :=
  fold_left process_column (column_names df) (df, []).

End Datetime.

Section Load.

Variable parse_datetime : string -> option Z.
Variable convert_non_text : Series -> result Series.

(** The [datasets] library: a loaded dataset, the call that fetches
    it, its length and its conversion to a frame. *)
Variable Dataset : Type.
Variable load_dataset : string -> option string -> string -> result Dataset.
Variable num_rows : Dataset -> nat.
Variable to_pandas : Dataset -> DataFrame.

(** The body of the [try] block; an empty subset counts as none
    ([if subset]). *)
Definition load_and_process (dataset_name split : string) (subset : option string)
  : list log_record * result DataFrame :=
  let log := [info_loading dataset_name split] in
  let config := match subset with
                | Some "" => None
                | _ => subset
                end in
  match load_dataset dataset_name config split with
  | Raise e => (log, Raise e)
  | Ok dataset =>
      let log := log ++ [info_loaded (num_rows dataset)] in
      let df := to_pandas dataset in
      let (df, dbg) := _process_datetime_columns parse_datetime convert_non_text df in
      (log ++ dbg ++ [info_processed (index_len df) (List.length (columns df))], Ok df)
  end.

Definition load_hf_dataset (dataset_name split : string) (subset : option string)
  : list log_record * result DataFrame :=
  match load_and_process dataset_name split subset with
  | (log, Ok df) => (log, Ok df)
  | (log, Raise e) =>
      if is_ValueError e then
        (log ++ [error_validation e],
         Raise (mkExn ValueError
                  ("Dataset '" ++ dataset_name ++ "' não encontrado ou split '"
                   ++ split ++ "' inválido. Verifique o nome e tente novamente.")%string))
      else
        (log ++ [error_loading e],
         Raise (mkExn Exception
                  ("Erro ao carregar dataset '" ++ dataset_name ++ "': " ++ str e)%string))
  end.

End Load.

Record NumericStats := mkNumericStats {
  stats_mean : stat; stats_std : stat; stats_min : stat; stats_max : stat;
  stats_median : stat; stats_q25 : stat; stats_q75 : stat
}.

(** The dictionary [get_column_stats] returns; the numeric keys are
    present only for a numeric column. *)
Record ColumnStats := mkColumnStats {
  stats_column : string;
  stats_dtype : dtype;
  stats_count : nat;
  stats_unique : nat;
  stats_null_count : nat;
  stats_null_pct : stat;
  stats_numeric : option NumericStats
}.

Section Stats.

Variable rnd : Q -> Q.
Variable sqrt : Q -> Q.

Definition numeric_stats (s : Series) : NumericStats :=
  let xs := numeric_values s in
  mkNumericStats (mean rnd xs) (std rnd sqrt xs) (min xs) (max xs)
                 (median rnd xs) (quantile rnd (1 # 4) xs) (quantile rnd (3 # 4) xs).

Definition get_column_stats (df : DataFrame) (column : string) : result ColumnStats :=
  match getitem df column with
  | Raise e => Raise e
  | Ok s =>
      Ok (mkColumnStats
            column
            (dtype_of s)
            (len s)
            (nunique s)
            (isna_sum (cells s))
            (stat_mul rnd (true_divide rnd (of_nat (isna_sum (cells s))) (of_nat (len s))) 100)
            (if is_numeric_dtype (dtype_of s) then Some (numeric_stats s) else None))
  end.

End Stats.

End HuggingfaceClient.

(** ** app/components/data_visualizer.py *)

Module DataVisualizer.

Local Open Scope string_scope.
Local Open Scope list_scope.
Local Open Scope ui_scope.

Definition _render_bar_chart (df : DataFrame) (categorical_cols : list string)
           (column : string) (top_n : nat) : ui unit :=
  match categorical_cols with
  | [] => emit (warning [Lit "Nenhuma coluna categórica disponível"])
  | _ =>
      s <- lift (getitem df column) ;;
      let value_counts := head top_n (value_counts s) in
      emit (altair_chart
              (mkChart mark_bar
                       [Lit "Top "; Int (Z.of_nat top_n); Lit " Valores: "; Lit column]
                       (Counts column value_counts)))
  end.

(** A row of [df[[x_col, y_col]]]: its index label and the two entries. *)
Definition row : Type := nat * (option Q * option Q).
Definition point : Type := nat * (Q * Q).

Definition rows_of (xs ys : Series) : list row :=
  combine (seq 0 (len xs)) (combine (numeric_values xs) (numeric_values ys)).

(** [DataFrame.dropna()]: the rows without a missing entry. *)
Fixpoint dropna_rows (rows : list row) : list point :=
  match rows with
  | [] => []
  | (i, (Some x, Some y)) :: r => (i, (x, y)) :: dropna_rows r
  | _ :: r => dropna_rows r
  end.

Section Sampling.

(** numpy's generator: its states, [RandomState(seed)], and the
    permutation of [0 .. n-1] a state draws. *)
Variable rng : Type.
Variable RandomState : Z -> rng.
Variable permutation : rng -> nat -> list nat.

(** [DataFrame.take(indices)] *)
Fixpoint take {A : Type} (indices : list nat) (rows : list A) : result (list A) :=
  match indices with
  | [] => Ok []
  | i :: r =>
      match nth_error rows i, take r rows with
      | Some x, Ok l => Ok (x :: l)
      | None, _ => Raise (mkExn IndexError "indices are out-of-bounds")
      | _, Raise e => Raise e
      end
  end.

(** [DataFrame.sample(n, random_state=...)], without replacement: the
    first [n] entries of a permutation of the positions, drawn from a
    fresh generator when a seed is given and from the global one
    otherwise. *)
Definition sample {A : Type} (n : nat) (random_state : option Z) (global : rng)
           (rows : list A) : result (list A) :=
  let g := match random_state with
           | Some seed => RandomState seed
           | None => global
           end in
  if Nat.ltb (List.length rows) n then
    Raise (mkExn ValueError
             "Cannot take a larger sample than population when 'replace=False'")
  else take (firstn n (permutation g (List.length rows))) rows.

Definition _render_scatter (global : rng) (df : DataFrame) (numeric_cols : list string)
           (x_col y_col : string) : ui unit :=
  if Nat.ltb (List.length numeric_cols) 2 then
    emit (warning [Lit "Necessário pelo menos 2 colunas numéricas"])
  else
    xs <- lift (getitem df x_col) ;;
    ys <- lift (getitem df y_col) ;;
    let clean_df := dropna_rows (rows_of xs ys) in
    if Nat.eqb (List.length clean_df) 0 then
      emit (warning [Lit "Nenhum dado válido após remover NaN"])
    else
      clean_df <-
        (if Nat.ltb 5000 (List.length clean_df) then
           emit (info [Lit "Amostrando 5000 de "; Int (Z.of_nat (List.length clean_df));
                       Lit " pontos para melhor performance"]) ;;
           lift (sample 5000 (Some 42%Z) global clean_df)
         else ret clean_df) ;;
      emit (altair_chart
              (mkChart mark_circle
                       [Lit "Relação: "; Lit x_col; Lit " vs "; Lit y_col]
                       (Points x_col y_col clean_df))).

End Sampling.

End DataVisualizer.

(** ** app/main.py *)

Module Main.

Local Open Scope string_scope.
Local Open Scope list_scope.
Local Open Scope ui_scope.

Record DatasetExplorer := mkExplorer {
  df : option DataFrame;
  dataset_name : string
}.

Section Explorer.

(** [load_hf_dataset], with the default subset. *)
Variable load_hf_dataset : string -> string -> result DataFrame.

(** [DatasetExplorer.load_dataset]: the explorer afterwards and what
    the page shows. *)
Definition load_dataset (self : DatasetExplorer) (dataset_name split : string)
  : DatasetExplorer * ui unit :=
  match load_hf_dataset dataset_name split with
  | Ok loaded =>
      (mkExplorer (Some loaded) dataset_name,
       emit (success [Lit "✅ Dataset carregado: "; Int (Z.of_nat (index_len loaded));
                      Lit " registros, "; Int (Z.of_nat (List.length (columns loaded)));
                      Lit " colunas"]))
  | Raise e =>
      if is_ValueError e then
        (self,
         emit (error [Lit "❌ Erro de validação: "; Lit (str e)]) ;;
         emit (info [Lit "💡 **Dica:** Verifique se o nome do dataset está correto. Você pode encontrar datasets em https://huggingface.co/datasets"]))
      else
        (self, emit (error [Lit "❌ Erro ao carregar dataset: "; Lit (str e)]))
  end.

End Explorer.

End Main.

(** ** The page of the application *)

Module Page.

(** The charts of the visualization tab that carry more than the
    column analyzer's. *)
Inductive plot :=
| hist_plot (column : string) (maxbins : nat) (vals : list value)
| count_line_plot (date_col : string) (rows : list (Z * nat))
| sum_line_plot (date_col value_col : string) (rows : list (Z * Q))
| box_plot (value_col : string) (group_col : option string)
           (rows : list (value * option value))
| heat_plot (cells : list (string * string * stat)).

(** One line of the column table of the overview: name, kind, distinct
    values, missing entries and their percentage. *)
Definition info_row : Type := string * dtype * nat * nat * stat.

(** What a run of the application shows: the events of the components,
    and the calls only the visualizer and [main.py] make. *)
Inductive page_event :=
| component (e : event)
| plotted (p : plot)
| page_title (s : string)
| markdown (s : string)
| header (s : string)
| metric (label : string) (value : fstring)
| preview (shown : DataFrame)
| column_info (rows : list info_row)
| tabs (labels : list string)
| divider
| caption (s : string).

Definition page (A : Type) : Type := list page_event * result A.

Definition pret {A : Type} (a : A) : page A := ([], Ok a).

Definition pbind {A B : Type} (m : page A) (f : A -> page B) : page B :=
  match snd m with
  | Ok a => (fst m ++ fst (f a), snd (f a))
  | Raise e => (fst m, Raise e)
  end.

Definition show (e : page_event) : page unit := ([e], Ok tt).

Definition plift {A : Type} (r : result A) : page A := ([], r).

(** A component rendered inside the page. *)
Definition embed {A : Type} (m : ui A) : page A := (map component (fst m), snd m).

End Page.
Import Page.

Declare Scope page_scope.
Delimit Scope page_scope with page.
Notation "x <- m ;; k" := (pbind m (fun x => k))
  (at level 61, m at next level, right associativity) : page_scope.
Notation "m ;; k" := (pbind m (fun _ => k))
  (at level 61, right associativity) : page_scope.

(** ** app/components/data_visualizer.py, the other charts *)

Module Charts.

Local Open Scope string_scope.
Local Open Scope list_scope.
Local Open Scope page_scope.

Definition _render_histogram (df : DataFrame) (numeric_cols : list string)
           (column : string) (bins : nat) : page unit :=
  match numeric_cols with
  | [] => show (component (warning [Lit "Nenhuma coluna numérica disponível"]))
  | _ =>
      s <- plift (getitem df column) ;;
      let clean_df := Series_dropna s in
      if Nat.eqb (len clean_df) 0 then
        show (component (warning [Lit "Todos os valores são nulos"]))
      else
        show (plotted (hist_plot column bins (dropna (cells clean_df))))
  end.

(** The two modes of the timeline. *)
Inductive mode := count_occurrences | sum_values.

(** [if value_col]: a name that is missing or empty selects nothing. *)
Definition chosen (value_col : option string) : option string :=
  match value_col with
  | Some "" => None
  | _ => value_col
  end.

(** [Series.dt.date]: only a datetime column has it. *)
Definition dt (s : Series) : result (list (option Z)) :=
  match s with
  | TimeSeries _ xs => Ok xs
  | OtherSeries timedelta64 _ =>
      Raise (mkExn Exception "'TimedeltaProperties' object has no attribute 'date'")
  | _ => Raise (mkExn Exception "Can only use .dt accessor with datetimelike values")
  end.

(** One step of the compensated sum of [group_sum]. *)
Definition kahan_add (rnd : Q -> Q) (acc : Q * Q) (val : Q) : Q * Q :=
  let (sumx, compensation) := acc in
  let y := fsub rnd val compensation in
  let t := fadd rnd sumx y in
  (t, fsub rnd (fsub rnd t sumx) y).

(** [groupby(key)[col].sum()]: one row per key, keys ascending, the
    values of a key added in the order of the rows. *)
Fixpoint add_key (rnd : Q -> Q) (k : Z) (v : Q) (acc : list (Z * (Q * Q)))
  : list (Z * (Q * Q)) :=
  match acc with
  | [] => [(k, kahan_add rnd (0, 0) v)]
  | (k0, a) :: r =>
      if Z.eqb k k0 then (k0, kahan_add rnd a v) :: r
      else if Z.ltb k k0 then (k, kahan_add rnd (0, 0) v) :: acc
      else (k0, a) :: add_key rnd k v r
  end.

Definition groupby_sum (rnd : Q -> Q) (rows : list (Z * Q)) : list (Z * Q) :=
  map (fun p => (fst p, fst (snd p)))
      (fold_left (fun acc r => add_key rnd (fst r) (snd r) acc) rows []).

(** The rows of a two-column frame after [dropna()]: both entries
    present. *)
Fixpoint complete_pairs {A B : Type} (xs : list (option A)) (ys : list (option B))
  : list (A * B) :=
  match xs, ys with
  | Some x :: xr, Some y :: yr => (x, y) :: complete_pairs xr yr
  | _ :: xr, _ :: yr => complete_pairs xr yr
  | _, _ => []
  end.

(** The numbers of a column of numbers. *)
Definition numbers (s : Series) : option (list (option Q)) :=
  match s with
  | NumSeries _ xs => Some xs
  | _ => None
  end.

Section Timeline.

Variable rnd : Q -> Q.

(** What the sum and its chart give when the value column does not
    hold numbers, or is the date column, or is itself called "date"
    and has been overwritten by [clean_df["date"] = ...]. *)
Variable other_sum : DataFrame -> string -> string -> page unit.

(** [_render_timeline]; [mode] and [value_choice] are what the radio
    and the select box of the value column return. *)
Definition _render_timeline (df : DataFrame)
           (datetime_cols numeric_cols categorical_cols : list string)
           (date_col : string) (mode : mode) (value_choice : string) : page unit :=
  match datetime_cols with
  | [] => show (component (warning [Lit "Nenhuma coluna de data/hora disponível"]))
  | _ =>
      let value_col :=
        match mode, numeric_cols with
        | sum_values, _ :: _ => Some value_choice
        | _, _ => None
        end in
      dates <- plift (getitem df date_col) ;;
      match chosen value_col with
      | None =>
          let clean_df := Series_dropna dates in
          if Nat.eqb (len clean_df) 0 then
            show (component (warning [Lit "Nenhum dado válido"]))
          else
            stamps <- plift (dt clean_df) ;;
            match mode, value_col with
            | count_occurrences, _ =>
                show (plotted (count_line_plot date_col
                                 (groupby_size (map date (dropna stamps)))))
            | sum_values, None =>
                plift (Raise (mkExn KeyError "Column not found: None"))
            | sum_values, Some col =>
                if String.eqb col date_col then other_sum df date_col col
                else plift (Raise (mkExn KeyError ("Column not found: " ++ col)))
            end
      | Some col =>
          vals <- plift (getitem df col) ;;
          if Nat.eqb (List.length (complete_pairs (cells dates) (cells vals))) 0 then
            show (component (warning [Lit "Nenhum dado válido"]))
          else if String.eqb col date_col then other_sum df date_col col
          else
            stamps <- plift (dt dates) ;;
            match numbers vals with
            | Some xs =>
                if String.eqb col "date" then other_sum df date_col col
                else
                  let clean_df := complete_pairs stamps xs in
                  show (plotted (sum_line_plot date_col col
                                   (groupby_sum rnd
                                      (map (fun r => (date (fst r), snd r)) clean_df))))
            | None => other_sum df date_col col
            end
      end
  end.

End Timeline.

(** [Series.value_counts()] on the values of a column of a cleaned
    frame. *)
Definition value_counts_of (vals : list value) : list (value * nat) :=
  sort_desc (map (fun v => (v, count_occ_b v vals)) (unique vals)).

(** [Series.isin(values)], on one entry. *)
Definition isin (v : value) (values : list value) : bool :=
  existsb (value_eqb v) values.

Section Boxplot.

(** What pandas and the chart give when the value column is also the
    grouping column. *)
Variable same_column : DataFrame -> string -> page unit.

(** [_render_boxplot]; [group_choice] is what the select box of the
    grouping column returns when there are categorical columns. *)
Definition _render_boxplot (df : DataFrame) (numeric_cols categorical_cols : list string)
           (value_col group_choice : string) : page unit :=
  match numeric_cols with
  | [] => show (component (warning [Lit "Nenhuma coluna numérica disponível"]))
  | _ =>
      let group_col :=
        match categorical_cols with
        | [] => "Nenhum"
        | _ => group_choice
        end in
      if String.eqb group_col "Nenhum" then
        vals <- plift (getitem df value_col) ;;
        let clean_df := dropna (cells vals) in
        show (plotted (box_plot value_col None (map (fun v => (v, None)) clean_df)))
      else if String.eqb value_col group_col then same_column df value_col
      else
        vals <- plift (getitem df value_col) ;;
        groups <- plift (getitem df group_col) ;;
        let clean_df := complete_pairs (cells vals) (cells groups) in
        let top_categories := map fst (head 15 (value_counts_of (map snd clean_df))) in
        let clean_df := filter (fun r => isin (snd r) top_categories) clean_df in
        show (plotted (box_plot value_col (Some group_col)
                         (map (fun r => (fst r, Some (snd r))) clean_df)))
  end.

End Boxplot.

Section Heatmap.

(** [df[selected_cols].corr().reset_index().melt("index")]: one row
    per pair of columns, or the exception pandas raises. *)
Variable corr_matrix : DataFrame -> list string -> result (list (string * string * stat)).

Definition _render_correlation_heatmap (df : DataFrame) (numeric_cols : list string)
  : page unit :=
  if Nat.ltb (List.length numeric_cols) 2 then
    show (component (warning [Lit "Necessário pelo menos 2 colunas numéricas"]))
  else
    selected_cols <-
      (if Nat.ltb 20 (List.length numeric_cols) then
         show (component (info [Lit "Mostrando apenas as primeiras 20 colunas numéricas"])) ;;
         pret (firstn 20 numeric_cols)
       else pret numeric_cols) ;;
    corr <- plift (corr_matrix df selected_cols) ;;
    show (plotted (heat_plot corr)).

End Heatmap.

(** The kinds of chart of the select box. *)
Inductive viz_type :=
| Histograma | Grafico_de_Barras | Scatter_Plot | Linha_Temporal | Box_Plot | Mapa_de_Calor.

(** What the widgets of the visualization tab return. *)
Record VizWidgets := mkVizWidgets {
  viz_choice : viz_type;
  hist_col : string; hist_bins : nat;
  bar_col : string; bar_topn : nat;
  scatter_x : string; scatter_y : string;
  time_date : string; time_mode : mode; time_value : string;
  box_value : string; box_group : string
}.

Section Visualizations.

Variable rnd : Q -> Q.
Variable other_sum : DataFrame -> string -> string -> page unit.
Variable same_column : DataFrame -> string -> page unit.
Variable corr_matrix : DataFrame -> list string -> result (list (string * string * stat)).
Variable rng : Type.
Variable RandomState : Z -> rng.
Variable permutation : rng -> nat -> list nat.

(** [df.select_dtypes(include=...).columns.tolist()] *)
Variable select_dtypes : list string -> DataFrame -> list string.

Definition create_visualizations (global : rng) (w : VizWidgets) (df : DataFrame)
  : page unit :=
  show (component (subheader "Visualizações Customizadas")) ;;
  if empty df then
    show (component (warning [Lit "DataFrame vazio. Carregue um dataset para começar."]))
  else
    let numeric_cols := select_dtypes ["number"] df in
    let categorical_cols := select_dtypes ["object"; "category"] df in
    let datetime_cols := select_dtypes ["datetime64"] df in
    match numeric_cols, categorical_cols, datetime_cols with
    | [], [], [] =>
        show (component (info [Lit "Nenhuma coluna adequada encontrada para visualização"]))
    | _, _, _ =>
        match viz_choice w with
        | Histograma => _render_histogram df numeric_cols (hist_col w) (hist_bins w)
        | Grafico_de_Barras =>
            embed (DataVisualizer._render_bar_chart df categorical_cols (bar_col w) (bar_topn w))
        | Scatter_Plot =>
            embed (DataVisualizer._render_scatter RandomState permutation global df
                     numeric_cols (scatter_x w) (scatter_y w))
        | Linha_Temporal =>
            _render_timeline rnd other_sum df datetime_cols numeric_cols
                             categorical_cols (time_date w) (time_mode w) (time_value w)
        | Box_Plot =>
            _render_boxplot same_column df numeric_cols categorical_cols (box_value w)
                            (box_group w)
        | Mapa_de_Calor => _render_correlation_heatmap corr_matrix df numeric_cols
        end
    end.

End Visualizations.

End Charts.

(** ** app/main.py, the page *)

Module App.

Local Open Scope string_scope.
Local Open Scope list_scope.
Local Open Scope page_scope.

(** What the widgets of a run return. *)
Record Widgets := mkWidgets {
  dataset_choice : string;
  typed_name : string;
  split_choice : string;
  pressed : bool;
  selected_column : option string;
  viz : Charts.VizWidgets
}.

(** [st.button]: true in the run that follows a click, which a
    disabled button never gets. *)
Definition button (disabled pressed : bool) : bool := pressed && negb disabled.

(** [DatasetExplorer.render_sidebar] *)
Definition render_sidebar (w : Widgets) : page (string * string * bool) :=
  show (header "⚙ Configuração") ;;
  let dataset_name :=
    if String.eqb (dataset_choice w) "Outro..." then typed_name w else dataset_choice w in
  let split := split_choice w in
  let load_button := button (String.eqb dataset_name "") (pressed w) in
  pret (dataset_name, split, load_button).

(** [Series.head(n)] and [DataFrame.head(n)] *)
Definition Series_head (n : nat) (s : Series) : Series :=
  match s with
  | NumSeries d xs => NumSeries d (head n xs)
  | BoolSeries xs => BoolSeries (head n xs)
  | TextSeries d xs => TextSeries d (head n xs)
  | TimeSeries tz xs => TimeSeries tz (head n xs)
  | OtherSeries d xs => OtherSeries d (head n xs)
  end.

Definition DataFrame_head (n : nat) (df : DataFrame) : DataFrame :=
  mkDataFrame (Nat.min n (index_len df))
              (map (fun c => (fst c, Series_head n (snd c))) (columns df)).

(** [df.isna().sum().sum()] and [df.size] *)
Definition isna_total (df : DataFrame) : nat :=
  list_sum (map (fun c => isna_sum (cells (snd c))) (columns df)).

Definition size (df : DataFrame) : nat :=
  (index_len df * List.length (columns df))%nat.

Section Run.

Variable rnd : Q -> Q.
Variable sqrt : Q -> Q.
Variable other_sum : DataFrame -> string -> string -> page unit.
Variable same_column : DataFrame -> string -> page unit.
Variable corr_matrix : DataFrame -> list string -> result (list (string * string * stat)).
Variable rng : Type.
Variable RandomState : Z -> rng.
Variable permutation : rng -> nat -> list nat.
Variable select_dtypes : list string -> DataFrame -> list string.

(** [load_hf_dataset], with the default subset. *)
Variable load_hf_dataset : string -> string -> result DataFrame.

(** [df.memory_usage(deep=True).sum()], in bytes. *)
Variable memory_usage : DataFrame -> nat.

(** [st.slider(label, min_value, max_value, value, step)]: the
    position of the slider, or the exception Streamlit raises for its
    arguments. *)
Variable slider : nat -> nat -> nat -> nat -> result nat.

(** [DatasetExplorer.render_overview_tab] *)
Definition render_overview_tab (self : Main.DatasetExplorer) : page unit :=
  show (component (subheader "Visão Geral do Dataset")) ;;
  match Main.df self with
  | None => show (component (info [Lit "👈 Selecione um dataset na sidebar para começar"]))
  | Some df =>
      if empty df then
        show (component (info [Lit "👈 Selecione um dataset na sidebar para começar"]))
      else
        show (metric "Registros" [Int (Z.of_nat (index_len df))]) ;;
        show (metric "Colunas" [Int (Z.of_nat (List.length (columns df)))]) ;;
        let memory_mb := Fin (fdiv rnd (of_nat (memory_usage df)) (1024 ^ 2)) in
        show (metric "Tamanho" [fmt 1 memory_mb; Lit " MB"]) ;;
        let null_pct :=
          stat_mul rnd (true_divide rnd (of_nat (isna_total df)) (of_nat (size df))) 100 in
        show (metric "Dados Completos" [fmt 1 (stat_rsub rnd 100 null_pct); Lit "%"]) ;;
        show (component (subheader "Preview dos Dados")) ;;
        preview_rows <-
          plift (slider 5 (Nat.min 500 (index_len df)) (Nat.min 100 (index_len df)) 5) ;;
        show (preview (DataFrame_head preview_rows df)) ;;
        show (component (subheader "Informações das Colunas")) ;;
        let col_info :=
          map (fun c =>
                 let nulls := isna_sum (cells (snd c)) in
                 (fst c, dtype_of (snd c), nunique (snd c), nulls,
                  np_round rnd 1
                    (stat_mul rnd (true_divide rnd (of_nat nulls) (of_nat (index_len df)))
                              100)))
              (columns df) in
        show (column_info col_info)
  end.

(** The text under the title. *)
Definition introduction : string :=
"
            Template para explorar e analisar datasets do [HuggingFace Hub](https://huggingface.co/datasets).

            **Recursos:**
            - 📊 Carregamento automático de datasets
            - 🔍 Análise detalhada de colunas
            - 📈 Visualizações interativas
            - 💾 Cache inteligente (6 horas)
            ".

(** [DatasetExplorer.run], returning the explorer as the run leaves
    it; [global] is the state of numpy's global generator. *)
Definition run (self : Main.DatasetExplorer) (global : rng) (w : Widgets)
  : page Main.DatasetExplorer :=
  show (page_title "🤗 HuggingFace Dataset Explorer") ;;
  show (markdown introduction) ;;
  sidebar <- render_sidebar w ;;
  let '(dataset_name, split, load_button) := sidebar in
  self <-
    (if load_button && negb (String.eqb dataset_name "") then
       let loading := Main.load_dataset load_hf_dataset self dataset_name split in
       embed (snd loading) ;;
       pret (fst loading)
     else pret self) ;;
  match Main.df self with
  | Some _ =>
      show (component (info [Lit "📦 **Dataset Atual:** `"; Lit (Main.dataset_name self);
                             Lit "` (split: `"; Lit split; Lit "`)"]))
  | None => pret tt
  end ;;
  show (tabs ["📊 Visão Geral"; "🔍 Análise de Colunas"; "📈 Visualizações"]) ;;
  render_overview_tab self ;;
  match Main.df self with
  | Some df =>
      if empty df then
        show (component (info [Lit "👈 Carregue um dataset para começar a análise"]))
      else embed (ColumnAnalyzer.analyze_columns rnd sqrt df (selected_column w))
  | None =>
      show (component (info [Lit "👈 Carregue um dataset para começar a análise"]))
  end ;;
  match Main.df self with
  | Some df =>
      if empty df then
        show (component (info [Lit "👈 Carregue um dataset para criar visualizações"]))
      else Charts.create_visualizations rnd other_sum same_column corr_matrix RandomState
                                        permutation select_dtypes global (viz w) df
  | None =>
      show (component (info [Lit "👈 Carregue um dataset para criar visualizações"]))
  end ;;
  show divider ;;
  show (caption "💡 **Dica:** Use este template como base para criar seus próprios apps de análise de dados!") ;;
  pret self.

(** [main]: a new explorer for every run of the script. *)
Definition main (global : rng) (w : Widgets) : page Main.DatasetExplorer :=
  run (Main.mkExplorer None "") global w.

End Run.

End App.

(** ** The four categories of a column *)

Inductive category := NUMERIC | TEXTUAL | TEMPORAL | UNSUPPORTED.

(** The branch [_show_type_specific_stats] takes, as a function of the
    declared kind. *)
Definition classify (d : dtype) : category :=
  if is_numeric_dtype d then NUMERIC
  else if is_string_dtype d || is_object_dtype d then TEXTUAL
  else if is_datetime64_any_dtype d then TEMPORAL
  else UNSUPPORTED.

Import ColumnAnalyzer HuggingfaceClient DataVisualizer Main.
Import Charts App.

(** ** Vocabulary of the properties *)

Section Vocabulary.

Local Open Scope string_scope.
Local Open Scope list_scope.

(** What the page shows for a kind without detailed statistics. *)
Definition not_supported_notice : list event :=
  [ write [Lit "**Estatísticas**"];
    info [Lit "Tipo de dado não suportado para estatísticas detalhadas"] ].

(** The messages of the two errors [load_hf_dataset] raises. *)
Definition validation_message (dataset_name split : string) : string :=
  ("Dataset '" ++ dataset_name ++ "' não encontrado ou split '" ++ split
   ++ "' inválido. Verifique o nome e tente novamente.")%string.

Definition load_error_message (dataset_name : string) (e : exn) : string :=
  ("Erro ao carregar dataset '" ++ dataset_name ++ "': " ++ str e)%string.

(** The hint [load_dataset] adds after a validation error. *)
Definition tip : event :=
  info [Lit "💡 **Dica:** Verifique se o nome do dataset está correto. Você pode encontrar datasets em https://huggingface.co/datasets"].

(** [pattern] occurs in [s]. *)
Definition is_substring (pattern s : string) : Prop :=
  exists a b, s = (a ++ pattern ++ b)%string.

(** The name matches one of the date patterns, case-insensitively. *)
Definition date_like (col : string) : Prop :=
  exists pattern, In pattern date_patterns /\ is_substring pattern (lower col).

(** A conversion of [col] was attempted, as the debug log records it. *)
Definition attempted (col : string) (log : list log_record) : Prop :=
  In (debug_converted col) log \/ exists e, In (debug_not_converted col e) log.

(** The test of the loop, on one column name. *)
Definition matches (col : string) : bool :=
  existsb (fun pattern => contains pattern (lower col)) date_patterns.

(** A parser that knows one date, and a conversion that refuses every
    column that is not text. *)
Definition toy_parse (str : string) : option Z :=
  if String.eqb str "2024-01-01" then Some 1704067200000000000%Z else None.

Definition toy_convert (s : Series) : result Series :=
  Raise (mkExn TypeError "not convertible to datetime").

(** A frame with a date-like text column and a numeric column. *)
Definition toy_frame : DataFrame :=
  mkDataFrame 3
    [ ("created_at", TextSeries object_ [Some "2024-01-01"; Some "soon"; None]);
      ("value", NumSeries int64 [Some 1; Some 2; Some 3]) ].

(** A generator with one state, whose permutation is the reversal. *)
Definition toy_permutation (g : unit) (n : nat) : list nat := rev (seq 0 n).

(** Two numeric columns of 5001 complete rows. *)
Definition long_frame : DataFrame :=
  let column := NumSeries float64 (repeat (Some 1%Q) 5001) in
  mkDataFrame 5001 [("a", column); ("b", column)].


(** The sum of a list of rationals. *)
Definition Qsum (l : list Q) : Q := fold_right Qplus 0 l.



(** The categorical column of the test suite. *)
Definition category_column : Series :=
  TextSeries object_ [Some "A"; Some "B"; Some "A"; Some "C"; Some "A"; None].

Definition category_frame : DataFrame := mkDataFrame 6 [("category", category_column)].





(** The value at the virtual index [h] of a sorted array. *)
Definition interp (arr : list Q) (h : Q) : Q :=
  let i := Z.to_nat (Qfloor h) in
  let j := Nat.min (i + 1) (List.length arr - 1) in
  nth i arr 0 + (nth j arr 0 - nth i arr 0) * (h - of_nat i).

(** The float64 nearest to 0.1. *)
Definition tenth : Q := rn53 (1 # 10).

(** The rows counted for the day [d]. *)
Definition counted (d : Z) (rows : list (Z * nat)) : nat :=
  list_sum (map snd (filter (fun p => Z.eqb (fst p) d) rows)).

(** The five lines [_show_basic_info] writes before the completeness
    indicator. *)
Definition basic_info_lines (rnd : Q -> Q) (s : Series) : list event :=
  [ write [Lit "**Informações Básicas**"];
    write [Lit "- **Tipo:** `"; Dtype (dtype_of s); Lit "`"];
    write [Lit "- **Total de valores:** "; Int (Z.of_nat (len s))];
    write [Lit "- **Valores únicos:** "; Int (Z.of_nat (nunique s))];
    write [Lit "- **Valores nulos:** "; Int (Z.of_nat (isna_sum (cells s)));
           Lit " ("; fmt 1 (null_pct rnd s); Lit "%)"] ].

(** The values summed for the day [d]. *)
Definition summed (d : Z) (rows : list (Z * Q)) : Q :=
  Qsum (map snd (filter (fun p => Z.eqb (fst p) d) rows)).

(** Keys and sums of the accumulator of [groupby_sum]. *)
Definition keyed (d : Z) (acc : list (Z * (Q * Q))) : Q :=
  Qsum (map (fun p => fst (snd p)) (filter (fun p => Z.eqb (fst p) d) acc)).

(** The compensation terms of the accumulator are all zero. *)
Definition compensated (acc : list (Z * (Q * Q))) : Prop :=
  Forall (fun p => snd (snd p) == 0) acc.

(** The dataset name the sidebar returns. *)
Definition sidebar_name (w : Widgets) : string :=
  if String.eqb (dataset_choice w) "Outro..." then typed_name w else dataset_choice w.

(** The page of a run that ends without rows to explore: the heading,
    what loading wrote, and a notice in each of the three tabs. *)
Definition page_without_data (loading : list event) : list page_event :=
  [ page_title "🤗 HuggingFace Dataset Explorer"; markdown introduction;
    header "⚙ Configuração" ] ++
  map component loading ++
  [ tabs ["📊 Visão Geral"; "🔍 Análise de Colunas"; "📈 Visualizações"];
    component (subheader "Visão Geral do Dataset");
    component (info [Lit "👈 Selecione um dataset na sidebar para começar"]);
    component (info [Lit "👈 Carregue um dataset para começar a análise"]);
    component (info [Lit "👈 Carregue um dataset para criar visualizações"]);
    divider;
    caption "💡 **Dica:** Use este template como base para criar seus próprios apps de análise de dados!" ].

(** What [load_dataset] writes when the loader raises [e]. *)
Definition load_failure (e : exn) : list event :=
  if is_ValueError e then [error [Lit "❌ Erro de validação: "; Lit (str e)]; tip]
  else [error [Lit "❌ Erro ao carregar dataset: "; Lit (str e)]].

(** What the page writes after a successful load. *)
Definition load_report (loaded : DataFrame) (dataset_name split : string) : list event :=
  [ success [Lit "✅ Dataset carregado: "; Int (Z.of_nat (index_len loaded));
             Lit " registros, "; Int (Z.of_nat (List.length (columns loaded)));
             Lit " colunas"];
    info [Lit "📦 **Dataset Atual:** `"; Lit dataset_name; Lit "` (split: `"; Lit split;
          Lit "`)"] ].

(** The kinds of column a chart needs, as [select_dtypes] names them. *)
Definition needs (v : viz_type) : list string :=
  match v with
  | Grafico_de_Barras => ["object"; "category"]
  | Linha_Temporal => ["datetime64"]
  | _ => ["number"]
  end.

(** A conversion that reads whole numbers as nanoseconds and refuses
    every other column. *)
Definition epoch_convert (s : Series) : result Series :=
  match s with
  | NumSeries _ xs => Ok (TimeSeries false (map (option_map Qfloor) xs))
  | _ => Raise (mkExn TypeError "not convertible to datetime")
  end.

(** Frames for the examples. *)
Definition event_frame : DataFrame :=
  mkDataFrame 3
    [ ("created_at", TextSeries object_ [Some "2024-01-01"; Some "soon"; None]);
      ("timestamp", NumSeries int64 [Some 1; Some 2; None]);
      ("done", BoolSeries [Some true; Some false; None]) ].

Definition candidates_frame : DataFrame :=
  mkDataFrame 2 [("candidate", TextSeries object_ [Some "Ana"; Some "Bo"])].

Definition ages_column : Series := NumSeries float64 [Some 1; None; Some 3; Some 4].

Definition ages_frame : DataFrame := mkDataFrame 4 [("age", ages_column)].

Definition all_null_frame : DataFrame :=
  mkDataFrame 2 [("x", NumSeries float64 [None; None])].

Definition pairs_frame : DataFrame :=
  mkDataFrame 2 [ ("a", NumSeries float64 [Some 1; None]);
                  ("b", NumSeries float64 [Some 2; Some 3]) ].

Definition visits_frame : DataFrame :=
  mkDataFrame 3 [ ("when", TimeSeries false [Some 0%Z; Some 1%Z; None]);
                  ("amount", NumSeries float64 [Some 2; Some 3; Some 4]) ].

Definition grades_frame : DataFrame :=
  mkDataFrame 3 [ ("score", NumSeries float64 [Some 1; Some 2; Some 3]);
                  ("class", TextSeries object_ [Some "a"; Some "b"; Some "a"]) ].

(** A selection of columns by kind, for the kinds the visualizer asks
    for. *)
Definition toy_kind (d : dtype) : string :=
  match d with
  | DNum _ => "number"
  | DText object_ => "object"
  | DOther categorical => "category"
  | DDatetime false => "datetime64"
  | _ => ""
  end.

Definition toy_select_dtypes (include : list string) (df : DataFrame) : list string :=
  map fst (filter (fun c => existsb (String.eqb (toy_kind (dtype_of (snd c)))) include)
                  (columns df)).

(** Widgets at rest, and with a dataset chosen and the button pressed. *)
Definition toy_viz (choice : viz_type) : VizWidgets :=
  mkVizWidgets choice "score" 30 "class" 10 "score" "score" "when" count_occurrences
               "amount" "score" "class".

Definition idle_widgets : Widgets :=
  mkWidgets "" "" "train" false None (toy_viz Histograma).

Definition pressed_widgets : Widgets :=
  mkWidgets "nitaibezerra/govbrnews" "" "train" true None (toy_viz Histograma).

(** Loaders that fail and that return a dataset without rows. *)
Definition failing_loader (dataset_name split : string) : result DataFrame :=
  Raise (mkExn ValueError "not found").

Definition empty_loader (dataset_name split : string) : result DataFrame :=
  Ok (mkDataFrame 0 [("text", TextSeries object_ [])]).

(** Parameters of the page that play no part in the examples. *)
Definition no_other_sum (df : DataFrame) (date_col col : string) : page unit := pret tt.
Definition no_same_column (df : DataFrame) (col : string) : page unit := pret tt.
Definition no_corr_matrix (df : DataFrame) (cols : list string)
  : result (list (string * string * stat)) := Ok [].
Definition no_memory (df : DataFrame) : nat := 0%nat.
Definition still_slider (min_value max_value value step : nat) : result nat := Ok value.



(** The earliest and latest timestamps of the column, if it has any,
    are close enough for their difference to be a Timedelta. *)
Definition span_fits (s : Series) : Prop :=
  forall lo hi, time_min s = Some lo -> time_max s = Some hi -> (hi - lo <= int64_max)%Z.

(** The eight running sums of a pairwise summation, added up. *)
Definition total8 (r : acc8) : Q :=
  let '(r0, r1, r2, r3, r4, r5, r6, r7) := r in
  r0 + r1 + r2 + r3 + r4 + r5 + r6 + r7.



End Vocabulary.

(** * Properties *)

Section Classification.

Local Open Scope string_scope.
Local Open Scope list_scope.

Lemma bind_lift_ok {A B : Type} (a : A) (f : A -> ui B) :
  bind (lift (Ok a)) f = f a.
Proof. unfold bind, lift; simpl. now destruct (f a). Qed.

Lemma bind_lift_raise {A B : Type} (e : exn) (f : A -> ui B) :
  bind (lift (Raise e)) f = ([], Raise e).
Proof. reflexivity. Qed.

(** C2 (as amended): the dispatch returns exactly one of the four
    categories, a function of the declared kind alone; the renderer that
    runs is the one of that category; the category is UNSUPPORTED exactly
    for the kinds outside the numeric (boolean included), text and
    datetime families, and then the notice is the only output. *)
Theorem classifier_total_and_dispatch :
  (forall d, classify d = NUMERIC \/ classify d = TEXTUAL \/
             classify d = TEMPORAL \/ classify d = UNSUPPORTED) /\
  (forall d, classify d = NUMERIC <-> (d = DBool \/ exists k, d = DNum k)) /\
  (forall d, classify d = TEXTUAL <-> exists k, d = DText k) /\
  (forall d, classify d = TEMPORAL <-> exists tz, d = DDatetime tz) /\
  (forall d, classify d = UNSUPPORTED <-> exists k, d = DOther k) /\
  (forall rnd sqrt df column,
     _show_type_specific_stats rnd sqrt df column =
     match getitem df column with
     | Raise e => ([], Raise e)
     | Ok s =>
         match classify (dtype_of s) with
         | NUMERIC => _show_numeric_stats rnd sqrt df column
         | TEXTUAL => _show_categorical_stats rnd df column
         | TEMPORAL => _show_datetime_stats df column
         | UNSUPPORTED => (not_supported_notice, Ok tt)
         end
     end).
Proof.
  repeat split.
  - destruct d as [k| |k|tz|k]; cbn; try destruct k; auto.
  - destruct d as [k| |k|tz|k]; cbn; try destruct k; intros H; try discriminate H; eauto.
  - intros [H|[k H]]; subst; reflexivity.
  - destruct d as [k| |k|tz|k]; cbn; try destruct k; intros H; try discriminate H; eauto.
  - intros [k H]; subst; destruct k; reflexivity.
  - destruct d as [k| |k|tz|k]; cbn; try destruct k; intros H; try discriminate H; eauto.
  - intros [k H]; subst; reflexivity.
  - destruct d as [k| |k|tz|k]; cbn; try destruct k; intros H; try discriminate H; eauto.
  - intros [k H]; subst; reflexivity.
  - intros rnd sqrt df column. unfold _show_type_specific_stats.
    destruct (getitem df column) as [s|e].
    + rewrite bind_lift_ok. unfold classify.
      destruct (is_numeric_dtype (dtype_of s)); [reflexivity|].
      destruct (is_string_dtype (dtype_of s) || is_object_dtype (dtype_of s));
        [reflexivity|].
      destruct (is_datetime64_any_dtype (dtype_of s)); reflexivity.
    + apply bind_lift_raise.
Qed.

(** C2, counterexample: a boolean column is classified NUMERIC, and the
    page starts the numeric statistics instead of showing the notice. *)
Lemma boolean_column_is_numeric :
  let df := mkDataFrame 3 [("flag", BoolSeries [Some true; Some false; Some true])] in
  classify DBool = NUMERIC /\
  classify DBool <> UNSUPPORTED /\
  (forall rnd sqrt,
     hd_error (fst (_show_type_specific_stats rnd sqrt df "flag"))
     = Some (write [Lit "**Estatísticas (Numérico)**"])) /\
  ~ (forall rnd sqrt,
       fst (_show_type_specific_stats rnd sqrt df "flag") = not_supported_notice).
Proof.
  cbv zeta. repeat split; try discriminate.
  intros H. specialize (H exact exact). discriminate H.
Qed.

End Classification.

Section AllNull.

Local Open Scope string_scope.
Local Open Scope list_scope.

Lemma dropna_keep {A : Type} (xs : list (option A)) : dropna (keep xs) = dropna xs.
Proof.
  unfold keep. induction xs as [|[x|] r IH]; simpl; congruence.
Qed.

Lemma dropna_nil_all_none {A : Type} (xs : list (option A)) :
  dropna xs = [] <-> Forall (fun c => c = None) xs.
Proof.
  induction xs as [|[x|] r IH]; simpl; split; intros H; auto.
  - discriminate H.
  - inversion H; discriminate.
  - constructor; [reflexivity | now apply IH].
  - inversion H; subst. now apply IH.
Qed.

(** On a column without a value every reduction of pandas is NaN. *)
Lemma reductions_of_all_null rnd sqrt (xs : list (option Q)) :
  dropna xs = [] ->
  mean rnd xs = NaN /\ std rnd sqrt xs = NaN /\ min xs = NaN /\ max xs = NaN /\
  median rnd xs = NaN /\ forall q, quantile rnd q xs = NaN.
Proof.
  intros H. unfold mean, std, min, max, median, quantile, notna_count.
  rewrite H. simpl. repeat split; reflexivity.
Qed.

Lemma dropna_option_map {A B : Type} (f : A -> B) (xs : list (option A)) :
  dropna (map (option_map f) xs) = map f (dropna xs).
Proof.
  induction xs as [|[x|] r IH]; simpl; congruence.
Qed.

Lemma dropna_map_Some {A : Type} (l : list A) : dropna (map Some l) = l.
Proof. induction l; simpl; congruence. Qed.

Lemma cells_Series_dropna (s : Series) :
  cells (Series_dropna s) = keep (cells s).
Proof.
  destruct s; simpl; unfold keep; rewrite dropna_option_map, !map_map; reflexivity.
Qed.

Lemma len_Series_dropna (s : Series) :
  len (Series_dropna s) = List.length (dropna (cells s)).
Proof.
  unfold len. rewrite cells_Series_dropna. unfold keep. now rewrite length_map.
Qed.

(** The detail view guards the all-null case: a warning and nothing else. *)
Lemma show_numeric_stats_all_null rnd sqrt df column s :
  getitem df column = Ok s ->
  dropna (cells s) = [] ->
  _show_numeric_stats rnd sqrt df column =
  ([ write [Lit "**Estatísticas (Numérico)**"];
     warning [Lit "Todos os valores são nulos"] ], Ok tt).
Proof.
  intros Hget Hnull. unfold _show_numeric_stats. rewrite Hget.
  unfold bind; simpl. rewrite len_Series_dropna, Hnull. reflexivity.
Qed.

(** C1, at the failing input: for a float column holding only missing
    entries the detail view shows its warning, and [get_column_stats]
    returns a dictionary whose seven numeric statistics are all NaN. *)
Theorem get_column_stats_all_null_returns_nan :
  let df := mkDataFrame 2 [("x", NumSeries float64 [None; None])] in
  forall rnd sqrt,
    _show_numeric_stats rnd sqrt df "x" =
      ([ write [Lit "**Estatísticas (Numérico)**"];
         warning [Lit "Todos os valores são nulos"] ], Ok tt) /\
    exists st,
      get_column_stats rnd sqrt df "x" = Ok st /\
      stats_count st = 2%nat /\ stats_null_count st = 2%nat /\
      stats_numeric st = Some (mkNumericStats NaN NaN NaN NaN NaN NaN NaN).
Proof.
  intros df rnd sqrt. split.
  - apply show_numeric_stats_all_null with (s := NumSeries float64 [None; None]);
      reflexivity.
  - eexists. split; [reflexivity|]. repeat split.
Qed.

End AllNull.

Section EmptyFrameGuard.

Local Open Scope string_scope.
Local Open Scope list_scope.

Lemma bind_events_prefix {A B : Type} (m : ui A) (f : A -> ui B) :
  exists rest, fst (bind m f) = fst m ++ rest.
Proof.
  unfold bind. destruct (snd m) as [a|e]; simpl.
  - now exists (fst (f a)).
  - exists []. now rewrite app_nil_r.
Qed.

Lemma bind_emit {B : Type} (e : event) (f : unit -> ui B) :
  bind (emit e) f = (e :: fst (f tt), snd (f tt)).
Proof. reflexivity. Qed.

Lemma lookup_In name cols s :
  lookup name cols = Some s -> In (name, s) cols.
Proof.
  induction cols as [|[n s0] r IH]; simpl; [discriminate|].
  destruct (String.eqb n name) eqn:E.
  - intros H; injection H as <-. apply String.eqb_eq in E. subst. now left.
  - intros H. right. auto.
Qed.

Lemma getitem_In df column s :
  getitem df column = Ok s -> In (column, s) (columns df).
Proof.
  unfold getitem. destruct (lookup column (columns df)) eqn:E; [|discriminate].
  intros H; injection H as <-. now apply lookup_In.
Qed.

Lemma isna_sum_le_length {A : Type} (xs : list (option A)) :
  (isna_sum xs <= List.length xs)%nat.
Proof. unfold isna_sum. apply filter_length_le. Qed.

Lemma of_nat_pos n : (0 < n)%nat -> 0 < of_nat n.
Proof.
  intros H. unfold of_nat, Qlt. simpl. lia.
Qed.

Lemma of_nat_le n m : (n <= m)%nat -> of_nat n <= of_nat m.
Proof.
  intros H. unfold of_nat. rewrite <- Zle_Qle. lia.
Qed.

(** C10: [analyze_columns] stops after a warning when the frame is
    empty; otherwise the frame it hands to [_show_basic_info] has at
    least one row, so for every column the total count is positive and
    the divisions behind the null percentage and the completeness are
    defined; in exact arithmetic the percentage lies between 0 and 100. *)
Theorem analyze_columns_guards_basic_info rnd sqrt df selected
  (Hwf : wf_frame df) :
  (empty df = true ->
   analyze_columns rnd sqrt df selected =
   ([ subheader "Análise Detalhada de Colunas";
      warning [Lit "DataFrame vazio. Carregue um dataset para começar."] ], Ok tt)) /\
  (forall column,
     empty df = false -> selected = Some column -> column <> "" ->
     exists rest,
       fst (analyze_columns rnd sqrt df selected) =
       subheader "Análise Detalhada de Colunas"
                 :: fst (_show_basic_info rnd df column) ++ rest) /\
  (empty df = false ->
   (0 < index_len df)%nat /\
   forall column s,
     getitem df column = Ok s ->
     (0 < len s)%nat /\
     (exists q, true_divide rnd (of_nat (isna_sum (cells s))) (of_nat (len s)) = Fin q) /\
     is_nan (null_pct rnd s) = false /\
     is_nan (stat_rsub rnd 100 (null_pct rnd s)) = false /\
     stat_le (Fin 0) (null_pct exact s) /\ stat_le (null_pct exact s) (Fin 100)).
Proof.
  split; [|split].
  - intros He. unfold analyze_columns, bind. simpl. rewrite He. reflexivity.
  - intros column He -> Hne. unfold analyze_columns.
    rewrite bind_emit. cbn [fst]. rewrite He.
    destruct column as [|c r]; [congruence|].
    match goal with
    | |- exists rest, _ :: fst (bind ?m ?f) = _ =>
        destruct (bind_events_prefix m f) as [rest E]
    end.
    exists rest. now rewrite E.
  - intros He. unfold empty in He. apply orb_false_iff in He as [Hrows _].
    apply Nat.eqb_neq in Hrows.
    split; [lia|].
    intros column s Hget.
    assert (Hlen : len s = index_len df).
    { destruct Hwf as [Hall _]. rewrite Forall_forall in Hall.
      apply (Hall (column, s)). now apply getitem_In. }
    assert (Hpos : (0 < len s)%nat) by lia.
    assert (Hnz : Qeq_bool (of_nat (len s)) 0 = false).
    { destruct (Qeq_bool (of_nat (len s)) 0) eqn:E; [|reflexivity].
      apply Qeq_bool_iff in E. pose proof (of_nat_pos Hpos). lra. }
    split; [exact Hpos|].
    unfold null_pct, true_divide. rewrite Hnz. simpl.
    split; [eexists; reflexivity|].
    split; [reflexivity|]. split; [reflexivity|].
    unfold fmul, fdiv, exact.
    pose proof (of_nat_pos Hpos) as Hp.
    pose proof (of_nat_le (isna_sum_le_length (cells s))) as Hle.
    fold (len s) in Hle.
    assert (H0 : 0 <= of_nat (isna_sum (cells s))).
    { unfold of_nat. rewrite <- (Zle_Qle 0). lia. }
    set (a := of_nat (isna_sum (cells s))) in *.
    set (b := of_nat (len s)) in *.
    assert (Hq0 : 0 <= a / b) by (apply Qle_shift_div_l; lra).
    assert (Hq1 : a / b <= 1) by (apply Qle_shift_div_r; lra).
    split; lra.
Qed.

(** A frame with one missing entry out of four. *)
Lemma analyze_columns_guards_basic_info_witness :
  let df := mkDataFrame 4 [("age", NumSeries float64 [Some 1; None; Some 3; Some 4])] in
  (0 < index_len df)%nat /\
  is_nan (null_pct exact (NumSeries float64 [Some 1; None; Some 3; Some 4])) = false.
Proof.
  intros df.
  assert (Hwf : wf_frame df).
  { split; [repeat constructor | repeat constructor; simpl; tauto]. }
  destruct (@analyze_columns_guards_basic_info exact exact df (Some "age") Hwf)
    as (_ & _ & H).
  destruct (H eq_refl) as [Hrows Hcols].
  split; [exact Hrows|].
  destruct (Hcols "age" (NumSeries float64 [Some 1; None; Some 3; Some 4]) eq_refl)
    as (_ & _ & Hnan & _).
  exact Hnan.
Defined.

End EmptyFrameGuard.

Section LoaderErrors.

Local Open Scope string_scope.
Local Open Scope list_scope.

Variable parse_datetime : string -> option Z.
Variable convert_non_text : Series -> result Series.
Variable Dataset : Type.
Variable hub : string -> option string -> string -> result Dataset.
Variable num_rows : Dataset -> nat.
Variable to_pandas : Dataset -> DataFrame.

(** The loader as [main.py] calls it: two arguments, no subset. *)
Definition cached_loader (dataset_name split : string) : result DataFrame :=
  snd (load_hf_dataset parse_datetime convert_non_text hub num_rows to_pandas
         dataset_name split None).

Lemma load_and_process_result dataset_name split :
  snd (load_and_process parse_datetime convert_non_text hub num_rows to_pandas
         dataset_name split None) =
  match hub dataset_name None split with
  | Raise e => Raise e
  | Ok dataset =>
      Ok (fst (_process_datetime_columns parse_datetime convert_non_text
                 (to_pandas dataset)))
  end.
Proof.
  unfold load_and_process. destruct (hub dataset_name None split); [|reflexivity].
  now destruct (_process_datetime_columns _ _ _).
Qed.

(** C9: the loader raises nothing on success and otherwise one of two
    errors.  A ValueError of the underlying load comes back as a
    ValueError whose message names the dataset and the split; any other
    exception comes back as an Exception whose message carries the
    underlying one.  In each case [DatasetExplorer.load_dataset] returns
    normally: it shows the error (and a tip after a validation error) and
    keeps the explorer as it was, or stores the frame and shows a success
    message. *)
Theorem loader_surfaces_two_error_kinds self dataset_name split :
  let outcome := cached_loader dataset_name split in
  let page := load_dataset cached_loader self dataset_name split in
  match hub dataset_name None split with
  | Ok dataset =>
      let frame := fst (_process_datetime_columns parse_datetime convert_non_text
                          (to_pandas dataset)) in
      outcome = Ok frame /\
      fst page = mkExplorer (Some frame) dataset_name /\
      snd page =
        ([ success [Lit "✅ Dataset carregado: "; Int (Z.of_nat (index_len frame));
                    Lit " registros, "; Int (Z.of_nat (List.length (columns frame)));
                    Lit " colunas"] ], Ok tt)
  | Raise e =>
      if is_ValueError e then
        outcome = Raise (mkExn ValueError (validation_message dataset_name split)) /\
        fst page = self /\
        snd page =
          ([ error [Lit "❌ Erro de validação: ";
                    Lit (validation_message dataset_name split)]; tip ], Ok tt)
      else
        outcome = Raise (mkExn Exception (load_error_message dataset_name e)) /\
        fst page = self /\
        snd page =
          ([ error [Lit "❌ Erro ao carregar dataset: ";
                    Lit (load_error_message dataset_name e)] ], Ok tt)
  end.
Proof.
  cbv zeta.
  assert (Hout : cached_loader dataset_name split =
                 match hub dataset_name None split with
                 | Ok dataset =>
                     Ok (fst (_process_datetime_columns parse_datetime convert_non_text
                                (to_pandas dataset)))
                 | Raise e =>
                     if is_ValueError e
                     then Raise (mkExn ValueError (validation_message dataset_name split))
                     else Raise (mkExn Exception (load_error_message dataset_name e))
                 end).
  { unfold cached_loader, load_hf_dataset.
    pose proof (load_and_process_result dataset_name split) as H.
    destruct (load_and_process _ _ _ _ _ _ _ _) as [log [df|e]]; simpl in H.
    - destruct (hub dataset_name None split); [|discriminate].
      simpl. exact H.
    - destruct (hub dataset_name None split); [discriminate|].
      injection H as <-. now destruct (is_ValueError e). }
  unfold load_dataset. rewrite Hout.
  destruct (hub dataset_name None split) as [dataset|e].
  - repeat split.
  - destruct (is_ValueError e) eqn:E; simpl; repeat split.
Qed.

End LoaderErrors.

Section TemporalSummary.

Local Open Scope string_scope.
Local Open Scope list_scope.
Local Open Scope Z_scope.

Lemma fold_min_spec (r : list Z) (t : Z) :
  In (fold_left Z.min r t) (t :: r) /\
  forall u, In u (t :: r) -> fold_left Z.min r t <= u.
Proof.
  revert t. induction r as [|x r IH]; intros t; simpl.
  - split; [now left|]. intros u [<-|[]]. lia.
  - destruct (IH (Z.min t x)) as [Hin Hle]. split.
    + destruct Hin as [E|Hin]; [|now right; right].
      rewrite <- E. destruct (Z.min_spec t x) as [[_ ->]|[_ ->]]; auto.
    + intros u [<-|[<-|Hu]].
      * specialize (Hle (Z.min t x) (or_introl eq_refl)). lia.
      * specialize (Hle (Z.min t x) (or_introl eq_refl)). lia.
      * apply Hle. now right.
Qed.

Lemma fold_max_spec (r : list Z) (t : Z) :
  In (fold_left Z.max r t) (t :: r) /\
  forall u, In u (t :: r) -> u <= fold_left Z.max r t.
Proof.
  revert t. induction r as [|x r IH]; intros t; simpl.
  - split; [now left|]. intros u [<-|[]]. lia.
  - destruct (IH (Z.max t x)) as [Hin Hle]. split.
    + destruct Hin as [E|Hin]; [|now right; right].
      rewrite <- E. destruct (Z.max_spec t x) as [[_ ->]|[_ ->]]; auto.
    + intros u [<-|[<-|Hu]].
      * specialize (Hle (Z.max t x) (or_introl eq_refl)). lia.
      * specialize (Hle (Z.max t x) (or_introl eq_refl)). lia.
      * apply Hle. now right.
Qed.


Lemma timestamp_sub_fits (hi lo : Z) :
  lo <= hi -> hi - lo <= int64_max -> timestamp_sub hi lo = Ok (hi - lo).
Proof.
  intros Hle Hfit. unfold timestamp_sub.
  assert (H1 : (- int64_max <=? hi - lo) = true) by (apply Z.leb_le; unfold int64_max; lia).
  assert (H2 : (hi - lo <=? int64_max) = true) by now apply Z.leb_le.
  now rewrite H1, H2.
Qed.





End TemporalSummary.

Section DatetimeHeuristic.

Local Open Scope string_scope.
Local Open Scope list_scope.

Lemma prefix_spec (p s : string) :
  String.prefix p s = true <-> exists b, s = (p ++ b)%string.
Proof.
  revert s. induction p as [|c p IH]; intros s.
  - destruct s; simpl; split; eauto.
  - destruct s as [|d s]; simpl.
    + split; [discriminate | intros [b H]; discriminate H].
    + destruct (Ascii.ascii_dec c d) as [->|Hne].
      * rewrite IH. split; intros [b H]; exists b; [now rewrite H | now injection H].
      * split; [discriminate | intros [b H]; injection H; congruence].
Qed.

Lemma contains_spec (p s : string) :
  contains p s = true <-> is_substring p s.
Proof.
  unfold is_substring. induction s as [|d s IH].
  - change (contains p "") with (String.prefix p "" || false).
    rewrite orb_false_r, prefix_spec. split.
    + intros [b H]. now exists EmptyString, b.
    + intros [[|c a] [b H]]; [now exists b | discriminate H].
  - change (contains p (String d s))
      with (String.prefix p (String d s) || contains p s).
    rewrite orb_true_iff, prefix_spec, IH. split.
    + intros [[b H]|(a & b & H)].
      * now exists EmptyString, b.
      * exists (String d a), b. simpl. now rewrite H.
    + intros [[|c a] [b H]]; [left; now exists b|].
      right. simpl in H. injection H as _ H. now exists a, b.
Qed.

Lemma date_like_spec (col : string) :
  existsb (fun pattern => contains pattern (lower col)) date_patterns = true
  <-> date_like col.
Proof.
  unfold date_like. rewrite existsb_exists.
  split; intros (p & Hin & H); exists p; split; auto; now apply contains_spec.
Qed.

Variable parse_datetime : string -> option Z.
Variable convert_non_text : Series -> result Series.

(** What the loop leaves in a column, and what it logs for it. *)
Definition converted (c : string * Series) : string * Series :=
  if matches (fst c) then
    match to_datetime parse_datetime convert_non_text (snd c) with
    | Ok s => (fst c, s)
    | Raise _ => c
    end
  else c.

Definition logged (c : string * Series) : list log_record :=
  if matches (fst c) then
    match to_datetime parse_datetime convert_non_text (snd c) with
    | Ok _ => [debug_converted (fst c)]
    | Raise e => [debug_not_converted (fst c) e]
    end
  else [].

Lemma fst_converted c : fst (converted c) = fst c.
Proof.
  unfold converted. destruct (matches (fst c)); [|reflexivity].
  now destruct (to_datetime parse_datetime convert_non_text (snd c)).
Qed.

Lemma lookup_app_notin name pre l :
  ~ In name (map fst pre) -> lookup name (pre ++ l) = lookup name l.
Proof.
  induction pre as [|[n s] pre IH]; simpl; [reflexivity|].
  intros H. destruct (String.eqb n name) eqn:E.
  - apply String.eqb_eq in E. tauto.
  - apply IH. tauto.
Qed.

Lemma replace_app_notin name s pre l :
  ~ In name (map fst pre) -> replace name s (pre ++ l) = pre ++ replace name s l.
Proof.
  induction pre as [|[n s0] pre IH]; simpl; [reflexivity|].
  intros H. destruct (String.eqb n name) eqn:E.
  - apply String.eqb_eq in E. tauto.
  - f_equal. apply IH. tauto.
Qed.

Lemma process_column_step k pre n s todo log :
  ~ In n (map fst pre) ->
  process_column parse_datetime convert_non_text
    (mkDataFrame k (pre ++ (n, s) :: todo), log) n =
  (mkDataFrame k ((pre ++ [converted (n, s)]) ++ todo), log ++ logged (n, s)).
Proof.
  intros Hnotin. unfold process_column, converted, logged, matches.
  cbn [fst snd]. rewrite <- app_assoc.
  destruct (existsb (fun pattern => contains pattern (lower n)) date_patterns).
  - unfold getitem, setitem. cbn [columns index_len].
    rewrite lookup_app_notin by assumption. cbn [lookup]. rewrite String.eqb_refl.
    destruct (to_datetime parse_datetime convert_non_text s) as [s'|e].
    + rewrite replace_app_notin by assumption. cbn [replace].
      now rewrite String.eqb_refl.
    + reflexivity.
  - now rewrite app_nil_r.
Qed.

Lemma process_columns_from k pre todo log :
  NoDup (map fst (pre ++ todo)) ->
  fold_left (process_column parse_datetime convert_non_text) (map fst todo)
            (mkDataFrame k (pre ++ todo), log) =
  (mkDataFrame k (pre ++ map converted todo), log ++ flat_map logged todo).
Proof.
  revert pre log. induction todo as [|[n s] todo IH]; intros pre log Hnd.
  - cbn [map fold_left flat_map]. now rewrite !app_nil_r.
  - assert (Hnotin : ~ In n (map fst pre)).
    { pose proof Hnd as Hnd0. rewrite map_app in Hnd0. cbn [map fst] in Hnd0.
      apply NoDup_remove_2 in Hnd0.
      intros H. apply Hnd0. apply in_or_app. now left. }
    cbn [map fst fold_left flat_map].
    rewrite process_column_step by assumption.
    rewrite IH.
    + now rewrite <- !app_assoc.
    + rewrite <- app_assoc. cbn [app].
      rewrite map_app in *. cbn [map] in *.
      now rewrite fst_converted.
Qed.

Lemma process_datetime_columns_eq df :
  NoDup (column_names df) ->
  _process_datetime_columns parse_datetime convert_non_text df =
  (mkDataFrame (index_len df) (map converted (columns df)),
   flat_map logged (columns df)).
Proof.
  intros Hnd. unfold _process_datetime_columns, column_names.
  destruct df as [k cols]. simpl.
  apply (process_columns_from k [] cols []). exact Hnd.
Qed.

Lemma lookup_map_converted name cols s :
  lookup name cols = Some s ->
  lookup name (map converted cols) = Some (snd (converted (name, s))).
Proof.
  induction cols as [|[n s0] r IH]; simpl; [discriminate|].
  pose proof (fst_converted (n, s0)) as Hf. simpl in Hf.
  destruct (converted (n, s0)) as [n' s'] eqn:Ec. simpl in Hf. subst n'.
  destruct (String.eqb n name) eqn:E.
  - intros H; injection H as <-. apply String.eqb_eq in E. subst n.
    now rewrite Ec.
  - exact IH.
Qed.

Lemma attempted_logged col cols :
  attempted col (flat_map logged cols) <->
  In col (map fst cols) /\ matches col = true.
Proof.
  unfold attempted. split.
  - intros H.
    assert (exists c, In c cols /\
                      (In (debug_converted col) (logged c) \/
                       exists e, In (debug_not_converted col e) (logged c)))
      as (c & Hc & Hl).
    { destruct H as [H|[e H]]; apply in_flat_map in H as (c & Hc & Hl);
        exists c; split; eauto. }
    unfold logged in Hl. destruct (matches (fst c)) eqn:Hm.
    + destruct (to_datetime parse_datetime convert_non_text (snd c)) as [s'|e'];
        destruct Hl as [[Hl|[]]|[e [Hl|[]]]]; try discriminate Hl;
        injection Hl as <-; (split; [now apply in_map | assumption]).
    + destruct Hl as [[]|[e []]].
  - intros [Hin Hm]. apply in_map_iff in Hin as (c & <- & Hc).
    assert (Hl : logged c = match to_datetime parse_datetime convert_non_text (snd c) with
                            | Ok _ => [debug_converted (fst c)]
                            | Raise e => [debug_not_converted (fst c) e]
                            end)
      by (unfold logged; now rewrite Hm).
    destruct (to_datetime parse_datetime convert_non_text (snd c)) as [s'|e].
    + left. apply in_flat_map. exists c. split; [assumption|]. rewrite Hl. now left.
    + right. exists e. apply in_flat_map. exists c. split; [assumption|].
      rewrite Hl. now left.
Qed.

(** C5: the loop attempts a conversion for exactly the columns whose
    lowercased name contains one of the six patterns; a column whose name
    matches none keeps its values and its declared kind; a matching column
    holds the converted values, or its old ones when the conversion
    raised; and in a text column each entry that does not parse becomes
    a missing entry while the others are converted. *)
Theorem datetime_heuristic_by_name df (Hnames : NoDup (column_names df)) :
  let out := _process_datetime_columns parse_datetime convert_non_text df in
  index_len (fst out) = index_len df /\
  column_names (fst out) = column_names df /\
  (forall col,
     attempted col (snd out) <-> In col (column_names df) /\ date_like col) /\
  (forall col s,
     getitem df col = Ok s ->
     (~ date_like col -> getitem (fst out) col = Ok s) /\
     (date_like col ->
      getitem (fst out) col =
      Ok (match to_datetime parse_datetime convert_non_text s with
          | Ok c => c
          | Raise _ => s
          end))) /\
  (forall d xs,
     exists ys,
       to_datetime parse_datetime convert_non_text (TextSeries d xs)
       = Ok (TimeSeries false ys) /\
       List.length ys = List.length xs /\
       forall i,
         nth_error ys i =
         match nth_error xs i with
         | Some (Some str) => Some (parse_datetime str)
         | Some None => Some None
         | None => None
         end).
Proof.
  cbv zeta. rewrite process_datetime_columns_eq by assumption. cbn [fst snd].
  split; [reflexivity|]. split.
  { unfold column_names. cbn [columns]. rewrite map_map.
    apply map_ext. intros c. apply fst_converted. }
  split.
  { intros col. rewrite attempted_logged. unfold column_names, matches.
    now rewrite date_like_spec. }
  split.
  { intros col s Hget. unfold getitem in *. cbn [columns].
    destruct (lookup col (columns df)) as [s0|] eqn:E; [|discriminate].
    injection Hget as ->.
    rewrite (lookup_map_converted _ _ E).
    unfold converted. cbn [fst snd]. fold (matches col).
    split; intros H.
    - destruct (matches col) eqn:Hm; [|reflexivity].
      exfalso. apply H. now apply date_like_spec.
    - apply date_like_spec in H. unfold matches. rewrite H.
      now destruct (to_datetime parse_datetime convert_non_text s). }
  intros d xs. eexists. split; [reflexivity|]. split.
  - now rewrite length_map.
  - intros i. rewrite nth_error_map.
    destruct (nth_error xs i) as [[str|]|]; reflexivity.
Qed.

End DatetimeHeuristic.

Section DatetimeHeuristicExample.

Local Open Scope string_scope.
Local Open Scope list_scope.

(** [created_at] is converted, with the entry that does not parse
    missing; [value] is untouched. *)
Lemma datetime_heuristic_by_name_witness :
  let out := _process_datetime_columns toy_parse toy_convert toy_frame in
  getitem (fst out) "value" = Ok (NumSeries int64 [Some 1; Some 2; Some 3]) /\
  getitem (fst out) "created_at"
  = Ok (TimeSeries false [Some 1704067200000000000%Z; None; None]).
Proof.
  intros out.
  assert (Hnames : NoDup (column_names toy_frame)).
  { repeat constructor; simpl; intuition discriminate. }
  destruct (@datetime_heuristic_by_name toy_parse toy_convert toy_frame Hnames)
    as (_ & _ & _ & Hcols & _).
  split.
  - destruct (Hcols "value" (NumSeries int64 [Some 1; Some 2; Some 3]) eq_refl)
      as [Hkeep _].
    apply Hkeep. intros H. apply date_like_spec in H. discriminate H.
  - destruct (Hcols "created_at"
                (TextSeries object_ [Some "2024-01-01"; Some "soon"; None]) eq_refl)
      as [_ Hconv].
    apply Hconv. apply date_like_spec. reflexivity.
Defined.

End DatetimeHeuristicExample.

Section ScatterSampling.

Local Open Scope string_scope.
Local Open Scope list_scope.
Local Open Scope nat_scope.

Variable rng : Type.
Variable RandomState : Z -> rng.
Variable permutation : rng -> nat -> list nat.

(** What numpy promises of [permutation(n)]. *)
Hypothesis permutation_ok :
  forall g n, Permutation (permutation g n) (seq 0 n).

Lemma take_spec {A : Type} (indices : list nat) (rows : list A) :
  Forall (fun i => i < List.length rows) indices ->
  exists l, take indices rows = Ok l /\
            Forall2 (fun i r => nth_error rows i = Some r) indices l.
Proof.
  induction 1 as [|i r Hi Hr IH]; simpl.
  - exists []. split; [reflexivity | constructor].
  - destruct IH as (l & -> & Hl).
    destruct (nth_error rows i) as [x|] eqn:E.
    + exists (x :: l). split; [reflexivity | now constructor].
    + apply nth_error_None in E. lia.
Qed.

Lemma firstn_incl {A : Type} (n : nat) (l : list A) : incl (firstn n l) l.
Proof.
  intros x Hx. rewrite <- (firstn_skipn n l). apply in_or_app. now left.
Qed.

Lemma firstn_NoDup {A : Type} (n : nat) (l : list A) : NoDup l -> NoDup (firstn n l).
Proof.
  intros H. rewrite <- (firstn_skipn n l) in H. now apply NoDup_app_remove_r in H.
Qed.

Lemma drawn_positions g n k :
  k <= n ->
  let idx := firstn k (permutation g n) in
  List.length idx = k /\ NoDup idx /\ Forall (fun i => i < n) idx.
Proof.
  intros Hk idx. pose proof (permutation_ok g n) as Hp.
  assert (Hlen : List.length (permutation g n) = n).
  { rewrite (Permutation_length Hp). apply length_seq. }
  split; [|split].
  - unfold idx. rewrite length_firstn. lia.
  - apply firstn_NoDup.
    apply (Permutation_NoDup (Permutation_sym Hp)). apply seq_NoDup.
  - apply Forall_forall. intros i Hi. apply firstn_incl in Hi.
    apply (Permutation_in _ Hp) in Hi. apply in_seq in Hi. lia.
Qed.

(** C7: above 5000 complete rows the scatter plot shows exactly 5000 of
    them, taken at 5000 distinct positions drawn from a generator seeded
    with 42; the page is the same whatever the state of the global
    generator, so a second run on the same input selects the same rows;
    up to 5000 rows every row is plotted and nothing is sampled. *)
Theorem scatter_sample_fixed_seed df numeric_cols x_col y_col xs ys
  (Hcols : 2 <= List.length numeric_cols)
  (Hx : getitem df x_col = Ok xs)
  (Hy : getitem df y_col = Ok ys) :
  let clean := dropna_rows (rows_of xs ys) in
  let plot rows :=
    altair_chart (mkChart mark_circle
                    [Lit "Relação: "; Lit x_col; Lit " vs "; Lit y_col]
                    (Points x_col y_col rows)) in
  (forall global global',
     _render_scatter RandomState permutation global df numeric_cols x_col y_col =
     _render_scatter RandomState permutation global' df numeric_cols x_col y_col) /\
  (5000 < List.length clean ->
   exists positions chosen,
     List.length positions = 5000 /\ NoDup positions /\
     Forall2 (fun i r => nth_error clean i = Some r) positions chosen /\
     List.length chosen = 5000 /\ incl chosen clean /\
     positions = firstn 5000 (permutation (RandomState 42%Z) (List.length clean)) /\
     forall global,
       _render_scatter RandomState permutation global df numeric_cols x_col y_col =
       ([ info [Lit "Amostrando 5000 de "; Int (Z.of_nat (List.length clean));
                Lit " pontos para melhor performance"];
          plot chosen ], Ok tt)) /\
  (0 < List.length clean <= 5000 ->
   forall global,
     _render_scatter RandomState permutation global df numeric_cols x_col y_col =
     ([ plot clean ], Ok tt)).
Proof.
  intros clean plot.
  assert (Hnc : Nat.ltb (List.length numeric_cols) 2 = false)
    by (apply Nat.ltb_ge; lia).
  split; [reflexivity|]. split.
  - intros Hbig.
    destruct (@drawn_positions (RandomState 42%Z) (List.length clean) 5000)
      as (Hlen & Hnd & Hrange); [lia|].
    destruct (@take_spec _ _ clean Hrange) as (chosen & Htake & Hall).
    exists (firstn 5000 (permutation (RandomState 42%Z) (List.length clean))), chosen.
    split; [exact Hlen|]. split; [exact Hnd|]. split; [exact Hall|].
    split; [rewrite <- (Forall2_length Hall); exact Hlen|].
    split.
    { intros r Hr. clear - Hall Hr. induction Hall as [|i x l l' Hix _ IH]; [destruct Hr|].
      destruct Hr as [<-|Hr]; [now apply nth_error_In in Hix | auto]. }
    split; [reflexivity|].
    intros global. unfold _render_scatter. rewrite Hnc, Hx, Hy.
    rewrite !bind_lift_ok. fold clean.
    assert (Hn0 : Nat.eqb (List.length clean) 0 = false) by (apply Nat.eqb_neq; lia).
    assert (Hgt : Nat.ltb 5000 (List.length clean) = true) by (apply Nat.ltb_lt; lia).
    rewrite Hn0, Hgt.
    unfold sample.
    assert (Hle : Nat.ltb (List.length clean) 5000 = false) by (apply Nat.ltb_ge; lia).
    rewrite Hle, Htake. reflexivity.
  - intros [Hpos Hsmall] global. unfold _render_scatter. rewrite Hnc, Hx, Hy.
    rewrite !bind_lift_ok. fold clean.
    assert (Hn0 : Nat.eqb (List.length clean) 0 = false) by (apply Nat.eqb_neq; lia).
    assert (Hgt : Nat.ltb 5000 (List.length clean) = false) by (apply Nat.ltb_ge; lia).
    rewrite Hn0, Hgt. reflexivity.
Qed.

End ScatterSampling.

Section ScatterSamplingExample.

Local Open Scope string_scope.
Local Open Scope list_scope.
Local Open Scope nat_scope.

(** 5001 complete rows: 5000 of them are plotted. *)
Lemma scatter_sample_fixed_seed_witness :
  let column := NumSeries float64 (repeat (Some 1%Q) 5001) in
  let clean := dropna_rows (rows_of column column) in
  exists chosen,
    sample (fun _ : Z => tt) toy_permutation 5000 (Some 42%Z) tt clean = Ok chosen /\
    List.length chosen = 5000 /\ incl chosen clean.
Proof.
  intros column clean.
  assert (Hperm : forall (g : unit) n, Permutation (toy_permutation g n) (seq 0 n)).
  { intros g n. apply Permutation_sym, Permutation_rev. }
  destruct (@scatter_sample_fixed_seed unit (fun _ : Z => tt) toy_permutation Hperm
              long_frame ["a"; "b"] "a" "b" column column)
    as (_ & Hbig & _).
  - simpl. lia.
  - reflexivity.
  - reflexivity.
  - destruct Hbig as (positions & chosen & _ & _ & Hall & Hlen & Hincl & Hpos & _).
    { apply Nat.ltb_lt. vm_compute. reflexivity. }
    exists chosen. split; [|split; assumption].
    unfold sample.
    replace (Nat.ltb (List.length clean) 5000) with false
      by (symmetry; vm_compute; reflexivity).
    fold clean in Hpos, Hall. rewrite <- Hpos.
    clear - Hall. induction Hall as [|i r l l' Hir _ IH]; simpl; [reflexivity|].
    now rewrite Hir, IH.
Defined.

End ScatterSamplingExample.

Section PairwiseSum.

Local Open Scope list_scope.

Lemma Qsum_app (l1 l2 : list Q) : Qsum (l1 ++ l2) == Qsum l1 + Qsum l2.
Proof. induction l1 as [|x r IH]; simpl; [lra|]. rewrite IH. lra. Qed.

Lemma sum_loop_exact (a : list Q) (res : Q) : sum_loop exact res a == res + Qsum a.
Proof.
  unfold sum_loop. revert res. induction a as [|x r IH]; intros res; simpl.
  - lra.
  - rewrite IH. unfold fadd, exact. lra.
Qed.

Lemma combine8_exact (r : acc8) : combine8 exact r == total8 r.
Proof.
  destruct r as [[[[[[[r0 r1] r2] r3] r4] r5] r6] r7].
  unfold combine8, total8, fadd, exact. lra.
Qed.

Lemma unrolled_exact (n : nat) :
  forall (a : list Q) (r : acc8),
    (List.length a <= n)%nat ->
    total8 (fst (unrolled exact r a)) + Qsum (snd (unrolled exact r a))
    == total8 r + Qsum a.
Proof.
  induction n as [|n IH]; intros a r Hlen.
  - destruct a; [simpl; lra | simpl in Hlen; lia].
  - destruct a as [|a0 [|a1 [|a2 [|a3 [|a4 [|a5 [|a6 [|a7 rest]]]]]]]];
      try (cbn [unrolled fst snd]; lra).
    destruct r as [[[[[[[r0 r1] r2] r3] r4] r5] r6] r7].
    cbn [unrolled]. rewrite IH by (simpl in Hlen; lia).
    unfold total8, fadd, exact. simpl. lra.
Qed.

(** In exact arithmetic the pairwise sum is the sum, whatever the fuel. *)
Lemma pairwise_exact (fuel : nat) :
  forall a : list Q, pairwise exact fuel a == Qsum a.
Proof.
  assert (Hshort : forall a : list Q, sum_loop exact 0 a == Qsum a).
  { intros a. rewrite sum_loop_exact. lra. }
  assert (Hblock : forall a : list Q,
             match a with
             | a0 :: a1 :: a2 :: a3 :: a4 :: a5 :: a6 :: a7 :: rest =>
                 let (r, left_over) := unrolled exact (a0, a1, a2, a3, a4, a5, a6, a7) rest in
                 sum_loop exact (combine8 exact r) left_over
             | _ => sum_loop exact 0 a
             end == Qsum a).
  { intros a.
    destruct a as [|a0 [|a1 [|a2 [|a3 [|a4 [|a5 [|a6 [|a7 rest]]]]]]]];
      try apply Hshort.
    pose proof (@unrolled_exact (List.length rest) rest (a0, a1, a2, a3, a4, a5, a6, a7)
                                (le_n _)) as H.
    destruct (unrolled exact (a0, a1, a2, a3, a4, a5, a6, a7) rest) as [r left_over].
    cbn [fst snd] in H. rewrite sum_loop_exact, combine8_exact, H.
    unfold total8. simpl. lra. }
  induction fuel as [|fuel IH]; intros a; cbn [pairwise]; cbv zeta.
  - destruct (Nat.ltb (List.length a) 8); [apply Hshort|].
    destruct (Nat.leb (List.length a) 128); [apply Hblock | apply Hshort].
  - destruct (Nat.ltb (List.length a) 8); [apply Hshort|].
    destruct (Nat.leb (List.length a) 128); [apply Hblock|].
    unfold fadd, exact. rewrite !IH, <- Qsum_app, firstn_skipn. reflexivity.
Qed.

(** Whatever the rounding, fuel beyond the length of the array changes
    nothing: the recursion always ends on its own. *)
Lemma pairwise_fuel rnd (f1 : nat) :
  forall (f2 : nat) (a : list Q),
    (List.length a <= f1)%nat -> (List.length a <= f2)%nat ->
    pairwise rnd f1 a = pairwise rnd f2 a.
Proof.
  induction f1 as [|f1 IH]; intros f2 a H1 H2.
  - destruct a; [|simpl in H1; lia]. destruct f2; reflexivity.
  - destruct f2 as [|f2].
    + destruct a; [reflexivity | simpl in H2; lia].
    + cbn [pairwise]. cbv zeta.
      destruct (Nat.ltb (List.length a) 8) eqn:E8; [reflexivity|].
      destruct (Nat.leb (List.length a) 128) eqn:E128; [reflexivity|].
      apply Nat.leb_gt in E128.
      set (n := List.length a) in *.
      assert (Hhalf : (n / 2 <= n - 1)%nat).
      { pose proof (Nat.div_lt n 2). lia. }
      assert (Hbig : (64 <= n / 2)%nat).
      { apply Nat.div_le_lower_bound; lia. }
      assert (Hmod : ((n / 2) mod 8 < 8)%nat) by (apply Nat.mod_upper_bound; lia).
      assert (Hmodle : ((n / 2) mod 8 <= n / 2)%nat) by (apply Nat.Div0.mod_le).
      f_equal; apply IH; rewrite ?length_firstn, ?length_skipn; fold n; lia.
Qed.

Lemma np_sum_exact (a : list Q) : np_sum exact a == Qsum a.
Proof. unfold np_sum, pairwise_sum, fadd, exact. rewrite pairwise_exact. lra. Qed.

Lemma Qsum_fill0 (xs : list (option Q)) : Qsum (map fill0 xs) == Qsum (dropna xs).
Proof. induction xs as [|[x|] r IH]; simpl; [lra | rewrite IH; lra | rewrite IH; lra]. Qed.

Lemma nansum_exact xs : nansum exact xs == Qsum (dropna xs).
Proof. unfold nansum. now rewrite np_sum_exact, Qsum_fill0. Qed.



End PairwiseSum.

Section MissingValues.

Local Open Scope string_scope.
Local Open Scope list_scope.

Variable rnd : Q -> Q.
Variable sqrt : Q -> Q.

(** The square root gives equal results on equal rationals. *)
Hypothesis sqrt_proper : forall a b, a == b -> sqrt a == sqrt b.











Lemma numeric_values_dropna s :
  numeric_values (Series_dropna s) = keep (numeric_values s).
Proof.
  destruct s; simpl; try reflexivity.
  unfold keep. now rewrite dropna_option_map, !map_map.
Qed.




End MissingValues.

Section MissingValuesExample.

Local Open Scope list_scope.



End MissingValuesExample.

Section ValueCounts.

Local Open Scope list_scope.
Local Open Scope nat_scope.

Lemma value_eqb_refl v : value_eqb v v = true.
Proof.
  destruct v; simpl.
  - apply Qeq_bool_iff. reflexivity.
  - apply Bool.eqb_reflx.
  - apply String.eqb_refl.
  - apply Z.eqb_refl.
  - apply Z.eqb_refl.
Qed.

Lemma value_eqb_sym u v : value_eqb u v = value_eqb v u.
Proof.
  destruct u, v; simpl; try reflexivity.
  - apply eq_true_iff_eq. rewrite !Qeq_bool_iff. split; intros H; now symmetry.
  - now destruct b, b0.
  - apply String.eqb_sym.
  - apply Z.eqb_sym.
  - apply Z.eqb_sym.
Qed.

Lemma value_eqb_trans u v w :
  value_eqb u v = true -> value_eqb v w = true -> value_eqb u w = true.
Proof.
  destruct u, v, w; simpl; try discriminate.
  - rewrite !Qeq_bool_iff. intros H1 H2. now rewrite H1.
  - destruct b, b0, b1; auto.
  - rewrite !String.eqb_eq. congruence.
  - rewrite !Z.eqb_eq. congruence.
  - rewrite !Z.eqb_eq. congruence.
Qed.







Lemma filter_all {A : Type} (f : A -> bool) (m : list A) :
  (forall w, In w m -> f w = true) -> filter f m = m.
Proof.
  induction m as [|w m IH]; simpl; intros H; [reflexivity|].
  rewrite (H w (or_introl eq_refl)). f_equal. apply IH. auto.
Qed.


Lemma unique_incl l v : In v (unique l) -> In v l.
Proof.
  induction l as [|a r IH]; simpl; [tauto|].
  intros [->|H]; [now left|]. right. apply IH.
  now apply filter_In in H as [H _].
Qed.

Lemma count_occ_b_pos v l : In v l -> 1 <= count_occ_b v l.
Proof.
  unfold count_occ_b. induction l as [|a r IH]; simpl; [tauto|].
  intros [->|H].
  - rewrite value_eqb_refl. simpl. lia.
  - specialize (IH H). destruct (value_eqb v a); simpl; lia.
Qed.

Lemma insert_desc_perm p l : Permutation (insert_desc p l) (p :: l).
Proof.
  induction l as [|q r IH]; simpl; [reflexivity|].
  destruct (Nat.ltb (snd p) (snd q)); [|reflexivity].
  rewrite IH. apply perm_swap.
Qed.

Lemma sort_desc_perm l : Permutation (sort_desc l) l.
Proof.
  unfold sort_desc. induction l as [|p r IH]; simpl; [reflexivity|].
  rewrite insert_desc_perm. now constructor.
Qed.




Lemma value_counts_length s : List.length (value_counts s) = nunique s.
Proof.
  unfold value_counts, nunique.
  rewrite (Permutation_length (sort_desc_perm _)). apply length_map.
Qed.

Lemma present_plus_missing {A : Type} (xs : list (option A)) :
  List.length (dropna xs) + isna_sum xs = List.length xs.
Proof.
  unfold isna_sum. induction xs as [|[x|] r IH]; simpl; lia.
Qed.



End ValueCounts.

Section Rounding.

Lemma rint_cases (x : Q) :
  let f := Qfloor x in
  let r := x - inject_Z f in
  0 <= r /\ r < 1 /\
  ((r < 1 # 2 /\ rint x = f) \/
   (1 # 2 < r /\ rint x = (f + 1)%Z) \/
   (r == 1 # 2 /\ Z.even f = true /\ rint x = f) \/
   (r == 1 # 2 /\ Z.even f = false /\ rint x = (f + 1)%Z)).
Proof.
  intros f r.
  pose proof (Qfloor_le x) as Hlo. pose proof (Qlt_floor x) as Hhi.
  fold f in Hlo, Hhi. rewrite inject_Z_plus in Hhi.
  change (inject_Z 1) with 1 in Hhi.
  split; [unfold r; lra|]. split; [unfold r; lra|].
  unfold rint. fold f. fold r.
  destruct (Qcompare r (1 # 2)) eqn:E.
  - apply Qeq_alt in E. destruct (Z.even f) eqn:Ev; auto 10.
  - apply Qlt_alt in E. auto.
  - apply Qgt_alt in E. auto.
Qed.


Lemma rint_monotone (x y : Q) : x <= y -> (rint x <= rint y)%Z.
Proof.
  intros Hxy.
  pose proof (Qfloor_resp_le _ _ Hxy) as Hf.
  destruct (rint_cases x) as (Hx0 & Hx1 & Hx).
  destruct (rint_cases y) as (Hy0 & Hy1 & Hy). cbv zeta in *.
  destruct (Z.eq_dec (Qfloor x) (Qfloor y)) as [E|E].
  - rewrite E in *.
    destruct Hx as [[Hr ->]|[[Hr ->]|[[Hr [Hev ->]]|[Hr [Hev ->]]]]];
      destruct Hy as [[Hs ->]|[[Hs ->]|[[Hs [Hev' ->]]|[Hs [Hev' ->]]]]];
      try lia; try congruence; exfalso; lra.
  - assert (Hlt : (Qfloor x + 1 <= Qfloor y)%Z) by lia.
    destruct Hx as [[Hr ->]|[[Hr ->]|[[Hr [Hev ->]]|[Hr [Hev ->]]]]];
      destruct Hy as [[Hs ->]|[[Hs ->]|[[Hs [Hev' ->]]|[Hs [Hev' ->]]]]]; lia.
Qed.

(** Rounding to [d] decimals keeps the order. *)
Lemma round_to_monotone d x y :
  x <= y -> stat_le (round_to d (Fin x)) (round_to d (Fin y)).
Proof.
  intros Hxy. simpl.
  assert (Hp : 0 < 10 ^ Z.of_nat d).
  { apply Qpower_0_lt. reflexivity. }
  set (k := 10 ^ Z.of_nat d) in *.
  assert (Hm : (rint (x * k) <= rint (y * k))%Z).
  { apply rint_monotone. apply Qmult_le_compat_r; lra. }
  apply Qle_shift_div_l; [assumption|].
  unfold Qdiv. rewrite <- Qmult_assoc, (Qmult_comm (/ k)), Qmult_inv_r by lra.
  rewrite Qmult_1_r. now rewrite <- Zle_Qle.
Qed.

End Rounding.

Section TopNPercentages.

Local Open Scope string_scope.
Local Open Scope list_scope.

Lemma of_nat_plus a b : of_nat (a + b) == of_nat a + of_nat b.
Proof. unfold of_nat. now rewrite Nat2Z.inj_add, inject_Z_plus. Qed.




End TopNPercentages.

Section TopNPercentagesExamples.

Local Open Scope string_scope.
Local Open Scope list_scope.



End TopNPercentagesExamples.

Section SortedValues.

Local Open Scope list_scope.

Lemma insert_sorted_In x l z : In z (insert_sorted x l) <-> z = x \/ In z l.
Proof.
  induction l as [|y r IH]; simpl.
  - intuition.
  - destruct (Qle_bool x y); simpl; [intuition|]. rewrite IH. intuition.
Qed.

Lemma sort_In l z : In z (sort l) <-> In z l.
Proof.
  induction l as [|x r IH]; simpl; [reflexivity|].
  rewrite insert_sorted_In, IH. intuition.
Qed.

Lemma insert_sorted_length x l : List.length (insert_sorted x l) = S (List.length l).
Proof.
  induction l as [|y r IH]; simpl; [reflexivity|].
  destruct (Qle_bool x y); simpl; congruence.
Qed.

Lemma sort_length l : List.length (sort l) = List.length l.
Proof.
  induction l as [|x r IH]; simpl; [reflexivity|].
  now rewrite insert_sorted_length, IH.
Qed.

Lemma insert_sorted_sorted x l :
  StronglySorted Qle l -> StronglySorted Qle (insert_sorted x l).
Proof.
  induction 1 as [|y r Hr IH Hy]; simpl.
  - repeat constructor.
  - destruct (Qle_bool x y) eqn:E.
    + apply Qle_bool_iff in E. constructor; [now constructor|].
      constructor; [assumption|].
      eapply Forall_impl; [|exact Hy]. intros z Hz. cbv beta in Hz. lra.
    + assert (Hyx : y <= x).
      { destruct (Qlt_le_dec y x) as [H|H]; [lra|].
        apply Qle_bool_iff in H. congruence. }
      constructor; [assumption|].
      apply Forall_forall. intros z Hz. apply insert_sorted_In in Hz as [->|Hz].
      * assumption.
      * rewrite Forall_forall in Hy. now apply Hy.
Qed.

Lemma sort_sorted l : StronglySorted Qle (sort l).
Proof.
  induction l as [|x r IH]; simpl; [constructor|].
  now apply insert_sorted_sorted.
Qed.

Lemma sorted_nth_le l d :
  StronglySorted Qle l ->
  forall i j, (i <= j)%nat -> (j < List.length l)%nat -> nth i l d <= nth j l d.
Proof.
  induction 1 as [|x r Hr IH Hx]; intros i j Hij Hj; simpl in Hj; [lia|].
  destruct i as [|i], j as [|j]; simpl; try lia.
  - lra.
  - rewrite Forall_forall in Hx. apply Hx. apply nth_In. lia.
  - apply IH; lia.
Qed.

Lemma fold_Qmin_le r x z : In z (x :: r) -> fold_left Qmin r x <= z.
Proof.
  revert x z. induction r as [|y r IH]; intros x z; simpl.
  - intros [<-|[]]. lra.
  - intros [<-|[<-|H]].
    + pose proof (IH (Qmin x y) _ (or_introl eq_refl)).
      pose proof (Q.le_min_l x y). lra.
    + pose proof (IH (Qmin x y) _ (or_introl eq_refl)).
      pose proof (Q.le_min_r x y). lra.
    + apply IH. now right.
Qed.

Lemma fold_Qmax_ge r x z : In z (x :: r) -> z <= fold_left Qmax r x.
Proof.
  revert x z. induction r as [|y r IH]; intros x z; simpl.
  - intros [<-|[]]. lra.
  - intros [<-|[<-|H]].
    + pose proof (IH (Qmax x y) _ (or_introl eq_refl)).
      pose proof (Q.le_max_l x y). lra.
    + pose proof (IH (Qmax x y) _ (or_introl eq_refl)).
      pose proof (Q.le_max_r x y). lra.
    + apply IH. now right.
Qed.

Lemma Qsum_between lo hi l :
  (forall z, In z l -> lo <= z /\ z <= hi) ->
  of_nat (List.length l) * lo <= Qsum l /\ Qsum l <= of_nat (List.length l) * hi.
Proof.
  induction l as [|x r IH]; intros H.
  - change (of_nat (List.length (@nil Q))) with 0. simpl. lra.
  - change (List.length (x :: r)) with (1 + List.length r)%nat.
    rewrite of_nat_plus. change (of_nat 1) with 1. simpl.
    destruct (H x (or_introl eq_refl)) as [Hlo Hhi].
    destruct IH as [IHlo IHhi]; [intros z Hz; apply H; now right|].
    lra.
Qed.

End SortedValues.

Section Interpolation.

Local Open Scope list_scope.

Lemma Qfloor_unique (x : Q) (z : Z) :
  inject_Z z <= x -> x < inject_Z z + 1 -> Qfloor x = z.
Proof.
  intros Hlo Hhi.
  pose proof (Qfloor_le x) as H1. pose proof (Qlt_floor x) as H2.
  rewrite inject_Z_plus in H2. change (inject_Z 1) with 1 in H2.
  assert (Ha : (z < Qfloor x + 1)%Z).
  { rewrite Zlt_Qlt, inject_Z_plus. change (inject_Z 1) with 1. lra. }
  assert (Hb : (Qfloor x < z + 1)%Z).
  { rewrite Zlt_Qlt, inject_Z_plus. change (inject_Z 1) with 1. lra. }
  lia.
Qed.

Lemma floor_index (h : Q) :
  0 <= h ->
  let i := Z.to_nat (Qfloor h) in
  of_nat i <= h /\ h < of_nat i + 1.
Proof.
  intros Hh i.
  assert (H0 : (0 <= Qfloor h)%Z).
  { change 0%Z with (Qfloor 0). now apply Qfloor_resp_le. }
  unfold i, of_nat. rewrite Z2Nat.id by assumption.
  pose proof (Qfloor_le h). pose proof (Qlt_floor h) as H2.
  rewrite inject_Z_plus in H2. change (inject_Z 1) with 1 in H2. lra.
Qed.

Lemma floor_index_le (h : Q) (m : nat) :
  0 <= h -> h <= of_nat m -> (Z.to_nat (Qfloor h) <= m)%nat.
Proof.
  intros H0 Hm.
  pose proof (Qfloor_resp_le _ _ Hm) as H. unfold of_nat in H.
  rewrite Qfloor_Z in H. lia.
Qed.

Lemma floor_index_mono (h1 h2 : Q) :
  h1 <= h2 -> (Z.to_nat (Qfloor h1) <= Z.to_nat (Qfloor h2))%nat.
Proof.
  intros H. apply Qfloor_resp_le in H. lia.
Qed.

Lemma interp_between arr h :
  StronglySorted Qle arr -> arr <> [] ->
  0 <= h -> h <= of_nat (List.length arr - 1) ->
  let i := Z.to_nat (Qfloor h) in
  let j := Nat.min (i + 1) (List.length arr - 1) in
  nth i arr 0 <= interp arr h /\ interp arr h <= nth j arr 0.
Proof.
  intros Hs Hne H0 Hn i j.
  assert (Hlen : (0 < List.length arr)%nat) by (destruct arr; [congruence|simpl; lia]).
  pose proof (floor_index_le H0 Hn) as Hi. fold i in Hi.
  destruct (floor_index H0) as [Hlo Hhi]. fold i in Hlo, Hhi.
  assert (Hab : nth i arr 0 <= nth j arr 0).
  { apply sorted_nth_le; [assumption| |]; unfold j; lia. }
  unfold interp. fold i. fold j.
  set (a := nth i arr 0) in *. set (b := nth j arr 0) in *.
  set (g := h - of_nat i).
  assert (Hg0 : 0 <= g) by (unfold g; lra).
  assert (Hg1 : g <= 1) by (unfold g; lra).
  assert (Hp : 0 <= (b - a) * g) by (apply Qmult_le_0_compat; lra).
  assert (Hq : 0 <= (b - a) * (1 - g)) by (apply Qmult_le_0_compat; lra).
  split; [lra|].
  setoid_replace (a + (b - a) * g) with (b - (b - a) * (1 - g)) by ring. lra.
Qed.

Lemma interp_monotone arr h1 h2 :
  StronglySorted Qle arr -> arr <> [] ->
  0 <= h1 -> h1 <= h2 -> h2 <= of_nat (List.length arr - 1) ->
  interp arr h1 <= interp arr h2.
Proof.
  intros Hs Hne H0 H12 Hn.
  assert (H02 : 0 <= h2) by lra.
  assert (Hlen : (0 < List.length arr)%nat) by (destruct arr; [congruence|simpl; lia]).
  assert (H1n : h1 <= of_nat (List.length arr - 1)) by lra.
  pose proof (floor_index_mono H12) as Hi.
  pose proof (floor_index_le H02 Hn) as Hi2.
  destruct (interp_between Hs Hne H0 H1n) as [_ Hup].
  destruct (interp_between Hs Hne H02 Hn) as [Hlow _].
  cbv zeta in *.
  set (i1 := Z.to_nat (Qfloor h1)) in *. set (i2 := Z.to_nat (Qfloor h2)) in *.
  destruct (Nat.eq_dec i1 i2) as [E|E].
  - unfold interp. fold i1. fold i2. rewrite E.
    set (j := Nat.min (i2 + 1) (List.length arr - 1)).
    assert (Hab : nth i2 arr 0 <= nth j arr 0).
    { apply sorted_nth_le; [assumption| |]; unfold j; lia. }
    set (a := nth i2 arr 0) in *. set (b := nth j arr 0) in *.
    assert (Hp : 0 <= (b - a) * (h2 - h1)) by (apply Qmult_le_0_compat; lra).
    setoid_replace (a + (b - a) * (h2 - of_nat i2))
      with (a + (b - a) * (h1 - of_nat i2) + (b - a) * (h2 - h1)) by ring.
    lra.
  - assert (Hmid : nth (Nat.min (i1 + 1) (List.length arr - 1)) arr 0 <= nth i2 arr 0).
    { apply sorted_nth_le; [assumption| |]; lia. }
    lra.
Qed.

End Interpolation.

Section NumericSummary.

Local Open Scope list_scope.

Lemma lerp_exact a b t : lerp exact a b t == a + (b - a) * t.
Proof.
  unfold lerp, fsub, fadd, fmul, exact.
  destruct (Qle_bool (1 # 2) t); ring.
Qed.

Lemma nth_default_irrelevant (l : list Q) i d d' :
  (i < List.length l)%nat -> nth i l d = nth i l d'.
Proof. intros H. now apply nth_indep. Qed.

Lemma of_nat_nonneg n : 0 <= of_nat n.
Proof. unfold of_nat. rewrite <- (Zle_Qle 0). lia. Qed.

Lemma virtual_index_range (n : nat) (q : Q) :
  0 <= q -> q <= 1 -> 0 <= of_nat n * q /\ of_nat n * q <= of_nat n.
Proof.
  intros H0 H1. pose proof (of_nat_nonneg n) as Hn.
  assert (Ha : 0 <= of_nat n * q) by (apply Qmult_le_0_compat; lra).
  assert (Hb : 0 <= of_nat n * (1 - q)) by (apply Qmult_le_0_compat; lra).
  split; [assumption|].
  setoid_replace (of_nat n) with (of_nat n * q + of_nat n * (1 - q)) at 2 by ring.
  lra.
Qed.

(** In exact arithmetic a quantile is the interpolation of the sorted
    values at the virtual index. *)
Lemma quantile_exact_interp q xs :
  dropna xs <> [] -> 0 <= q -> q <= 1 ->
  let arr := sort (dropna xs) in
  exists v, quantile exact q xs = Fin v /\
            v == interp arr (of_nat (List.length arr - 1) * q).
Proof.
  intros Hne H0 H1 arr.
  assert (Hlen : (0 < List.length arr)%nat).
  { unfold arr. rewrite sort_length. destruct (dropna xs); [congruence|simpl; lia]. }
  unfold quantile. fold arr.
  destruct arr as [|x0 rest] eqn:E; [simpl in Hlen; lia|].
  rewrite <- E in *. eexists. split; [reflexivity|].
  rewrite lerp_exact. unfold fmul, fsub, exact, interp.
  destruct (virtual_index_range (List.length arr - 1) H0 H1) as [Hh0 Hh1].
  pose proof (floor_index_le Hh0 Hh1) as Hi.
  set (i := Z.to_nat (Qfloor (of_nat (List.length arr - 1) * q))) in *.
  rewrite (@nth_default_irrelevant arr i x0 0) by lia.
  rewrite (@nth_default_irrelevant arr (Nat.min (i + 1) (List.length arr - 1)) x0 0)
    by lia.
  reflexivity.
Qed.

Lemma floor_half (z : Z) : Qfloor (inject_Z z * (1 # 2)) = (z / 2)%Z.
Proof.
  unfold Qfloor, Qmult, inject_Z. simpl. now rewrite Z.mul_1_r.
Qed.

(** In exact arithmetic the median is the quantile at one half. *)
Lemma median_exact_interp xs :
  dropna xs <> [] ->
  let arr := sort (dropna xs) in
  exists v, median exact xs = Fin v /\
            v == interp arr (of_nat (List.length arr - 1) * (1 # 2)).
Proof.
  intros Hne arr.
  assert (Hlen : (0 < List.length arr)%nat).
  { unfold arr. rewrite sort_length. destruct (dropna xs); [congruence|simpl; lia]. }
  unfold median. fold arr.
  destruct arr as [|x0 rest] eqn:E; [simpl in Hlen; lia|].
  rewrite <- E in *.
  set (n := List.length arr) in *.
  set (h := of_nat (n - 1) * (1 # 2)).
  assert (Hfloor : Qfloor h = (Z.of_nat (n - 1) / 2)%Z) by apply floor_half.
  unfold interp. fold n. rewrite Hfloor.
  destruct (Nat.even n) eqn:Ev.
  - apply Nat.even_spec in Ev. destruct Ev as [k Hk].
    assert (Hk1 : (1 <= k)%nat) by lia.
    assert (Hprev : Z.to_nat (Z.of_nat (n - 1) / 2) = (k - 1)%nat).
    { replace (Z.of_nat (n - 1)) with (1 + (Z.of_nat (k - 1)) * 2)%Z by lia.
      rewrite Z.div_add by lia. change (1 / 2)%Z with 0%Z. lia. }
    rewrite Hprev.
    replace (Nat.min (k - 1 + 1) (n - 1)) with k by lia.
    replace (n / 2)%nat with k by (rewrite Hk, Nat.mul_comm, Nat.div_mul; lia).
    eexists. split; [reflexivity|].
    rewrite (@nth_default_irrelevant arr (k - 1) x0 0) by (fold n; lia).
    rewrite (@nth_default_irrelevant arr k x0 0) by (fold n; lia).
    assert (Hh : h - of_nat (k - 1) == 1 # 2).
    { unfold h, of_nat.
      replace (Z.of_nat (n - 1)) with (2 * Z.of_nat (k - 1) + 1)%Z by lia.
      rewrite inject_Z_plus, inject_Z_mult.
      change (inject_Z 2) with 2. change (inject_Z 1) with 1. ring. }
    rewrite Hh. unfold fdiv, fadd, exact. field.
  - assert (Hodd : Nat.odd n = true) by (unfold Nat.odd; now rewrite Ev).
    apply Nat.odd_spec in Hodd. destruct Hodd as [k Hk].
    assert (Hprev : Z.to_nat (Z.of_nat (n - 1) / 2) = k).
    { replace (Z.of_nat (n - 1)) with (Z.of_nat k * 2)%Z by lia.
      rewrite Z.div_mul by lia. lia. }
    rewrite Hprev.
    replace (n / 2)%nat with k
      by (rewrite Hk, Nat.add_comm, Nat.mul_comm, Nat.div_add by lia; simpl; lia).
    eexists. split; [reflexivity|].
    rewrite (@nth_default_irrelevant arr k x0 0) by (fold n; lia).
    assert (Hh : h - of_nat k == 0).
    { unfold h, of_nat.
      replace (Z.of_nat (n - 1)) with (2 * Z.of_nat k)%Z by lia.
      rewrite inject_Z_mult. change (inject_Z 2) with 2. ring. }
    rewrite Hh. ring.
Qed.


Lemma summary_values_ordered xs :
  dropna xs <> [] ->
  exists m lo a b c hi med,
    mean exact xs = Fin m /\ min xs = Fin lo /\
    quantile exact (1 # 4) xs = Fin a /\ quantile exact (1 # 2) xs = Fin b /\
    quantile exact (3 # 4) xs = Fin c /\ max xs = Fin hi /\
    median exact xs = Fin med /\
    lo <= a /\ a <= b /\ b <= c /\ c <= hi /\
    a <= med /\ med <= c /\ lo <= m /\ m <= hi.
Proof.
  intros Hne.
  destruct (@quantile_exact_interp (1 # 4) xs Hne) as (a & Ha & Ea); [lra|lra|].
  destruct (@quantile_exact_interp (1 # 2) xs Hne) as (b & Hb & Eb); [lra|lra|].
  destruct (@quantile_exact_interp (3 # 4) xs Hne) as (c & Hc & Ec); [lra|lra|].
  destruct (@median_exact_interp xs Hne) as (med & Hmed & Emed).
  cbv zeta in *.
  set (arr := sort (dropna xs)) in *.
  assert (Hs : StronglySorted Qle arr) by apply sort_sorted.
  assert (Harr : arr <> []).
  { intros E. apply (f_equal (@List.length Q)) in E. unfold arr in E.
    rewrite sort_length in E. destruct (dropna xs); [congruence|discriminate]. }
  set (N := of_nat (List.length arr - 1)) in *.
  pose proof (of_nat_nonneg (List.length arr - 1)) as HN. fold N in HN.
  assert (R1 : 0 <= N * (1 # 4) /\ N * (1 # 4) <= N) by (split; lra).
  assert (R2 : N * (1 # 4) <= N * (1 # 2) /\ N * (1 # 2) <= N * (3 # 4)) by (split; lra).
  assert (R3 : N * (3 # 4) <= N) by lra.
  assert (M1 : interp arr (N * (1 # 4)) <= interp arr (N * (1 # 2))).
  { apply interp_monotone; auto; fold N; lra. }
  assert (M2 : interp arr (N * (1 # 2)) <= interp arr (N * (3 # 4))).
  { apply interp_monotone; auto; fold N; lra. }
  destruct (@interp_between arr (N * (1 # 4)) Hs Harr) as [B1 _]; [lra|fold N; lra|].
  destruct (@interp_between arr (N * (3 # 4)) Hs Harr) as [_ B2]; [lra|fold N; lra|].
  cbv zeta in *.
  assert (Hlen : (0 < List.length arr)%nat) by (destruct arr; [congruence|simpl; lia]).
  assert (Hin : forall i, (i < List.length arr)%nat -> In (nth i arr 0) (dropna xs)).
  { intros i Hi. apply sort_In. fold arr. now apply nth_In. }
  destruct (dropna xs) as [|x r] eqn:Ex; [congruence|].
  set (lo := fold_left Qmin r x). set (hi := fold_left Qmax r x).
  assert (Hlo : forall z, In z (x :: r) -> lo <= z) by (intros z; apply fold_Qmin_le).
  assert (Hhi : forall z, In z (x :: r) -> z <= hi) by (intros z; apply fold_Qmax_ge).
  pose proof (floor_index_le (proj1 R1) (proj2 R1)) as I1. fold N in I1.
  assert (L1 : lo <= nth (Z.to_nat (Qfloor (N * (1 # 4)))) arr 0).
  { apply Hlo, Hin. unfold N in *. lia. }
  assert (L2 : nth (Nat.min (Z.to_nat (Qfloor (N * (3 # 4))) + 1)
                            (List.length arr - 1)) arr 0 <= hi).
  { apply Hhi, Hin. lia. }
  assert (Hcount : List.length (x :: r) = List.length arr).
  { unfold arr. rewrite sort_length. reflexivity. }
  destruct (@Qsum_between lo hi (x :: r)) as [S1 S2].
  { intros z Hz. split; [now apply Hlo | now apply Hhi]. }
  assert (Hn : 0 < of_nat (List.length (x :: r))).
  { apply of_nat_pos. simpl. lia. }
  exists (nansum exact xs / of_nat (List.length (x :: r))), lo, a, b, c, hi, med.
  assert (Hmean : mean exact xs = Fin (nansum exact xs / of_nat (List.length (x :: r)))).
  { unfold mean, notna_count. rewrite Ex. reflexivity. }
  assert (Hsum : nansum exact xs == Qsum (x :: r)).
  { rewrite nansum_exact, Ex. reflexivity. }
  split; [exact Hmean|].
  split; [unfold min; rewrite Ex; reflexivity|].
  split; [exact Ha|]. split; [exact Hb|]. split; [exact Hc|].
  split; [unfold max; rewrite Ex; reflexivity|].
  split; [exact Hmed|].
  repeat split; try lra.
  - apply Qle_shift_div_l; [assumption|]. rewrite Hsum. lra.
  - apply Qle_shift_div_r; [assumption|]. rewrite Hsum. lra.
Qed.

End NumericSummary.

Section NumericSummaryClaim.

Local Open Scope string_scope.
Local Open Scope list_scope.

(** C4 (as amended): for an integer or float column with a value, the
    exact values of the statistics satisfy
    min <= q25 <= median <= q75 <= max and min <= mean <= max, in the
    dictionary of [get_column_stats] and, after rounding to two decimals,
    in the list the detail view shows. *)
Theorem numeric_summary_ordered_exact (k : num_dtype) (xs : list (option Q))
  (sqrt : Q -> Q) (Hvalue : dropna xs <> []) :
  let s := NumSeries k xs in
  let st := HuggingfaceClient.numeric_stats exact sqrt s in
  stat_le (stats_min st) (stats_q25 st) /\
  stat_le (stats_q25 st) (stats_median st) /\
  stat_le (stats_median st) (stats_q75 st) /\
  stat_le (stats_q75 st) (stats_max st) /\
  stat_le (stats_min st) (stats_mean st) /\
  stat_le (stats_mean st) (stats_max st) /\
  exists m sd lo a b c hi,
    ColumnAnalyzer.numeric_stats exact sqrt (Series_dropna s) =
    [ ("Média", Float 2 (Fin m));
      ("Desvio Padrão", Float 2 sd);
      ("Mínimo", Float 2 (Fin lo));
      ("Q25 (25%)", Float 2 (Fin a));
      ("Mediana (50%)", Float 2 (Fin b));
      ("Q75 (75%)", Float 2 (Fin c));
      ("Máximo", Float 2 (Fin hi)) ] /\
    lo <= a /\ a <= b /\ b <= c /\ c <= hi /\ lo <= m /\ m <= hi.
Proof.
  intros s st.
  destruct (@summary_values_ordered xs Hvalue)
    as (m & lo & a & b & c & hi & med & Hm & Hlo & Ha & Hb & Hc & Hhi & Hmed &
        O1 & O2 & O3 & O4 & O5 & O6 & O7 & O8).
  unfold st, HuggingfaceClient.numeric_stats, s. cbn [numeric_values].
  cbn [stats_min stats_q25 stats_median stats_q75 stats_max stats_mean].
  rewrite Hm, Hlo, Ha, Hc, Hhi, Hmed. cbn [stat_le].
  repeat (split; [assumption|]).
  unfold ColumnAnalyzer.numeric_stats. rewrite numeric_values_dropna.
  cbn [numeric_values].
  assert (Hvalue' : dropna (keep xs) <> []) by now rewrite dropna_keep.
  destruct (@summary_values_ordered (keep xs) Hvalue')
    as (m' & lo' & a' & b' & c' & hi' & med' & Hm' & Hlo' & Ha' & Hb' & Hc' & Hhi' & _ &
        P1 & P2 & P3 & P4 & _ & _ & P7 & P8).
  rewrite Hm', Hlo', Ha', Hb', Hc', Hhi'. unfold fmt.
  pose proof (round_to_monotone 2 P1) as R1.
  pose proof (round_to_monotone 2 P2) as R2.
  pose proof (round_to_monotone 2 P3) as R3.
  pose proof (round_to_monotone 2 P4) as R4.
  pose proof (round_to_monotone 2 P7) as R5.
  pose proof (round_to_monotone 2 P8) as R6.
  cbn [round_to stat_le] in *.
  do 7 eexists. split; [reflexivity|].
  repeat split; assumption.
Qed.

(** The numeric column of the test suite. *)
Lemma numeric_summary_ordered_exact_witness :
  let st := HuggingfaceClient.numeric_stats exact exact
              (NumSeries float64 [Some 1; Some 2; Some 3; Some 4; Some 5; None]) in
  stat_le (stats_min st) (stats_q25 st) /\ stat_le (stats_mean st) (stats_max st).
Proof.
  intros st.
  destruct (@numeric_summary_ordered_exact float64
              [Some 1; Some 2; Some 3; Some 4; Some 5; None] exact)
    as (H1 & _ & _ & _ & _ & H6 & _).
  - simpl. discriminate.
  - split; [exact H1 | exact H6].
Defined.

(** C4, counterexample: with binary64 rounding the mean of the column
    0.1, 0.1, 0.1 is the float above 0.1 (the sum 0.30000000000000004
    divided by 3), larger than the maximum 0.1. *)
Lemma binary64_mean_above_max :
  let s := NumSeries float64 [Some tenth; Some tenth; Some tenth] in
  mean rn53 (numeric_values s) = Fin (7205759403792795 # 72057594037927936) /\
  max (numeric_values s) = Fin (3602879701896397 # 36028797018963968) /\
  (3602879701896397 # 36028797018963968) < (7205759403792795 # 72057594037927936) /\
  ~ (forall sqrt,
       stat_le (stats_mean (HuggingfaceClient.numeric_stats rn53 sqrt s))
               (stats_max (HuggingfaceClient.numeric_stats rn53 sqrt s))).
Proof.
  cbv zeta.
  assert (Hmean : mean rn53 [Some tenth; Some tenth; Some tenth]
                  = Fin (7205759403792795 # 72057594037927936))
    by (vm_compute; reflexivity).
  assert (Hmax : max [Some tenth; Some tenth; Some tenth]
                 = Fin (3602879701896397 # 36028797018963968))
    by (vm_compute; reflexivity).
  split; [exact Hmean|]. split; [exact Hmax|].
  split; [reflexivity|].
  intros H. specialize (H exact).
  unfold HuggingfaceClient.numeric_stats in H. cbn [numeric_values stats_mean stats_max] in H.
  rewrite Hmean, Hmax in H. cbn [stat_le] in H.
  revert H. apply Qlt_not_le. reflexivity.
Qed.

End NumericSummaryClaim.

Section TestSuite.

Local Open Scope string_scope.
Local Open Scope list_scope.

(** The numeric column of [test_get_column_stats_numeric]: six entries,
    five distinct values, one missing entry, mean 3. *)
Example get_column_stats_numeric_example :
  forall sqrt,
  exists st num,
    get_column_stats exact sqrt
      (mkDataFrame 6 [("values", NumSeries float64
                                   [Some 1; Some 2; Some 3; Some 4; Some 5; None])])
      "values" = Ok st /\
    stats_count st = 6%nat /\ stats_unique st = 5%nat /\ stats_null_count st = 1%nat /\
    stats_numeric st = Some num /\ stat_eq (stats_mean num) (Fin 3).
Proof.
  intros sqrt. do 2 eexists. split; [reflexivity|].
  repeat split.
Qed.

(** The categorical column of [test_get_column_stats_categorical]: three
    distinct values, missing entries not counted, no numeric statistics. *)
Example get_column_stats_categorical_example :
  forall rnd sqrt,
  exists st,
    get_column_stats rnd sqrt category_frame "category" = Ok st /\
    stats_count st = 6%nat /\ stats_unique st = 3%nat /\ stats_null_count st = 1%nat /\
    stats_numeric st = None.
Proof.
  intros rnd sqrt. eexists. split; [reflexivity|]. repeat split.
Qed.

(** Counts come out sorted, ties in order of first appearance. *)
Example value_counts_example :
  value_counts (TextSeries object_ [Some "B"; Some "A"; Some "A"; Some "C"; Some "A"; None])
  = [(VStr "A", 3%nat); (VStr "B", 1%nat); (VStr "C", 1%nat)].
Proof. reflexivity. Qed.

(** The binary64 rounding on 0.1. *)
Example rn53_tenth_example :
  tenth = 3602879701896397 # 36028797018963968.
Proof. vm_compute. reflexivity. Qed.

End TestSuite.

Section FrequencyTables.

Local Open Scope string_scope.
Local Open Scope list_scope.
Local Open Scope nat_scope.

Lemma insert_desc_In p l q : In q (insert_desc p l) <-> q = p \/ In q l.
Proof.
  induction l as [|a r IH]; simpl.
  - intuition.
  - destruct (Nat.ltb (snd p) (snd a)); simpl; [rewrite IH|]; intuition.
Qed.

Lemma insert_desc_sorted p l :
  StronglySorted (fun a b => snd b <= snd a) l ->
  StronglySorted (fun a b => snd b <= snd a) (insert_desc p l).
Proof.
  induction 1 as [|a r Hr IH Ha]; simpl.
  - repeat constructor.
  - destruct (Nat.ltb (snd p) (snd a)) eqn:E.
    + apply Nat.ltb_lt in E. constructor; [assumption|].
      apply Forall_forall. intros q Hq. apply insert_desc_In in Hq as [->|Hq].
      * lia.
      * rewrite Forall_forall in Ha. now apply Ha.
    + apply Nat.ltb_ge in E. constructor; [now constructor|].
      constructor; [assumption|].
      eapply Forall_impl; [|exact Ha]. intros q Hq. cbv beta in Hq. lia.
Qed.

Lemma sort_desc_sorted l : StronglySorted (fun a b => snd b <= snd a) (sort_desc l).
Proof.
  unfold sort_desc. induction l as [|p r IH]; simpl; [constructor|].
  now apply insert_desc_sorted.
Qed.

Lemma sorted_split {A : Type} (R : A -> A -> Prop) (l1 l2 : list A) :
  StronglySorted R (l1 ++ l2) ->
  forall a b, In a l1 -> In b l2 -> R a b.
Proof.
  induction l1 as [|x l1 IH]; simpl; intros Hs a b Ha Hb; [destruct Ha|].
  inversion Hs as [|? ? Hs' Hx]; subst.
  destruct Ha as [<-|Ha].
  - rewrite Forall_forall in Hx. apply Hx. apply in_or_app. now right.
  - now apply IH.
Qed.

Lemma unique_distinct l a b :
  In a (unique l) -> In b (unique l) -> value_eqb a b = true -> a = b.
Proof.
  induction l as [|x r IH]; simpl; [tauto|].
  intros [<-|Ha] [<-|Hb] E; auto.
  - apply filter_In in Hb as [_ Hb]. rewrite E in Hb. discriminate.
  - apply filter_In in Ha as [_ Ha]. rewrite value_eqb_sym, E in Ha. discriminate.
  - apply filter_In in Ha as [Ha _]. apply filter_In in Hb as [Hb _]. auto.
Qed.

Lemma unique_complete l w : In w l -> exists v, In v (unique l) /\ value_eqb v w = true.
Proof.
  induction l as [|x r IH]; simpl; [tauto|].
  intros [<-|Hw].
  - exists x. split; [now left | apply value_eqb_refl].
  - destruct (IH Hw) as (v & Hv & E).
    destruct (value_eqb x w) eqn:Ex.
    + exists x. split; [now left | assumption].
    + exists v. split; [|assumption]. right. apply filter_In. split; [assumption|].
      destruct (value_eqb x v) eqn:Exv; [|reflexivity].
      rewrite (@value_eqb_trans _ _ _ Exv E) in Ex. discriminate.
Qed.

Lemma dropna_In {A : Type} (xs : list (option A)) (x : A) :
  In x (dropna xs) <-> In (Some x) xs.
Proof.
  induction xs as [|[y|] r IH]; simpl.
  - tauto.
  - rewrite IH. split; intros [H|H]; auto; left; congruence.
  - rewrite IH. split; [auto|]. intros [H|H]; [discriminate | assumption].
Qed.

Lemma count_occ_b_equal u v l : value_eqb u v = true -> count_occ_b u l = count_occ_b v l.
Proof.
  intros E. unfold count_occ_b. f_equal. apply filter_ext. intros w.
  destruct (value_eqb u w) eqn:Eu, (value_eqb v w) eqn:Ev; try reflexivity.
  - rewrite value_eqb_sym in E. rewrite (@value_eqb_trans _ _ _ E Eu) in Ev. discriminate.
  - rewrite (@value_eqb_trans _ _ _ E Ev) in Eu. discriminate.
Qed.

Lemma value_counts_In s p :
  In p (value_counts s) <->
  In (fst p) (unique (dropna (cells s))) /\
  snd p = count_occ_b (fst p) (dropna (cells s)).
Proof.
  unfold value_counts. split.
  - intros H. apply (Permutation_in _ (sort_desc_perm _)) in H.
    apply in_map_iff in H as (v & <- & Hv). now split.
  - intros [Hv Hc]. apply (Permutation_in _ (Permutation_sym (sort_desc_perm _))).
    apply in_map_iff. exists (fst p). split; [|assumption].
    destruct p as [v c]. simpl in *. now rewrite Hc.
Qed.

(** The table of [value_counts().head(n)] lists the counts from the
    largest down, and no value left out of it is more frequent than a
    value in it. *)
Lemma top_n_are_the_most_frequent (s : Series) (n : nat) :
  let top := head n (value_counts s) in
  let rest := skipn n (value_counts s) in
  StronglySorted (fun a b => snd b <= snd a) top /\
  (forall shown, In shown top -> forall other, In other rest -> snd other <= snd shown) /\
  List.length top = Nat.min n (nunique s).
Proof.
  intros top rest.
  pose proof (sort_desc_sorted
                (map (fun v => (v, count_occ_b v (dropna (cells s))))
                     (unique (dropna (cells s))))) as Hs.
  fold (value_counts s) in Hs.
  rewrite <- (firstn_skipn n (value_counts s)) in Hs. fold (head n (value_counts s)) in Hs.
  fold top in Hs. fold rest in Hs.
  split; [|split].
  - clear - Hs. induction top as [|a r IH]; [constructor|].
    simpl in Hs. inversion Hs as [|? ? Hs' Ha]; subst.
    constructor; [now apply IH|].
    apply Forall_forall. intros q Hq. rewrite Forall_forall in Ha.
    apply Ha. apply in_or_app. now left.
  - intros shown Hshown other Hother.
    exact (@sorted_split _ _ _ _ Hs shown other Hshown Hother).
  - unfold top, head. now rewrite length_firstn, value_counts_length.
Qed.

(** Every row of [value_counts()] pairs a value of the column with the
    number of entries equal to it; no value has two rows; and every entry
    that is present has its row. *)
Lemma value_counts_rows_are_occurrence_counts (s : Series) :
  (forall v c, In (v, c) (value_counts s) ->
               In v (dropna (cells s)) /\
               c = count_occ_b v (dropna (cells s)) /\ 1 <= c) /\
  (forall p q, In p (value_counts s) -> In q (value_counts s) ->
               value_eqb (fst p) (fst q) = true -> p = q) /\
  (forall w, In (Some w) (cells s) ->
             exists v c, In (v, c) (value_counts s) /\ value_eqb v w = true).
Proof.
  split; [|split].
  - intros v c H. apply value_counts_In in H as [Hv Hc]. simpl in *.
    assert (Hin : In v (dropna (cells s))) by now apply unique_incl.
    split; [assumption|]. split; [assumption|].
    rewrite Hc. now apply count_occ_b_pos.
  - intros [v c] [w d] Hp Hq E. simpl in E.
    apply value_counts_In in Hp as [Hv Hc]. apply value_counts_In in Hq as [Hw Hd].
    simpl in *. assert (v = w) as -> by (eapply unique_distinct; eauto). congruence.
  - intros w Hw.
    assert (Hin : In w (dropna (cells s))).
    { clear - Hw. induction (cells s) as [|[x|] r IH]; simpl in *.
      - destruct Hw.
      - destruct Hw as [H|H]; [injection H as ->; now left | right; auto].
      - destruct Hw as [H|H]; [discriminate | auto]. }
    destruct (@unique_complete _ _ Hin) as (v & Hv & E).
    exists v, (count_occ_b v (dropna (cells s))). split; [|assumption].
    apply value_counts_In. now split.
Qed.

(** X1: the bar chart of the visualizer has one bar per distinct value
    among the [top_n] most frequent ones, longest first: the length of a
    bar is the number of entries equal to its value, at least 1, and every
    value of the column is either drawn or no more frequent than each
    value drawn.  A column without any value gives a chart without bars.
    The column is not the one called "count", the name of the counts. *)
Theorem bar_chart_shows_most_frequent_values df categorical_cols column top_n s
        (Hcols : categorical_cols <> [])
        (Hget : getitem df column = Ok s)
        (Hcount : column <> "count") :
  exists rows,
    _render_bar_chart df categorical_cols column top_n =
    ([ altair_chart
         (mkChart mark_bar [Lit "Top "; Int (Z.of_nat top_n); Lit " Valores: "; Lit column]
                  (Counts column rows)) ], Ok tt) /\
    List.length rows = Nat.min top_n (nunique s) /\
    StronglySorted (fun a b => snd b <= snd a) rows /\
    (forall v c, In (v, c) rows ->
       In (Some v) (cells s) /\ c = count_occ_b v (dropna (cells s)) /\ 1 <= c) /\
    (forall w, In (Some w) (cells s) ->
       (exists v c, In (v, c) rows /\ value_eqb v w = true) \/
       (forall v c, In (v, c) rows -> count_occ_b w (dropna (cells s)) <= c)).
Proof.
  exists (head top_n (value_counts s)).
  destruct (top_n_are_the_most_frequent s top_n) as (Hsorted & Hrest & Hlen).
  destruct (value_counts_rows_are_occurrence_counts s) as (Hrows & _ & Hall).
  cbv zeta in *.
  split; [|split; [exact Hlen|split; [exact Hsorted|split]]].
  - unfold _render_bar_chart. destruct categorical_cols as [|c0 cr]; [congruence|].
    now rewrite Hget, bind_lift_ok.
  - intros v c Hin. apply firstn_incl in Hin. destruct (Hrows v c Hin) as (Hv & Hc & Hpos).
    split; [now apply dropna_In | now split].
  - intros w Hw. destruct (Hall w Hw) as (v & c & Hin & E).
    rewrite <- (firstn_skipn top_n (value_counts s)) in Hin.
    apply in_app_or in Hin as [Hin|Hin]; [left; now exists v, c|].
    right. intros v' c' Hshown. specialize (Hrest _ Hshown _ Hin). simpl in Hrest.
    destruct (Hrows v c) as (_ & Hc & _).
    { rewrite <- (firstn_skipn top_n (value_counts s)). apply in_or_app. now right. }
    rewrite <- (@count_occ_b_equal v w _ E), <- Hc. exact Hrest.
Qed.

End FrequencyTables.

Section FrequencyTablesExample.

Local Open Scope string_scope.
Local Open Scope list_scope.

(** Two classes: "a" twice, "b" once. *)
Lemma bar_chart_shows_most_frequent_values_witness :
  exists rows : list (value * nat),
    _render_bar_chart grades_frame ["class"] "class" 10 =
    ([ altair_chart
         (mkChart mark_bar [Lit "Top "; Int 10; Lit " Valores: "; Lit "class"]
                  (Counts "class" rows)) ], Ok tt) /\
    List.length rows = 2%nat.
Proof.
  assert (Hcols : ["class"] <> []) by discriminate.
  assert (Hcount : "class" <> "count") by discriminate.
  destruct (@bar_chart_shows_most_frequent_values grades_frame ["class"] "class" 10%nat
              (TextSeries object_ [Some "a"; Some "b"; Some "a"]) Hcols eq_refl Hcount)
    as (rows & Hshown & Hlen & _).
  exists rows. split; [exact Hshown | exact Hlen].
Defined.

End FrequencyTablesExample.

Section TimelineCounts.

Local Open Scope string_scope.
Local Open Scope list_scope.

Lemma count_key_counted k acc d :
  counted d (count_key k acc) = (counted d acc + if Z.eqb k d then 1 else 0)%nat.
Proof.
  unfold counted. induction acc as [|[k0 n] r IH]; simpl.
  - destruct (Z.eqb k d); reflexivity.
  - destruct (Z.eqb k k0) eqn:E.
    + apply Z.eqb_eq in E. subst k0. simpl.
      destruct (Z.eqb k d); simpl; lia.
    + destruct (Z.ltb k k0); simpl.
      * destruct (Z.eqb k d), (Z.eqb k0 d); simpl; lia.
      * destruct (Z.eqb k0 d); simpl; rewrite IH; lia.
Qed.

Lemma count_key_keys k acc d :
  In d (map fst (count_key k acc)) <-> d = k \/ In d (map fst acc).
Proof.
  induction acc as [|[k0 n] r IH]; simpl.
  - intuition.
  - destruct (Z.eqb k k0) eqn:E.
    + apply Z.eqb_eq in E. subst k0. simpl. intuition.
    + destruct (Z.ltb k k0); simpl; [intuition|]. rewrite IH. intuition.
Qed.

Lemma count_key_sorted k acc :
  StronglySorted Z.lt (map fst acc) -> StronglySorted Z.lt (map fst (count_key k acc)).
Proof.
  induction acc as [|[k0 n] r IH]; simpl; intros Hs.
  - repeat constructor.
  - inversion Hs as [|? ? Hr Hk0]; subst.
    destruct (Z.eqb k k0) eqn:E; [simpl; now constructor|].
    apply Z.eqb_neq in E.
    destruct (Z.ltb k k0) eqn:L.
    + apply Z.ltb_lt in L. simpl. constructor; [now constructor|].
      constructor; [assumption|].
      eapply Forall_impl; [|exact Hk0]. intros z Hz. cbv beta in Hz. lia.
    + apply Z.ltb_ge in L. simpl. constructor; [now apply IH|].
      apply Forall_forall. intros z Hz. apply count_key_keys in Hz as [->|Hz].
      * lia.
      * rewrite Forall_forall in Hk0. now apply Hk0.
Qed.

Lemma count_key_positive k acc :
  Forall (fun p => (1 <= snd p)%nat) acc ->
  Forall (fun p => (1 <= snd p)%nat) (count_key k acc).
Proof.
  induction 1 as [|[k0 n] r Hn Hr IH]; simpl.
  - repeat constructor.
  - destruct (Z.eqb k k0); [constructor; [simpl; lia | assumption]|].
    destruct (Z.ltb k k0); repeat (constructor; try assumption).
Qed.

Lemma count_key_total k acc :
  list_sum (map snd (count_key k acc)) = S (list_sum (map snd acc)).
Proof.
  induction acc as [|[k0 n] r IH]; simpl; [reflexivity|].
  destruct (Z.eqb k k0); [reflexivity|].
  destruct (Z.ltb k k0); simpl; [reflexivity|]. rewrite IH. lia.
Qed.

Lemma groupby_size_from keys acc :
  let out := fold_left (fun a k => count_key k a) keys acc in
  (StronglySorted Z.lt (map fst acc) -> StronglySorted Z.lt (map fst out)) /\
  (Forall (fun p => (1 <= snd p)%nat) acc -> Forall (fun p => (1 <= snd p)%nat) out) /\
  (forall d, counted d out = (counted d acc + count_occ Z.eq_dec keys d)%nat) /\
  list_sum (map snd out) = (list_sum (map snd acc) + List.length keys)%nat.
Proof.
  revert acc. induction keys as [|k keys IH]; intros acc; simpl.
  - repeat split; auto.
  - destruct (IH (count_key k acc)) as (H1 & H2 & H3 & H4). cbv zeta in *.
    split; [|split; [|split]].
    + intros Hs. apply H1. now apply count_key_sorted.
    + intros Hp. apply H2. now apply count_key_positive.
    + intros d. rewrite H3, count_key_counted.
      destruct (Z.eq_dec k d) as [->|Hne].
      * rewrite Z.eqb_refl. lia.
      * apply Z.eqb_neq in Hne. rewrite Hne. lia.
    + rewrite H4, count_key_total. lia.
Qed.

Lemma filter_none {A : Type} (f : A -> bool) (l : list A) :
  (forall a, In a l -> f a = false) -> filter f l = [].
Proof.
  induction l as [|a r IH]; simpl; intros H; [reflexivity|].
  rewrite (H a (or_introl eq_refl)). apply IH. intros b Hb. apply H. now right.
Qed.

Lemma counted_single d n rows :
  StronglySorted Z.lt (map fst rows) -> In (d, n) rows -> counted d rows = n.
Proof.
  unfold counted. induction rows as [|[k m] r IH]; simpl; intros Hs Hin; [destruct Hin|].
  inversion Hs as [|? ? Hr Hk]; subst. rewrite Forall_forall in Hk.
  destruct Hin as [E|Hin].
  - injection E as -> ->. rewrite Z.eqb_refl. simpl.
    rewrite filter_none; [simpl; lia|].
    intros [k' m'] Hp. simpl. apply Z.eqb_neq.
    assert ((d < k')%Z) by (apply Hk; apply in_map_iff; exists (k', m'); now split).
    lia.
  - assert (Hlt : (k < d)%Z).
    { apply Hk. apply in_map_iff. exists (d, n). now split. }
    destruct (Z.eqb k d) eqn:E; [apply Z.eqb_eq in E; lia|].
    now apply IH.
Qed.

Lemma groupby_size_rows (days_seen : list Z) :
  let counts := groupby_size days_seen in
  StronglySorted Z.lt (map fst counts) /\
  (forall d n, In (d, n) counts ->
               n = count_occ Z.eq_dec days_seen d /\ (1 <= n)%nat /\ In d days_seen) /\
  (forall d, In d days_seen -> exists n, In (d, n) counts) /\
  list_sum (map snd counts) = List.length days_seen.
Proof.
  intros counts. unfold counts.
  destruct (groupby_size_from days_seen []) as (H1 & H2 & H3 & H4). cbv zeta in *.
  fold (groupby_size days_seen) in *.
  specialize (H1 (SSorted_nil _)). specialize (H2 (Forall_nil _)).
  split; [exact H1|]. split; [|split].
  - intros d n Hin.
    pose proof (@counted_single _ _ _ H1 Hin) as Hc. rewrite H3 in Hc.
    change (counted d []) with 0%nat in Hc. simpl in Hc.
    rewrite Forall_forall in H2. specialize (H2 _ Hin). simpl in H2.
    split; [lia|]. split; [assumption|].
    apply (count_occ_In Z.eq_dec). lia.
  - intros d Hd. apply (count_occ_In Z.eq_dec) in Hd.
    specialize (H3 d). change (counted d []) with 0%nat in H3. simpl in H3.
    unfold counted in H3.
    destruct (filter (fun p => Z.eqb (fst p) d) (groupby_size days_seen))
      as [|[k n] r] eqn:E.
    + simpl in H3. lia.
    + assert (Hin : In (k, n) (filter (fun p => Z.eqb (fst p) d) (groupby_size days_seen)))
        by (rewrite E; now left).
      apply filter_In in Hin as [Hin Hk]. simpl in Hk. apply Z.eqb_eq in Hk. subst k.
      now exists n.
  - rewrite H4. reflexivity.
Qed.

(** X2: the timeline of [_plot_timeline] has one point per calendar day on
    which the column has a timestamp, the days strictly increasing; the
    count of a day is the number of timestamps on that day, at least 1;
    and the counts add up to the number of timestamps present. *)
Theorem timeline_counts_per_day (clean : Series) (column : string) :
  let days_seen := map date (dropna (datetime_values clean)) in
  exists counts,
    _plot_timeline clean column =
    ([ altair_chart (mkChart mark_line [Lit "Distribuição Temporal: "; Lit column]
                             (Timeline counts)) ], Ok tt) /\
    StronglySorted Z.lt (map fst counts) /\
    (forall d n, In (d, n) counts ->
                 n = count_occ Z.eq_dec days_seen d /\ (1 <= n)%nat /\ In d days_seen) /\
    (forall d, In d days_seen -> exists n, In (d, n) counts) /\
    list_sum (map snd counts) = List.length (dropna (datetime_values clean)).
Proof.
  intros days_seen.
  exists (groupby_size days_seen). split; [reflexivity|].
  destruct (groupby_size_rows days_seen) as (H1 & H2 & H3 & H4).
  split; [exact H1|]. split; [exact H2|]. split; [exact H3|].
  rewrite H4. unfold days_seen. now rewrite length_map.
Qed.

End TimelineCounts.

Section DetailView.

Local Open Scope string_scope.
Local Open Scope list_scope.

Lemma show_basic_info_unfold rnd df column s :
  getitem df column = Ok s ->
  _show_basic_info rnd df column =
  (basic_info_lines rnd s ++
   [ let completeness := stat_rsub rnd 100 (null_pct rnd s) in
     if stat_eqb completeness 100 then
       success [Lit "✓ Completude: "; fmt 1 completeness; Lit "%"]
     else if stat_geb completeness 90 then
       info [Lit "Completude: "; fmt 1 completeness; Lit "%"]
     else
       warning [Lit "⚠ Completude: "; fmt 1 completeness; Lit "%"] ],
   Ok tt).
Proof.
  intros Hget. unfold _show_basic_info. rewrite Hget.
  rewrite bind_emit, bind_lift_ok. cbv zeta.
  destruct (stat_eqb (stat_rsub rnd 100 (null_pct rnd s)) 100);
    [reflexivity|].
  destruct (stat_geb (stat_rsub rnd 100 (null_pct rnd s)) 90); reflexivity.
Qed.

(** In exact arithmetic the completeness of a column with [total > 0]
    rows is [100 - 100 * nulls / total]. *)
Lemma completeness_exact s :
  (0 < len s)%nat ->
  exists c,
    stat_rsub exact 100 (null_pct exact s) = Fin c /\
    c == 100 - 100 * of_nat (isna_sum (cells s)) / of_nat (len s).
Proof.
  intros Hpos. pose proof (of_nat_pos Hpos) as Hp.
  unfold null_pct, true_divide.
  destruct (Qeq_bool (of_nat (len s)) 0) eqn:E.
  { apply Qeq_bool_iff in E. lra. }
  cbn [stat_mul stat_rsub]. eexists. split; [reflexivity|].
  unfold fsub, fmul, fdiv, exact. field. lra.
Qed.

(** X3: the completeness indicator of [_show_basic_info], in exact
    arithmetic and for a column with at least one row: a success box
    exactly when no entry is missing, an info box when entries are missing
    but at most one in ten, a warning box otherwise. *)
Theorem completeness_indicator df column s
  (Hget : getitem df column = Ok s)
  (Hrows : (0 < len s)%nat) :
  let nulls := isna_sum (cells s) in
  let completeness := stat_rsub exact 100 (null_pct exact s) in
  exists box,
    _show_basic_info exact df column = (basic_info_lines exact s ++ [box], Ok tt) /\
    (nulls = 0%nat ->
     box = success [Lit "✓ Completude: "; fmt 1 completeness; Lit "%"]) /\
    ((0 < nulls)%nat -> (10 * nulls <= len s)%nat ->
     box = info [Lit "Completude: "; fmt 1 completeness; Lit "%"]) /\
    ((len s < 10 * nulls)%nat ->
     box = warning [Lit "⚠ Completude: "; fmt 1 completeness; Lit "%"]).
Proof.
  intros nulls completeness.
  eexists. split; [now apply show_basic_info_unfold|].
  cbv zeta. fold completeness.
  destruct (@completeness_exact s Hrows) as (c & Hc & Ec). fold completeness in Hc.
  pose proof (of_nat_pos Hrows) as Hp.
  rewrite Hc. cbn [stat_eqb stat_geb].
  set (a := of_nat (isna_sum (cells s))) in *. set (b := of_nat (len s)) in *.
  assert (Hfrac : forall k : Q, 0 < b -> (100 - 100 * a / b <= k <-> (100 - k) * b <= 100 * a)).
  { intros k Hb. split; intros H.
    - assert (E : 100 * a == 100 * a / b * b) by (field; lra).
      rewrite E. setoid_replace ((100 - k) * b) with (100 * b - k * b) by ring.
      assert (H' : 0 <= (k - (100 - 100 * a / b)) * b) by (apply Qmult_le_0_compat; lra).
      setoid_replace ((k - (100 - 100 * a / b)) * b)
        with (k * b - 100 * b + 100 * a / b * b) in H' by ring.
      lra.
    - assert (Hd : (100 - k) * b / b <= 100 * a / b).
      { apply Qmult_le_compat_r; [assumption|]. apply Qlt_le_weak, Qinv_lt_0_compat. lra. }
      assert (E : (100 - k) * b / b == 100 - k) by (field; lra).
      rewrite E in Hd. lra. }
  assert (Hge : forall k : Q, 0 < b -> (k <= 100 - 100 * a / b <-> 100 * a <= (100 - k) * b)).
  { intros k Hb. split; intros H.
    - assert (E : 100 * a == 100 * a / b * b) by (field; lra).
      rewrite E.
      assert (H' : 0 <= (100 - 100 * a / b - k) * b) by (apply Qmult_le_0_compat; lra).
      setoid_replace ((100 - 100 * a / b - k) * b)
        with ((100 - k) * b - 100 * a / b * b) in H' by ring.
      lra.
    - assert (Hd : 100 * a / b <= (100 - k) * b / b).
      { apply Qmult_le_compat_r; [assumption|]. apply Qlt_le_weak, Qinv_lt_0_compat. lra. }
      assert (E : (100 - k) * b / b == 100 - k) by (field; lra).
      rewrite E in Hd. lra. }
  assert (Ha : a = of_nat nulls) by reflexivity.
  assert (Ha0 : 0 <= a) by (unfold a; apply of_nat_nonneg).
  split; [|split].
  - intros Hz.
    assert (E : Qeq_bool c 100 = true).
    { apply Qeq_bool_iff. rewrite Ec.
      assert (a == 0) as -> by (rewrite Ha, Hz; reflexivity). field. lra. }
    now rewrite E.
  - intros Hnz Hten.
    assert (Hapos : 0 < a) by (rewrite Ha; now apply of_nat_pos).
    assert (E : Qeq_bool c 100 = false).
    { destruct (Qeq_bool c 100) eqn:E; [|reflexivity].
      apply Qeq_bool_iff in E. rewrite Ec in E.
      assert (H : 100 <= 100 - 100 * a / b) by lra.
      apply (Hge 100 Hp) in H. lra. }
    assert (G : Qle_bool 90 c = true).
    { apply Qle_bool_iff. rewrite Ec. apply (Hge 90 Hp).
      assert (H : of_nat (10 * nulls) <= of_nat (len s)) by now apply of_nat_le.
      fold b in H.
      assert (E10 : of_nat (10 * nulls) == 10 * a).
      { rewrite Ha. unfold of_nat. rewrite Nat2Z.inj_mul, inject_Z_mult. reflexivity. }
      rewrite E10 in H. lra. }
    now rewrite E, G.
  - intros Hmany.
    assert (H : of_nat (len s) < of_nat (10 * nulls)).
    { unfold of_nat. rewrite <- Zlt_Qlt. lia. }
    fold b in H.
    assert (E10 : of_nat (10 * nulls) == 10 * a).
    { rewrite Ha. unfold of_nat. rewrite Nat2Z.inj_mul, inject_Z_mult. reflexivity. }
    rewrite E10 in H.
    assert (E : Qeq_bool c 100 = false).
    { destruct (Qeq_bool c 100) eqn:E; [|reflexivity].
      apply Qeq_bool_iff in E. rewrite Ec in E.
      assert (H' : 100 <= 100 - 100 * a / b) by lra.
      apply (Hge 100 Hp) in H'. lra. }
    assert (G : Qle_bool 90 c = false).
    { destruct (Qle_bool 90 c) eqn:G; [|reflexivity].
      apply Qle_bool_iff in G. rewrite Ec in G. apply (Hge 90 Hp) in G. lra. }
    now rewrite E, G.
Qed.

End DetailView.

Section DetailViewExample.

Local Open Scope string_scope.
Local Open Scope list_scope.

(** One entry missing out of four: the indicator is a warning box. *)
Lemma completeness_indicator_witness :
  exists box,
    _show_basic_info exact ages_frame "age" = (basic_info_lines exact ages_column ++ [box], Ok tt) /\
    box = warning [Lit "⚠ Completude: ";
                   fmt 1 (stat_rsub exact 100 (null_pct exact ages_column)); Lit "%"].
Proof.
  assert (Hrows : (0 < len ages_column)%nat) by (vm_compute; lia).
  destruct (@completeness_indicator ages_frame "age" ages_column eq_refl Hrows)
    as (box & Hshown & _ & _ & Hwarning).
  exists box. split; [exact Hshown|]. apply Hwarning. vm_compute. lia.
Defined.

End DetailViewExample.

Section DetailViewNotices.

Local Open Scope string_scope.
Local Open Scope list_scope.

Lemma value_counts_all_null s : dropna (cells s) = [] -> value_counts s = [].
Proof. intros H. unfold value_counts. now rewrite H. Qed.

(** X4: for a column whose entries are all missing, the frequency table, the
    datetime statistics and the visualization each show their warning
    and nothing else, whatever the kind of the column, and none raises. *)
Theorem all_null_column_shows_warnings rnd df column s
  (Hget : getitem df column = Ok s)
  (Hnull : dropna (cells s) = []) :
  _show_categorical_stats rnd df column =
  ([ write [Lit "**Top 10 Valores Mais Frequentes**"];
     warning [Lit "Nenhum valor encontrado"] ], Ok tt) /\
  _show_datetime_stats df column =
  ([ write [Lit "**Estatísticas (Data/Hora)**"];
     warning [Lit "Todos os valores são nulos"] ], Ok tt) /\
  _show_column_visualization df column =
  ([ write [Lit "**Visualização**"];
     warning [Lit "Todos os valores são nulos - visualização não disponível"] ], Ok tt).
Proof.
  split; [|split].
  - unfold _show_categorical_stats. rewrite Hget, bind_emit, bind_lift_ok.
    now rewrite value_counts_all_null.
  - unfold _show_datetime_stats. rewrite Hget, bind_emit, bind_lift_ok.
    now rewrite len_Series_dropna, Hnull.
  - unfold _show_column_visualization. rewrite Hget, bind_emit, bind_lift_ok.
    now rewrite len_Series_dropna, Hnull.
Qed.

Lemma value_counts_dropna s : value_counts (Series_dropna s) = value_counts s.
Proof. unfold value_counts. now rewrite cells_Series_dropna, dropna_keep. Qed.

Lemma datetime_values_dropna s :
  dropna (datetime_values (Series_dropna s)) = dropna (datetime_values s).
Proof. destruct s; simpl; try reflexivity. apply dropna_keep. Qed.

(** X5: for a column with at least one value the visualization follows the
    category of the column: a histogram of the values that are present
    for NUMERIC, a bar chart of the 15 most frequent values for TEXTUAL,
    a timeline of counts per day for TEMPORAL, and a notice instead of a
    chart for UNSUPPORTED; missing entries never reach a chart.  The
    column is not the one called "count", the name of the counts. *)
Theorem visualization_follows_category df column s
  (Hget : getitem df column = Ok s)
  (Hvalue : dropna (cells s) <> [])
  (Hcount : column <> "count") :
  _show_column_visualization df column =
  ([ write [Lit "**Visualização**"];
     match classify (dtype_of s) with
     | NUMERIC =>
         altair_chart (mkChart mark_bar [Lit "Distribuição: "; Lit column]
                               (Values column (dropna (cells s))))
     | TEXTUAL =>
         altair_chart (mkChart mark_bar [Lit "Top 15 Valores: "; Lit column]
                               (Counts column (head 15 (value_counts s))))
     | TEMPORAL =>
         altair_chart (mkChart mark_line [Lit "Distribuição Temporal: "; Lit column]
                               (Timeline (groupby_size
                                            (map date (dropna (datetime_values s))))))
     | UNSUPPORTED =>
         info [Lit "Visualização não disponível para este tipo de dado"]
     end ], Ok tt).
Proof.
  unfold _show_column_visualization. rewrite Hget, bind_emit, bind_lift_ok.
  rewrite len_Series_dropna.
  destruct (dropna (cells s)) as [|v r] eqn:E; [congruence|].
  cbn [List.length Nat.eqb]. unfold classify.
  destruct (is_numeric_dtype (dtype_of s)).
  { unfold _plot_histogram. now rewrite cells_Series_dropna, dropna_keep, E. }
  destruct (is_string_dtype (dtype_of s) || is_object_dtype (dtype_of s)).
  { unfold _plot_bar_chart. now rewrite value_counts_dropna. }
  destruct (is_datetime64_any_dtype (dtype_of s)).
  { unfold _plot_timeline. now rewrite datetime_values_dropna. }
  reflexivity.
Qed.

Lemma for_each_emit_ok {A : Type} (l : list A) (f : A -> event) :
  for_each l (fun a => emit (f a)) = (map f l, Ok tt).
Proof.
  induction l as [|a r IH]; simpl; [reflexivity|].
  rewrite bind_emit, IH. reflexivity.
Qed.

Lemma write_stats_ok stats : snd (write_stats stats) = Ok tt.
Proof. unfold write_stats. now rewrite for_each_emit_ok. Qed.

Lemma bind_ok {A B : Type} (m : ui A) (f : A -> ui B) a r :
  snd m = Ok a -> snd (f a) = r -> snd (bind m f) = r.
Proof. intros Hm Hf. unfold bind. now rewrite Hm. Qed.

Lemma show_type_specific_stats_ok rnd sqrt df column s :
  getitem df column = Ok s ->
  span_fits s ->
  snd (_show_type_specific_stats rnd sqrt df column) = Ok tt.
Proof.
  intros Hget Hspan. unfold _show_type_specific_stats. rewrite Hget, bind_lift_ok.
  destruct s as [k xs|xs|k xs|tz xs|k xs]; cbn [dtype_of is_numeric_dtype is_string_dtype
    is_object_dtype is_datetime64_any_dtype orb].
  - unfold _show_numeric_stats. rewrite Hget, bind_emit, bind_lift_ok. cbn [snd].
    destruct (Nat.eqb (len (Series_dropna (NumSeries k xs))) 0);
      [reflexivity | apply write_stats_ok].
  - unfold _show_numeric_stats. rewrite Hget, bind_emit, bind_lift_ok. cbn [snd].
    destruct (Nat.eqb (len (Series_dropna (BoolSeries xs))) 0);
      [reflexivity | apply write_stats_ok].
  - unfold _show_categorical_stats. rewrite Hget, bind_emit, bind_lift_ok. cbn [snd].
    now destruct (Nat.eqb (List.length (head 10 (value_counts (TextSeries k xs)))) 0).
  - unfold _show_datetime_stats. rewrite Hget, bind_emit, bind_lift_ok. cbn [snd].
    rewrite len_Series_dropna.
    destruct (dropna (cells (TimeSeries tz xs))) as [|v r] eqn:E; [reflexivity|].
    cbn [List.length Nat.eqb].
    simpl cells in E. rewrite dropna_option_map in E.
    destruct (dropna xs) as [|t ts] eqn:Ex; [discriminate|].
    unfold datetime_stats, time_min, time_max. simpl datetime_values.
    rewrite dropna_keep, Ex.
    destruct (fold_min_spec ts t) as [_ Hlo]. destruct (fold_max_spec ts t) as [_ Hhi].
    specialize (Hlo t (or_introl eq_refl)). specialize (Hhi t (or_introl eq_refl)).
    assert (Hfit : (fold_left Z.max ts t - fold_left Z.min ts t <= int64_max)%Z).
    { apply Hspan; unfold time_min, time_max; simpl datetime_values; now rewrite Ex. }
    rewrite (@timestamp_sub_fits (fold_left Z.max ts t) (fold_left Z.min ts t));
      [|lia|exact Hfit].
    rewrite bind_lift_ok. apply write_stats_ok.
  - reflexivity.
Qed.

Lemma show_column_visualization_ok df column s :
  getitem df column = Ok s ->
  snd (_show_column_visualization df column) = Ok tt.
Proof.
  intros Hget. unfold _show_column_visualization.
  rewrite Hget, bind_emit, bind_lift_ok. cbn [snd].
  destruct (Nat.eqb (len (Series_dropna s)) 0); [reflexivity|].
  destruct (is_numeric_dtype (dtype_of s)); [reflexivity|].
  destruct (is_string_dtype (dtype_of s) || is_object_dtype (dtype_of s)); [reflexivity|].
  destruct (is_datetime64_any_dtype (dtype_of s)); reflexivity.
Qed.

(** X6: for a frame with rows and a selected column that exists, is not
    boolean, is not called "count" and, if it holds timestamps, holds
    none further apart than a Timedelta can tell (about 292 years),
    [analyze_columns] runs to its end without raising: it shows the basic
    information, the statistics of the kind, the visualization and last
    the first [min(20, rows)] entries of the column.  With no selection
    it shows the header alone, and for a name that is not a column it
    stops with a KeyError inside the basic information. *)
Theorem analyze_columns_completes rnd sqrt df column s
  (Hrows : empty df = false)
  (Hname : column <> "")
  (Hget : getitem df column = Ok s)
  (Hkind : dtype_of s <> DBool)
  (Hcount : column <> "count")
  (Hspan : span_fits s) :
  snd (analyze_columns rnd sqrt df (Some column)) = Ok tt /\
  (exists shown,
     fst (analyze_columns rnd sqrt df (Some column)) =
     shown ++ [ write [Lit "**Amostra de Valores**"];
                dataframe (ColumnTable column
                             (head (Nat.min 20 (index_len df)) (cells s))) ]) /\
  analyze_columns rnd sqrt df None =
  ([ subheader "Análise Detalhada de Colunas" ], Ok tt) /\
  (forall missing,
     missing <> "" -> lookup missing (columns df) = None ->
     analyze_columns rnd sqrt df (Some missing) =
     ([ subheader "Análise Detalhada de Colunas";
        write [Lit "**Informações Básicas**"] ],
      Raise (mkExn KeyError missing))).
Proof.
  assert (Hbasic : forall c s0, getitem df c = Ok s0 ->
                                snd (_show_basic_info rnd df c) = Ok tt).
  { intros c s0 H. now rewrite (@show_basic_info_unfold rnd df c s0 H). }
  assert (Hunf : forall c, c <> "" ->
    analyze_columns rnd sqrt df (Some c) =
    bind (emit (subheader "Análise Detalhada de Colunas"))
      (fun _ => bind (_show_basic_info rnd df c)
         (fun _ => bind (_show_type_specific_stats rnd sqrt df c)
            (fun _ => bind (_show_column_visualization df c)
               (fun _ => bind (emit (write [Lit "**Amostra de Valores**"]))
                  (fun _ => bind (lift (getitem df c))
                     (fun s0 => emit (dataframe
                        (ColumnTable c
                           (head (Nat.min 20 (index_len df)) (cells s0))))))))))).
  { intros c Hc. unfold analyze_columns. rewrite Hrows.
    destruct c as [|a r]; [congruence|]. reflexivity. }
  split; [|split; [|split]].
  - rewrite (Hunf column Hname), bind_emit. cbn [snd].
    eapply bind_ok; [now apply (Hbasic column s)|].
    eapply bind_ok; [now apply (@show_type_specific_stats_ok rnd sqrt df column s Hget)|].
    eapply bind_ok; [now apply (@show_column_visualization_ok df column s)|].
    rewrite bind_emit, Hget, bind_lift_ok. reflexivity.
  - rewrite (Hunf column Hname), bind_emit. cbn [fst].
    pose proof (Hbasic column s Hget) as H1.
    pose proof (@show_type_specific_stats_ok rnd sqrt df column s Hget Hspan) as H2.
    pose proof (@show_column_visualization_ok df column s Hget) as H3.
    unfold bind at 1. rewrite H1. cbn [fst snd].
    unfold bind at 1. rewrite H2. cbn [fst snd].
    unfold bind at 1. rewrite H3. cbn [fst snd].
    rewrite bind_emit, Hget, bind_lift_ok. cbn [fst emit].
    eexists. rewrite !app_comm_cons, !app_assoc. reflexivity.
  - unfold analyze_columns. rewrite Hrows. reflexivity.
  - intros missing Hne Hnone. rewrite (Hunf missing Hne), bind_emit.
    unfold _show_basic_info, getitem. rewrite Hnone.
    reflexivity.
Qed.

End DetailViewNotices.

Section DetailViewNoticesExamples.

Local Open Scope string_scope.
Local Open Scope list_scope.

(** A float column holding only missing entries. *)
Lemma all_null_column_shows_warnings_witness :
  _show_column_visualization all_null_frame "x" =
  ([ write [Lit "**Visualização**"];
     warning [Lit "Todos os valores são nulos - visualização não disponível"] ], Ok tt).
Proof.
  exact (proj2 (proj2 (@all_null_column_shows_warnings exact all_null_frame "x"
                         (NumSeries float64 [None; None]) eq_refl eq_refl))).
Defined.

(** A numeric column: the histogram gets the three values present. *)
Lemma visualization_follows_category_witness :
  _show_column_visualization ages_frame "age" =
  ([ write [Lit "**Visualização**"];
     altair_chart (mkChart mark_bar [Lit "Distribuição: "; Lit "age"]
                           (Values "age" [VNum 1; VNum 3; VNum 4])) ], Ok tt).
Proof.
  assert (Hvalue : dropna (cells ages_column) <> []) by discriminate.
  assert (Hcount : "age" <> "count") by discriminate.
  exact (@visualization_follows_category ages_frame "age" ages_column eq_refl Hvalue
           Hcount).
Defined.

(** A datetime column with two timestamps on the same day. *)
Lemma analyze_columns_completes_witness :
  snd (analyze_columns exact exact visits_frame (Some "when")) = Ok tt.
Proof.
  assert (Hname : "when" <> "") by discriminate.
  assert (Hkind : dtype_of (TimeSeries false [Some 0%Z; Some 1%Z; None]) <> DBool)
    by discriminate.
  assert (Hcount : "when" <> "count") by discriminate.
  assert (Hspan : span_fits (TimeSeries false [Some 0%Z; Some 1%Z; None])).
  { intros lo hi Hlo Hhi. vm_compute in Hlo, Hhi.
    injection Hlo as <-. injection Hhi as <-. vm_compute. discriminate. }
  exact (proj1 (@analyze_columns_completes exact exact visits_frame "when"
                  (TimeSeries false [Some 0%Z; Some 1%Z; None])
                  eq_refl Hname eq_refl Hkind Hcount Hspan)).
Defined.

End DetailViewNoticesExamples.

Section Reprocessing.

Local Open Scope string_scope.
Local Open Scope list_scope.

Variable parse_datetime : string -> option Z.
Variable convert_non_text : Series -> result Series.

Lemma to_datetime_fixes_datetimes s :
  is_datetime64_any_dtype (dtype_of s) = true ->
  to_datetime parse_datetime convert_non_text s = Ok s.
Proof. destruct s; simpl; intros H; try discriminate H. reflexivity. Qed.

Lemma to_datetime_text d xs :
  to_datetime parse_datetime convert_non_text (TextSeries d xs) =
  Ok (TimeSeries false
        (map (fun c => match c with Some str => parse_datetime str | None => None end) xs)).
Proof. reflexivity. Qed.

Section Idempotence.

(** [pd.to_datetime] returns a datetime column when it returns. *)
Hypothesis convert_gives_datetime :
  forall s s', convert_non_text s = Ok s' ->
               is_datetime64_any_dtype (dtype_of s') = true.

Lemma to_datetime_gives_datetime s s' :
  to_datetime parse_datetime convert_non_text s = Ok s' ->
  is_datetime64_any_dtype (dtype_of s') = true.
Proof.
  destruct s; simpl; intros H;
    try (now apply convert_gives_datetime in H);
    injection H as <-; reflexivity.
Qed.

Lemma converted_idempotent c :
  converted parse_datetime convert_non_text
    (converted parse_datetime convert_non_text c) =
  converted parse_datetime convert_non_text c.
Proof.
  destruct c as [n s].
  assert (Hc : converted parse_datetime convert_non_text (n, s) =
               if matches n then
                 match to_datetime parse_datetime convert_non_text s with
                 | Ok s' => (n, s')
                 | Raise _ => (n, s)
                 end
               else (n, s)) by reflexivity.
  destruct (matches n) eqn:Hm.
  - destruct (to_datetime parse_datetime convert_non_text s) as [s'|e] eqn:E;
      rewrite Hc; unfold converted; cbn [fst snd]; rewrite Hm.
    + apply to_datetime_gives_datetime in E.
      now rewrite (to_datetime_fixes_datetimes _ E).
    + now rewrite E.
  - rewrite Hc. unfold converted. cbn [fst snd]. now rewrite Hm.
Qed.

(** X7: processing a processed frame changes nothing: the columns converted
    by the first pass are datetime columns, which the second pass hands
    back as they are, and a column whose conversion raised raises
    again. *)
Theorem process_datetime_columns_idempotent df
  (Hnames : NoDup (column_names df)) :
  let once := fst (_process_datetime_columns parse_datetime convert_non_text df) in
  fst (_process_datetime_columns parse_datetime convert_non_text once) = once.
Proof.
  cbv zeta. rewrite (process_datetime_columns_eq _ _ _ Hnames). cbn [fst].
  rewrite process_datetime_columns_eq.
  - cbn [fst index_len columns]. f_equal. rewrite map_map.
    apply map_ext. intros c. apply converted_idempotent.
  - unfold column_names in *. cbn [columns]. rewrite map_map.
    erewrite map_ext; [exact Hnames|]. intros c. apply fst_converted.
Qed.

End Idempotence.

Section WellFormed.

(** [pd.to_datetime] returns a column as long as its argument. *)
Hypothesis convert_keeps_length :
  forall s s', convert_non_text s = Ok s' -> len s' = len s.

Lemma converted_keeps_length c :
  len (snd (converted parse_datetime convert_non_text c)) = len (snd c).
Proof.
  destruct c as [n s]. unfold converted. cbn [fst snd].
  destruct (matches n); [|reflexivity].
  destruct (to_datetime parse_datetime convert_non_text s) as [s'|e] eqn:E;
    [|reflexivity].
  cbn [snd]. destruct s; simpl in E;
    try (now apply convert_keeps_length in E);
    injection E as <-; [|reflexivity].
  unfold len. simpl. now rewrite !length_map.
Qed.

(** X8: processing keeps a frame well formed: the same number of rows, the
    same column names in the same order, and every column, converted or
    not, as long as the index. *)
Theorem process_datetime_columns_keeps_shape df (Hwf : wf_frame df) :
  let out := fst (_process_datetime_columns parse_datetime convert_non_text df) in
  wf_frame out /\
  index_len out = index_len df /\
  column_names out = column_names df /\
  empty out = empty df.
Proof.
  cbv zeta. destruct Hwf as [Hlen Hnames].
  rewrite (process_datetime_columns_eq _ _ _ Hnames). cbn [fst].
  assert (Hn : map fst (map (converted parse_datetime convert_non_text) (columns df))
               = map fst (columns df)).
  { rewrite map_map. apply map_ext. intros c. apply fst_converted. }
  split; [split|split; [|split]].
  - cbn [columns index_len]. rewrite Forall_forall in *. intros c Hc.
    apply in_map_iff in Hc as (c0 & <- & Hc0).
    rewrite converted_keeps_length. now apply Hlen.
  - unfold column_names in *. cbn [columns]. now rewrite Hn.
  - reflexivity.
  - unfold column_names. cbn [columns]. exact Hn.
  - unfold empty. cbn [index_len columns]. now rewrite length_map.
Qed.

End WellFormed.

(** X9: a text column with a date-like name in which no entry parses comes
    out as a datetime column whose entries are all missing: its text is
    gone, the detail view shows the datetime statistics with the warning
    that every value is null, and [get_column_stats] counts every row as
    null and no distinct value. *)
Theorem unparseable_date_named_column_is_emptied df col d xs
  (Hnames : NoDup (column_names df))
  (Hget : getitem df col = Ok (TextSeries d xs))
  (Hname : date_like col)
  (Hfail : forall str, In (Some str) xs -> parse_datetime str = None) :
  let out := fst (_process_datetime_columns parse_datetime convert_non_text df) in
  getitem out col = Ok (TimeSeries false (repeat None (List.length xs))) /\
  (forall rnd sqrt,
     _show_type_specific_stats rnd sqrt out col =
     ([ write [Lit "**Estatísticas (Data/Hora)**"];
        warning [Lit "Todos os valores são nulos"] ], Ok tt)) /\
  (forall rnd sqrt,
     exists st,
       get_column_stats rnd sqrt out col = Ok st /\
       stats_dtype st = DDatetime false /\
       stats_count st = List.length xs /\
       stats_null_count st = List.length xs /\
       stats_unique st = 0%nat /\
       stats_numeric st = None).
Proof.
  cbv zeta. rewrite (process_datetime_columns_eq _ _ _ Hnames). cbn [fst].
  assert (Hall : map (fun c => match c with
                               | Some str => parse_datetime str
                               | None => None
                               end) xs = repeat None (List.length xs)).
  { clear - Hfail. induction xs as [|[str|] r IH]; simpl; [reflexivity| |].
    - rewrite (Hfail str (or_introl eq_refl)). f_equal. apply IH.
      intros s0 H0. apply Hfail. now right.
    - f_equal. apply IH. intros s0 H0. apply Hfail. now right. }
  assert (Hout : getitem (mkDataFrame (index_len df)
                            (map (converted parse_datetime convert_non_text) (columns df)))
                         col
                 = Ok (TimeSeries false (repeat None (List.length xs)))).
  { unfold getitem in *. cbn [columns].
    destruct (lookup col (columns df)) as [s0|] eqn:E; [|discriminate].
    injection Hget as ->.
    rewrite (lookup_map_converted parse_datetime convert_non_text _ _ E).
    unfold converted. cbn [fst snd]. fold (matches col).
    apply date_like_spec in Hname. unfold matches. rewrite Hname.
    rewrite to_datetime_text. cbn [snd]. now rewrite Hall. }
  assert (Hnone : forall n, dropna (map (option_map VTime) (repeat (@None Z) n)) = []).
  { induction n; simpl; auto. }
  split; [exact Hout|]. split.
  - intros rnd sqrt. unfold _show_type_specific_stats. rewrite Hout, bind_lift_ok.
    cbn [dtype_of is_numeric_dtype is_string_dtype is_object_dtype
         is_datetime64_any_dtype orb].
    unfold _show_datetime_stats. rewrite Hout, bind_emit, bind_lift_ok.
    rewrite len_Series_dropna. cbn [cells]. now rewrite Hnone.
  - intros rnd sqrt. unfold get_column_stats. rewrite Hout.
    eexists. split; [reflexivity|].
    cbn [stats_dtype stats_count stats_null_count stats_unique stats_numeric dtype_of
         is_numeric_dtype].
    unfold len, nunique, isna_sum. cbn [cells].
    rewrite Hnone, length_map, repeat_length.
    repeat split.
    clear. induction (List.length xs) as [|n IH]; simpl; [reflexivity|].
    now rewrite IH.
Qed.

End Reprocessing.

Section ReprocessingExamples.

Local Open Scope string_scope.
Local Open Scope list_scope.

Lemma epoch_convert_gives_datetime s s' :
  epoch_convert s = Ok s' -> is_datetime64_any_dtype (dtype_of s') = true.
Proof. destruct s; simpl; intros H; try discriminate H. now injection H as <-. Qed.

Lemma epoch_convert_keeps_length s s' : epoch_convert s = Ok s' -> len s' = len s.
Proof.
  destruct s; simpl; intros H; try discriminate H. injection H as <-.
  unfold len. simpl. now rewrite !length_map.
Qed.

Lemma event_frame_wf : wf_frame event_frame.
Proof.
  split; [repeat constructor|].
  repeat constructor; simpl; intuition discriminate.
Qed.

(** [created_at] and [timestamp] are converted by the first pass and
    kept by the second. *)
Lemma process_datetime_columns_idempotent_witness :
  let once := fst (_process_datetime_columns toy_parse epoch_convert event_frame) in
  fst (_process_datetime_columns toy_parse epoch_convert once) = once.
Proof.
  exact (@process_datetime_columns_idempotent toy_parse epoch_convert
           epoch_convert_gives_datetime event_frame (proj2 event_frame_wf)).
Defined.

Lemma process_datetime_columns_keeps_shape_witness :
  let out := fst (_process_datetime_columns toy_parse epoch_convert event_frame) in
  wf_frame out /\ index_len out = 3%nat /\
  column_names out = ["created_at"; "timestamp"; "done"].
Proof.
  destruct (@process_datetime_columns_keeps_shape toy_parse epoch_convert
              epoch_convert_keeps_length event_frame event_frame_wf)
    as (Hwf & Hlen & Hnames & _).
  split; [exact Hwf|]. split; [exact Hlen | exact Hnames].
Defined.

(** [candidate] contains "date": the two names in it are lost. *)
Lemma unparseable_date_named_column_is_emptied_witness :
  getitem (fst (_process_datetime_columns toy_parse epoch_convert candidates_frame))
          "candidate"
  = Ok (TimeSeries false [None; None]).
Proof.
  assert (Hnames : NoDup (column_names candidates_frame)).
  { repeat constructor; simpl; tauto. }
  assert (Hname : date_like "candidate") by (apply date_like_spec; reflexivity).
  assert (Hfail : forall str, In (Some str) [Some "Ana"; Some "Bo"] -> toy_parse str = None).
  { intros str [H|[H|[]]]; injection H as <-; reflexivity. }
  exact (proj1 (@unparseable_date_named_column_is_emptied toy_parse epoch_convert
                  candidates_frame "candidate" object_ [Some "Ana"; Some "Bo"]
                  Hnames eq_refl Hname Hfail)).
Defined.

End ReprocessingExamples.

Section ColumnStatistics.

Local Open Scope string_scope.
Local Open Scope list_scope.

Lemma unique_length_le l : (List.length (unique l) <= List.length l)%nat.
Proof.
  induction l as [|a r IH]; simpl; [lia|].
  pose proof (filter_length_le (fun w => negb (value_eqb a w)) (unique r)). lia.
Qed.

(** X10: for a column that exists and is not boolean, the dictionary of
    [get_column_stats] counts the rows; the distinct values and the
    missing entries together never outnumber the rows; the seven numeric
    statistics are present exactly for a numeric kind; and the null
    percentage is NaN for a column without rows (0 divided by 0) and a
    number otherwise.  A name that is not a column raises a KeyError. *)
Theorem get_column_stats_counts rnd sqrt df column s
        (Hget : getitem df column = Ok s)
        (Hkind : dtype_of s <> DBool) :
  (exists st,
     get_column_stats rnd sqrt df column = Ok st /\
     stats_count st = len s /\
     (stats_unique st + stats_null_count st <= stats_count st)%nat /\
     (stats_numeric st = None <-> is_numeric_dtype (dtype_of s) = false) /\
     (is_nan (stats_null_pct st) = true <-> stats_count st = 0%nat)) /\
  (forall missing,
     lookup missing (columns df) = None ->
     get_column_stats rnd sqrt df missing = Raise (mkExn KeyError missing)).
Proof.
  split.
  - unfold get_column_stats. rewrite Hget.
    eexists. split; [reflexivity|].
    cbn [stats_count stats_unique stats_null_count stats_numeric stats_null_pct].
    split; [reflexivity|]. split; [|split].
    + pose proof (present_plus_missing (cells s)) as H.
      pose proof (unique_length_le (dropna (cells s))) as Hu.
      unfold nunique, len. lia.
    + destruct (is_numeric_dtype (dtype_of s)); split; intros H;
        try discriminate H; reflexivity.
    + unfold true_divide.
      destruct (Qeq_bool (of_nat (len s)) 0) eqn:E; cbn [stat_mul is_nan].
      * apply Qeq_bool_iff in E. split; [intros _|reflexivity].
        destruct (len s) as [|n] eqn:En; [reflexivity|].
        assert (0 < of_nat (S n)) by (apply of_nat_pos; lia). lra.
      * split; [discriminate|]. intros H0. rewrite H0 in E. discriminate E.
  - intros missing Hmissing. unfold get_column_stats, getitem. now rewrite Hmissing.
Qed.

End ColumnStatistics.

Section ColumnStatisticsExample.

Local Open Scope string_scope.
Local Open Scope list_scope.

(** Four rows, three distinct values, one missing entry. *)
Lemma get_column_stats_counts_witness :
  exists st,
    get_column_stats exact exact ages_frame "age" = Ok st /\
    stats_count st = 4%nat /\
    (stats_unique st + stats_null_count st <= stats_count st)%nat.
Proof.
  assert (Hkind : dtype_of ages_column <> DBool) by discriminate.
  destruct (@get_column_stats_counts exact exact ages_frame "age" ages_column
              eq_refl Hkind)
    as ((st & Hstats & Hcount & Hle & _) & _).
  exists st. split; [exact Hstats|]. split; [exact Hcount | exact Hle].
Defined.

End ColumnStatisticsExample.

Section ScatterRows.

Local Open Scope string_scope.
Local Open Scope list_scope.
Local Open Scope nat_scope.

Lemma combine_seq_In {A : Type} (l : list A) start n i x :
  In (i, x) (combine (seq start n) l) ->
  start <= i /\ nth_error l (i - start) = Some x.
Proof.
  revert start n. induction l as [|a r IH]; intros start n H.
  - destruct (seq start n); destruct H.
  - destruct n as [|n]; simpl in H; [destruct H|].
    destruct H as [E|H].
    + injection E as <- <-. split; [lia|]. now rewrite Nat.sub_diag.
    + apply IH in H as [Hle Hn]. split; [lia|].
      replace (i - start) with (S (i - S start)) by lia. exact Hn.
Qed.

Lemma combine_nth_error {A B : Type} (l1 : list A) (l2 : list B) i a b :
  nth_error (combine l1 l2) i = Some (a, b) ->
  nth_error l1 i = Some a /\ nth_error l2 i = Some b.
Proof.
  revert l2 i. induction l1 as [|x r IH]; intros l2 i H.
  - destruct i; discriminate H.
  - destruct l2 as [|y r2]; [destruct i; discriminate H|].
    destruct i as [|i]; simpl in *.
    + injection H as <- <-. now split.
    + now apply IH.
Qed.

Lemma dropna_rows_In rows i x y :
  In (i, (x, y)) (dropna_rows rows) -> In (i, (Some x, Some y)) rows.
Proof.
  induction rows as [|[j [[a|] [b|]]] r IH]; simpl; intros H; auto.
  destruct H as [E|H]; [injection E as <- <- <-; now left | right; auto].
Qed.

Lemma dropna_rows_length rows : List.length (dropna_rows rows) <= List.length rows.
Proof.
  induction rows as [|[j [[a|] [b|]]] r IH]; simpl; lia.
Qed.

(** A row kept by [df[[x_col, y_col]].dropna()] is a row of the frame
    whose two entries are present. *)
Lemma complete_row_is_frame_row xs ys i x y :
  In (i, (x, y)) (dropna_rows (rows_of xs ys)) ->
  nth_error (numeric_values xs) i = Some (Some x) /\
  nth_error (numeric_values ys) i = Some (Some y).
Proof.
  intros H. apply dropna_rows_In in H. unfold rows_of in H.
  apply combine_seq_In in H as [_ H]. rewrite Nat.sub_0_r in H.
  now apply combine_nth_error in H.
Qed.

Lemma take_In {A : Type} (indices : list nat) (rows l : list A) :
  take indices rows = Ok l -> List.length l = List.length indices /\ incl l rows.
Proof.
  revert l. induction indices as [|i r IH]; simpl; intros l H.
  - injection H as <-. split; [reflexivity | intros x []].
  - destruct (nth_error rows i) as [x|] eqn:E; [|discriminate H].
    destruct (take r rows) as [l'|e]; [|discriminate H].
    injection H as <-. destruct (IH l' eq_refl) as [Hlen Hincl].
    split; [simpl; lia|].
    intros z [<-|Hz]; [now apply nth_error_In in E | now apply Hincl].
Qed.

Variable rng : Type.
Variable RandomState : Z -> rng.
Variable permutation : rng -> nat -> list nat.

(** X11: whatever the generator does, a scatter chart that [_render_scatter]
    draws is drawn for two columns of the frame out of at least two
    numeric ones, has at most 5000 points, and each of its points is a
    row of the frame with both coordinates present. *)
Theorem scatter_plots_only_complete_rows global df numeric_cols x_col y_col c
  (Hdrawn : In (altair_chart c)
               (fst (_render_scatter RandomState permutation global df
                                     numeric_cols x_col y_col))) :
  exists xs ys rows,
    getitem df x_col = Ok xs /\ getitem df y_col = Ok ys /\
    2 <= List.length numeric_cols /\
    data c = Points x_col y_col rows /\
    List.length rows <= 5000 /\
    incl rows (dropna_rows (rows_of xs ys)) /\
    (forall i x y,
       In (i, (x, y)) rows ->
       nth_error (numeric_values xs) i = Some (Some x) /\
       nth_error (numeric_values ys) i = Some (Some y)).
Proof.
  unfold _render_scatter in Hdrawn.
  destruct (Nat.ltb (List.length numeric_cols) 2) eqn:Hc.
  { simpl in Hdrawn. destruct Hdrawn as [H|[]]; discriminate H. }
  apply Nat.ltb_ge in Hc.
  destruct (getitem df x_col) as [xs|e] eqn:Hx;
    [rewrite bind_lift_ok in Hdrawn | destruct Hdrawn].
  destruct (getitem df y_col) as [ys|e] eqn:Hy;
    [rewrite bind_lift_ok in Hdrawn | destruct Hdrawn].
  remember (dropna_rows (rows_of xs ys)) as clean eqn:Hclean.
  assert (Hrows : forall rows, incl rows clean ->
            forall i x y, In (i, (x, y)) rows ->
              nth_error (numeric_values xs) i = Some (Some x) /\
              nth_error (numeric_values ys) i = Some (Some y)).
  { intros rows Hincl i x y Hin. apply complete_row_is_frame_row.
    rewrite <- Hclean. now apply Hincl. }
  destruct (Nat.eqb (List.length clean) 0) eqn:H0.
  { simpl in Hdrawn. destruct Hdrawn as [H|[]]; discriminate H. }
  destruct (Nat.ltb 5000 (List.length clean)) eqn:Hbig.
  - unfold sample in Hdrawn.
    assert (Hle : Nat.ltb (List.length clean) 5000 = false).
    { apply Nat.ltb_lt in Hbig. apply Nat.ltb_ge. lia. }
    rewrite Hle in Hdrawn.
    destruct (take (firstn 5000 (permutation (RandomState 42%Z) (List.length clean))) clean)
      as [l|e] eqn:Ht.
    + cbn in Hdrawn. destruct Hdrawn as [H|[H|[]]]; [discriminate H|].
      injection H as <-. cbn [data].
      destruct (take_In _ _ Ht) as [Hlen Hincl].
      assert (Hsize : List.length l <= 5000)
        by (rewrite Hlen; apply firstn_le_length).
      rewrite Hclean in Hincl.
      exists xs, ys, l.
      split; [reflexivity|]. split; [reflexivity|]. split; [exact Hc|].
      split; [reflexivity|]. split; [exact Hsize|].
      split; [exact Hincl|]. apply Hrows. now rewrite Hclean.
    + cbn in Hdrawn. destruct Hdrawn as [H|[]]. discriminate H.
  - cbn in Hdrawn. destruct Hdrawn as [H|[]]. injection H as <-. cbn [data].
    apply Nat.ltb_ge in Hbig.
    exists xs, ys, clean.
    split; [reflexivity|]. split; [reflexivity|]. split; [exact Hc|].
    split; [reflexivity|]. split; [exact Hbig|].
    split; [rewrite Hclean; apply incl_refl | apply Hrows, incl_refl].
Qed.

End ScatterRows.

Section ScatterRowsExample.

Local Open Scope string_scope.
Local Open Scope list_scope.
Local Open Scope nat_scope.

(** Of two rows, the one with both coordinates is drawn. *)
Lemma scatter_plots_only_complete_rows_witness :
  let c := mkChart mark_circle [Lit "Relação: "; Lit "a"; Lit " vs "; Lit "b"]
                   (Points "a" "b" [(0, (1%Q, 2%Q))]) in
  exists rows, data c = Points "a" "b" rows /\ List.length rows <= 5000.
Proof.
  intros c.
  assert (Hdrawn : In (altair_chart c)
                      (fst (_render_scatter (fun _ : Z => tt) toy_permutation tt pairs_frame
                                            ["a"; "b"] "a" "b"))).
  { left. reflexivity. }
  destruct (@scatter_plots_only_complete_rows unit (fun _ : Z => tt) toy_permutation tt
              pairs_frame ["a"; "b"] "a" "b" c Hdrawn)
    as (xs & ys & rows & _ & _ & _ & Hdata & Hlen & _).
  exists rows. split; [exact Hdata | exact Hlen].
Defined.

End ScatterRowsExample.

Section VisualizerTimeline.

Local Open Scope string_scope.
Local Open Scope list_scope.

Variable other_sum : DataFrame -> string -> string -> page unit.

Lemma pbind_plift_ok {A B : Type} (a : A) (f : A -> page B) :
  pbind (plift (Ok a)) f = f a.
Proof. unfold pbind, plift. simpl. now destruct (f a) as [ev [b|e]]. Qed.

Lemma pbind_show {B : Type} (e : page_event) (f : unit -> page B) :
  pbind (show e) f = (e :: fst (f tt), snd (f tt)).
Proof. reflexivity. Qed.

Lemma complete_pairs_map {A B A' B' : Type} (f : A -> A') (g : B -> B')
      (xs : list (option A)) (ys : list (option B)) :
  complete_pairs (map (option_map f) xs) (map (option_map g) ys) =
  map (fun r => (f (fst r), g (snd r))) (complete_pairs xs ys).
Proof.
  revert ys. induction xs as [|[x|] xr IH]; intros [|[y|] yr]; simpl;
    try reflexivity; try (now rewrite IH); try apply IH.
Qed.

(** X12: in count mode the timeline of the visualizer draws one point per
    calendar day of the date column, days strictly increasing; the count of
    a day is the number of its timestamps, at least 1, and the counts add
    up to the number of timestamps present.  The value column offered in
    the other mode plays no part. *)
Theorem render_timeline_counts_per_day rnd df datetime_cols numeric_cols categorical_cols
        date_col value_choice tz xs
        (Hcols : datetime_cols <> [])
        (Hget : getitem df date_col = Ok (TimeSeries tz xs))
        (Hsome : dropna xs <> []) :
  let days_seen := map date (dropna xs) in
  exists counts,
    _render_timeline rnd other_sum df datetime_cols numeric_cols categorical_cols
                     date_col count_occurrences value_choice =
    ([plotted (count_line_plot date_col counts)], Ok tt) /\
    StronglySorted Z.lt (map fst counts) /\
    (forall d n, In (d, n) counts ->
                 n = count_occ Z.eq_dec days_seen d /\ (1 <= n)%nat /\ In d days_seen) /\
    (forall d, In d days_seen -> exists n, In (d, n) counts) /\
    list_sum (map snd counts) = List.length (dropna xs).
Proof.
  intros days_seen. exists (groupby_size days_seen).
  destruct (groupby_size_rows days_seen) as (H1 & H2 & H3 & H4).
  split; [|split; [exact H1|split; [exact H2|split; [exact H3|]]]].
  - unfold _render_timeline. destruct datetime_cols as [|c0 cr]; [congruence|].
    rewrite Hget, pbind_plift_ok.
    change (chosen None) with (@None string).
    rewrite len_Series_dropna.
    change (cells (TimeSeries tz xs)) with (map (option_map VTime) xs).
    rewrite dropna_option_map, length_map.
    destruct (dropna xs) as [|t r] eqn:E; [congruence|].
    cbn [List.length Nat.eqb Series_dropna dt]. rewrite pbind_plift_ok.
    unfold days_seen, keep. rewrite dropna_map_Some, E. reflexivity.
  - rewrite H4. unfold days_seen. now rewrite length_map.
Qed.

(** X13: in sum mode on a frame without numeric columns no value column is
    asked for, and the timeline never draws: it warns when the date column
    has no timestamp, and otherwise stops with the KeyError of
    [groupby("date")[None]]. *)
Theorem render_timeline_sum_without_numeric_columns rnd df datetime_cols categorical_cols
        date_col value_choice tz xs
        (Hcols : datetime_cols <> [])
        (Hget : getitem df date_col = Ok (TimeSeries tz xs)) :
  _render_timeline rnd other_sum df datetime_cols [] categorical_cols
                   date_col sum_values value_choice =
  if Nat.eqb (List.length (dropna xs)) 0
  then ([component (warning [Lit "Nenhum dado válido"])], Ok tt)
  else ([], Raise (mkExn KeyError "Column not found: None")).
Proof.
  unfold _render_timeline. destruct datetime_cols as [|c0 cr]; [congruence|].
  rewrite Hget, pbind_plift_ok.
  change (chosen None) with (@None string).
  rewrite len_Series_dropna.
  change (cells (TimeSeries tz xs)) with (map (option_map VTime) xs).
  rewrite dropna_option_map, length_map.
  destruct (dropna xs) as [|t r] eqn:E; [reflexivity|].
  cbn [List.length Nat.eqb Series_dropna dt]. rewrite pbind_plift_ok. reflexivity.
Qed.

Lemma kahan_add_exact (s c v : Q) :
  fst (kahan_add exact (s, c) v) == s + (v - c) /\ snd (kahan_add exact (s, c) v) == 0.
Proof.
  unfold kahan_add, fsub, fadd, exact. cbn [fst snd]. split; ring.
Qed.

Lemma add_key_compensated k v acc :
  compensated acc -> compensated (add_key exact k v acc).
Proof.
  unfold compensated. induction 1 as [|[k0 [s c]] r Hc Hr IH]; simpl.
  - constructor; [|constructor]. simpl. apply (kahan_add_exact 0 0 v).
  - destruct (Z.eqb k k0).
    + constructor; [|assumption]. apply (kahan_add_exact s c v).
    + destruct (Z.ltb k k0).
      * constructor; [apply (kahan_add_exact 0 0 v)|]. now constructor.
      * now constructor.
Qed.

Lemma keyed_cons k a acc d :
  keyed d ((k, a) :: acc) == (if Z.eqb k d then fst a else 0) + keyed d acc.
Proof.
  unfold keyed. cbn [filter fst]. destruct (Z.eqb k d); cbn [map Qsum fold_right snd].
  - reflexivity.
  - now rewrite Qplus_0_l.
Qed.

Lemma add_key_keyed k v acc d :
  compensated acc ->
  keyed d (add_key exact k v acc) == keyed d acc + (if Z.eqb k d then v else 0).
Proof.
  unfold compensated. induction 1 as [|[k0 [s c]] r Hc Hr IH]; cbn [add_key].
  - rewrite keyed_cons. destruct (Z.eqb k d).
    + rewrite (proj1 (kahan_add_exact 0 0 v)). ring.
    + ring.
  - simpl in Hc. destruct (Z.eqb k k0) eqn:E.
    + apply Z.eqb_eq in E. subst k0. rewrite !keyed_cons.
      destruct (Z.eqb k d).
      * rewrite (proj1 (kahan_add_exact s c v)). cbn [fst]. rewrite Hc. ring.
      * ring.
    + destruct (Z.ltb k k0).
      * rewrite !keyed_cons. destruct (Z.eqb k d).
        -- rewrite (proj1 (kahan_add_exact 0 0 v)). ring.
        -- ring.
      * rewrite !keyed_cons, IH. ring.
Qed.

Lemma add_key_keys rnd k v acc d :
  In d (map fst (add_key rnd k v acc)) <-> d = k \/ In d (map fst acc).
Proof.
  induction acc as [|[k0 a] r IH]; simpl.
  - intuition.
  - destruct (Z.eqb k k0) eqn:E.
    + apply Z.eqb_eq in E. subst k0. simpl. intuition.
    + destruct (Z.ltb k k0); simpl; [intuition|]. rewrite IH. intuition.
Qed.

Lemma add_key_sorted rnd k v acc :
  StronglySorted Z.lt (map fst acc) -> StronglySorted Z.lt (map fst (add_key rnd k v acc)).
Proof.
  induction acc as [|[k0 a] r IH]; simpl; intros Hs.
  - repeat constructor.
  - inversion Hs as [|? ? Hr Hk0]; subst.
    destruct (Z.eqb k k0) eqn:E; [simpl; now constructor|].
    apply Z.eqb_neq in E.
    destruct (Z.ltb k k0) eqn:L.
    + apply Z.ltb_lt in L. simpl. constructor; [now constructor|].
      constructor; [assumption|].
      eapply Forall_impl; [|exact Hk0]. intros z Hz. cbv beta in Hz. lia.
    + apply Z.ltb_ge in L. simpl. constructor; [now apply IH|].
      apply Forall_forall. intros z Hz. apply add_key_keys in Hz as [->|Hz].
      * lia.
      * rewrite Forall_forall in Hk0. now apply Hk0.
Qed.

Lemma summed_cons k v rows d :
  summed d ((k, v) :: rows) == (if Z.eqb k d then v else 0) + summed d rows.
Proof.
  unfold summed. cbn [filter fst]. destruct (Z.eqb k d); cbn [map Qsum fold_right snd].
  - reflexivity.
  - now rewrite Qplus_0_l.
Qed.

Lemma groupby_sum_from rows acc :
  let out := fold_left (fun a r => add_key exact (fst r) (snd r) a) rows acc in
  compensated acc ->
  compensated out /\
  (StronglySorted Z.lt (map fst acc) -> StronglySorted Z.lt (map fst out)) /\
  (forall d, keyed d out == keyed d acc + summed d rows) /\
  (forall d, In d (map fst out) <-> In d (map fst acc) \/ In d (map fst rows)).
Proof.
  revert acc. induction rows as [|[k v] rows IH]; intros acc; cbn [fold_left]; intros Hc.
  - repeat split; auto.
    + intros d. unfold summed. simpl. ring.
    + intros [H|[]]. exact H.
  - cbn [fst snd].
    destruct (IH (add_key exact k v acc) (add_key_compensated k v Hc)) as (H1 & H2 & H3 & H4).
    cbv zeta in *. split; [exact H1|]. split; [|split].
    + intros Hs. apply H2. now apply add_key_sorted.
    + intros d. rewrite H3, add_key_keyed by exact Hc. rewrite summed_cons. ring.
    + intros d. rewrite H4, add_key_keys. simpl. intuition.
Qed.

Lemma keyed_single d a acc :
  StronglySorted Z.lt (map fst acc) -> In (d, a) acc -> keyed d acc == fst a.
Proof.
  unfold keyed. induction acc as [|[k m] r IH]; simpl; intros Hs Hin; [destruct Hin|].
  inversion Hs as [|? ? Hr Hk]; subst. rewrite Forall_forall in Hk.
  destruct Hin as [E|Hin].
  - injection E as -> ->. rewrite Z.eqb_refl. simpl.
    rewrite filter_none; [simpl; ring|].
    intros [k' m'] Hp. simpl. apply Z.eqb_neq.
    assert ((d < k')%Z) by (apply Hk; apply in_map_iff; exists (k', m'); now split).
    lia.
  - assert (Hlt : (k < d)%Z).
    { apply Hk. apply in_map_iff. exists (d, a). now split. }
    destruct (Z.eqb k d) eqn:E; [apply Z.eqb_eq in E; lia|].
    now apply IH.
Qed.

Lemma groupby_sum_rows (rows : list (Z * Q)) :
  let out := groupby_sum exact rows in
  StronglySorted Z.lt (map fst out) /\
  (forall d total, In (d, total) out -> total == summed d rows /\ In d (map fst rows)) /\
  (forall d, In d (map fst rows) -> exists total, In (d, total) out).
Proof.
  intros out. unfold out, groupby_sum.
  set (acc := fold_left (fun a r => add_key exact (fst r) (snd r) a) rows []).
  destruct (@groupby_sum_from rows [] (Forall_nil _)) as (H1 & H2 & H3 & H4).
  cbv zeta in *. fold acc in H1, H2, H3, H4.
  specialize (H2 (SSorted_nil _)).
  assert (Hkeys : map fst (map (fun p : Z * (Q * Q) => (fst p, fst (snd p))) acc) = map fst acc).
  { rewrite map_map. reflexivity. }
  split; [now rewrite Hkeys|]. split.
  - intros d total Hin. apply in_map_iff in Hin as ([k a] & E & Hin).
    simpl in E. injection E as -> <-.
    split.
    + rewrite <- (@keyed_single d a acc H2 Hin), H3.
      change (keyed d []) with 0. now rewrite Qplus_0_l.
    + assert (Hd : In d (map fst acc)) by (apply in_map_iff; exists (d, a); now split).
      apply H4 in Hd as [[]|Hd]. exact Hd.
  - intros d Hd. assert (Hk : In d (map fst acc)) by (apply H4; now right).
    apply in_map_iff in Hk as ([k a] & E & Hin). simpl in E. subst k.
    exists (fst a). apply in_map_iff. exists (d, a). now split.
Qed.

(** X14: in sum mode, in exact arithmetic, the timeline draws one point per
    calendar day that has a row with both a timestamp and a value, days
    strictly increasing, and the value of a day is the sum of the values of
    its rows. *)
Theorem render_timeline_sums_per_day df datetime_cols numeric_cols categorical_cols
        date_col col tz ds d xs
        (Hdates : datetime_cols <> [])
        (Hnumeric : numeric_cols <> [])
        (Hcol : col <> "" /\ col <> "date" /\ col <> date_col)
        (Hget : getitem df date_col = Ok (TimeSeries tz ds))
        (Hval : getitem df col = Ok (NumSeries d xs))
        (Hsome : complete_pairs ds xs <> []) :
  let complete := map (fun r => (date (fst r), snd r)) (complete_pairs ds xs) in
  exists rows,
    _render_timeline exact other_sum df datetime_cols numeric_cols categorical_cols
                     date_col sum_values col =
    ([plotted (sum_line_plot date_col col rows)], Ok tt) /\
    StronglySorted Z.lt (map fst rows) /\
    (forall day total, In (day, total) rows ->
                       total == summed day complete /\ In day (map fst complete)) /\
    (forall day, In day (map fst complete) -> exists total, In (day, total) rows).
Proof.
  intros complete. exists (groupby_sum exact complete).
  destruct (groupby_sum_rows complete) as (H1 & H2 & H3).
  split; [|split; [exact H1|split; [exact H2|exact H3]]].
  destruct Hcol as (Hne & Hdate & Hsame).
  unfold _render_timeline. destruct datetime_cols as [|c0 cr]; [congruence|].
  destruct numeric_cols as [|n0 nr]; [congruence|].
  rewrite Hget, pbind_plift_ok.
  assert (Hchosen : chosen (Some col) = Some col).
  { destruct col; [congruence|reflexivity]. }
  rewrite Hchosen, Hval, pbind_plift_ok.
  change (cells (TimeSeries tz ds)) with (map (option_map VTime) ds).
  change (cells (NumSeries d xs)) with (map (option_map VNum) xs).
  rewrite complete_pairs_map, length_map.
  destruct (complete_pairs ds xs) as [|r0 rr] eqn:E; [congruence|].
  cbn [List.length Nat.eqb].
  apply String.eqb_neq in Hsame, Hdate. rewrite Hsame.
  cbn [dt]. rewrite pbind_plift_ok. cbn [numbers]. rewrite Hdate, E. reflexivity.
Qed.

End VisualizerTimeline.

Section VisualizerTimelineExamples.

Local Open Scope string_scope.
Local Open Scope list_scope.

(** Two timestamps on the same day and a missing one. *)
Lemma render_timeline_counts_per_day_witness :
  exists counts,
    _render_timeline exact no_other_sum visits_frame ["when"] ["amount"] []
                     "when" count_occurrences "amount" =
    ([plotted (count_line_plot "when" counts)], Ok tt) /\
    list_sum (map snd counts) = 2%nat.
Proof.
  assert (Hcols : ["when"] <> []) by discriminate.
  assert (Hsome : dropna [Some 0%Z; Some 1%Z; None] <> []) by discriminate.
  destruct (@render_timeline_counts_per_day no_other_sum exact visits_frame ["when"]
              ["amount"] [] "when" "amount" false [Some 0%Z; Some 1%Z; None]
              Hcols eq_refl Hsome)
    as (counts & Hshown & _ & _ & _ & Hsum).
  exists counts. split; [exact Hshown | exact Hsum].
Defined.

Lemma render_timeline_sum_without_numeric_columns_witness :
  _render_timeline exact no_other_sum visits_frame ["when"] [] []
                   "when" sum_values "amount" =
  ([], Raise (mkExn KeyError "Column not found: None")).
Proof.
  assert (Hcols : ["when"] <> []) by discriminate.
  exact (@render_timeline_sum_without_numeric_columns no_other_sum exact visits_frame
           ["when"] [] "when" "amount" false [Some 0%Z; Some 1%Z; None] Hcols eq_refl).
Defined.

Lemma render_timeline_sums_per_day_witness :
  exists rows,
    _render_timeline exact no_other_sum visits_frame ["when"] ["amount"] []
                     "when" sum_values "amount" =
    ([plotted (sum_line_plot "when" "amount" rows)], Ok tt) /\
    StronglySorted Z.lt (map fst rows).
Proof.
  assert (Hdates : ["when"] <> []) by discriminate.
  assert (Hnumeric : ["amount"] <> []) by discriminate.
  assert (Hcol : "amount" <> "" /\ "amount" <> "date" /\ "amount" <> "when")
    by (repeat split; discriminate).
  assert (Hsome : complete_pairs [Some 0%Z; Some 1%Z; None] [Some 2; Some 3; Some 4] <> [])
    by discriminate.
  destruct (@render_timeline_sums_per_day no_other_sum visits_frame ["when"] ["amount"] []
              "when" "amount" false [Some 0%Z; Some 1%Z; None] float64
              [Some 2; Some 3; Some 4] Hdates Hnumeric Hcol eq_refl eq_refl Hsome)
    as (rows & Hshown & Hsorted & _).
  exists rows. split; [exact Hshown | exact Hsorted].
Defined.

End VisualizerTimelineExamples.

Section GroupedBoxPlot.

Local Open Scope string_scope.
Local Open Scope list_scope.
Local Open Scope nat_scope.

Variable same_column : DataFrame -> string -> page unit.

Lemma value_counts_of_In vals p :
  In p (value_counts_of vals) <->
  In (fst p) (unique vals) /\ snd p = count_occ_b (fst p) vals.
Proof.
  unfold value_counts_of. split.
  - intros H. apply (Permutation_in _ (sort_desc_perm _)) in H.
    apply in_map_iff in H as (v & <- & Hv). now split.
  - intros [Hv Hc]. apply (Permutation_in _ (Permutation_sym (sort_desc_perm _))).
    apply in_map_iff. exists (fst p). split; [|assumption].
    destruct p as [v c]. simpl in *. now rewrite Hc.
Qed.

Lemma isin_related v w values :
  In w values -> value_eqb w v = true -> isin v values = true.
Proof.
  intros Hw E. unfold isin. apply existsb_exists. exists w. split; [assumption|].
  now rewrite value_eqb_sym.
Qed.

(** X15: with a grouping column, the box plot keeps the rows that have both a
    value and a group, in the order of the frame, and of these the rows of
    at most 15 groups: whole groups, chosen so that no group left out has
    more rows than a group kept; with at most 15 distinct groups every
    such row is kept. *)
Theorem boxplot_keeps_most_frequent_groups df numeric_cols categorical_cols
        value_col group_col vals groups
        (Hnum : numeric_cols <> [])
        (Hcat : categorical_cols <> [])
        (Hgroup : group_col <> "Nenhum" /\ group_col <> value_col)
        (Hvals : getitem df value_col = Ok vals)
        (Hgroups : getitem df group_col = Ok groups) :
  let complete := complete_pairs (cells vals) (cells groups) in
  let size_of g := count_occ_b g (map snd complete) in
  exists top_categories,
    _render_boxplot same_column df numeric_cols categorical_cols value_col group_col =
    ([plotted (box_plot value_col (Some group_col)
                 (map (fun r => (fst r, Some (snd r)))
                      (filter (fun r => isin (snd r) top_categories) complete)))], Ok tt) /\
    List.length top_categories <= 15 /\
    (forall g, In g top_categories -> In g (map snd complete)) /\
    (forall g r, In g top_categories -> In r complete ->
                 isin (snd r) top_categories = false -> size_of (snd r) <= size_of g) /\
    (List.length (unique (map snd complete)) <= 15 ->
     filter (fun r => isin (snd r) top_categories) complete = complete).
Proof.
  intros complete size_of.
  set (G := map snd complete).
  set (vc := value_counts_of G).
  exists (map fst (head 15 vc)).
  assert (Hsorted : StronglySorted (fun a b => snd b <= snd a) (head 15 vc ++ skipn 15 vc)).
  { unfold head. rewrite firstn_skipn. apply sort_desc_sorted. }
  assert (Hrow : forall w, In w G -> exists v, In (v, size_of v) vc /\ value_eqb v w = true).
  { intros w Hw. destruct (@unique_complete _ _ Hw) as (v & Hv & E).
    exists v. split; [|assumption]. apply value_counts_of_In. now split. }
  split; [|split; [|split; [|split]]].
  - destruct Hgroup as (Hnone & Hsame).
    unfold _render_boxplot. destruct numeric_cols as [|n0 nr]; [congruence|].
    destruct categorical_cols as [|c0 cr]; [congruence|].
    apply String.eqb_neq in Hnone. rewrite Hnone.
    assert (Hne : String.eqb value_col group_col = false).
    { apply String.eqb_neq. congruence. }
    rewrite Hne, Hvals, pbind_plift_ok, Hgroups, pbind_plift_ok. reflexivity.
  - rewrite length_map. unfold head. rewrite length_firstn. lia.
  - intros g Hg. apply in_map_iff in Hg as ([v c] & <- & Hin).
    apply firstn_incl in Hin. apply value_counts_of_In in Hin as [Hv _].
    now apply unique_incl.
  - intros g r Hg Hr Hout.
    apply in_map_iff in Hg as ([v c] & <- & Hin). simpl.
    assert (Hc : c = size_of v).
    { apply firstn_incl in Hin. now apply value_counts_of_In in Hin as [_ Hc]. }
    assert (HrG : In (snd r) G) by (apply in_map_iff; now exists r).
    destruct (Hrow _ HrG) as (u & Hu & E).
    rewrite <- (firstn_skipn 15 vc) in Hu. apply in_app_or in Hu as [Hu|Hu].
    + exfalso. assert (Hin' : In u (map fst (head 15 vc))).
      { apply in_map_iff. exists (u, size_of u). now split. }
      rewrite (@isin_related _ _ _ Hin' E) in Hout. discriminate.
    + pose proof (@sorted_split _ _ _ _ Hsorted (v, c) (u, size_of u) Hin Hu) as Hle.
      simpl in Hle. rewrite Hc in Hle.
      assert (Heq : size_of (snd r) = size_of u).
      { unfold size_of. fold G. symmetry. now apply count_occ_b_equal. }
      rewrite Heq. exact Hle.
  - intros Hfew. apply filter_all. intros r Hr.
    assert (HrG : In (snd r) G) by (apply in_map_iff; now exists r).
    destruct (Hrow _ HrG) as (u & Hu & E).
    apply (@isin_related _ u); [|assumption].
    apply in_map_iff. exists (u, size_of u). split; [reflexivity|].
    unfold head. rewrite firstn_all2; [assumption|].
    unfold vc, value_counts_of.
    rewrite (Permutation_length (sort_desc_perm _)), length_map. exact Hfew.
Qed.

End GroupedBoxPlot.

Section GroupedBoxPlotExample.

Local Open Scope string_scope.
Local Open Scope list_scope.

(** Three scores in two classes: both classes are kept. *)
Lemma boxplot_keeps_most_frequent_groups_witness :
  exists top_categories : list value,
    _render_boxplot no_same_column grades_frame ["score"] ["class"] "score" "class" =
    ([plotted (box_plot "score" (Some "class")
                 [ (VNum 1, Some (VStr "a")); (VNum 2, Some (VStr "b"));
                   (VNum 3, Some (VStr "a")) ])], Ok tt) /\
    (List.length top_categories <= 15)%nat.
Proof.
  assert (Hnum : ["score"] <> []) by discriminate.
  assert (Hcat : ["class"] <> []) by discriminate.
  assert (Hgroup : "class" <> "Nenhum" /\ "class" <> "score") by (split; discriminate).
  destruct (@boxplot_keeps_most_frequent_groups no_same_column grades_frame ["score"]
              ["class"] "score" "class"
              (NumSeries float64 [Some 1; Some 2; Some 3])
              (TextSeries object_ [Some "a"; Some "b"; Some "a"])
              Hnum Hcat Hgroup eq_refl eq_refl)
    as (top_categories & Hshown & Hlen & _ & _ & Hall).
  exists top_categories. split; [|exact Hlen].
  rewrite Hshown, Hall; [reflexivity|]. simpl. lia.
Defined.

End GroupedBoxPlotExample.

Section ApplicationPage.

Local Open Scope string_scope.
Local Open Scope list_scope.

Variable rnd : Q -> Q.
Variable sqrt : Q -> Q.
Variable other_sum : DataFrame -> string -> string -> page unit.
Variable same_column : DataFrame -> string -> page unit.
Variable corr_matrix : DataFrame -> list string -> result (list (string * string * stat)).
Variable rng : Type.
Variable RandomState : Z -> rng.
Variable permutation : rng -> nat -> list nat.
Variable select_dtypes : list string -> DataFrame -> list string.
Variable load_hf_dataset : string -> string -> result DataFrame.
Variable memory_usage : DataFrame -> nat.
Variable slider : nat -> nat -> nat -> nat -> result nat.

(** X16: a chart kind chosen on a frame that has no column of the kind it
    needs draws nothing and raises nothing: the tab shows its heading and
    one notice, whatever the other widgets hold. *)
Theorem chart_without_its_columns_only_warns (global : rng) (w : VizWidgets) (df : DataFrame)
        (Hrows : empty df = false)
        (Hnone : select_dtypes (needs (viz_choice w)) df = []) :
  exists text,
    let notices := [ [component (subheader "Visualizações Customizadas");
                      component (warning text)];
                     [component (subheader "Visualizações Customizadas");
                      component (info text)] ] in
    In (fst (create_visualizations rnd other_sum same_column corr_matrix RandomState
                                   permutation select_dtypes global w df)) notices /\
    snd (create_visualizations rnd other_sum same_column corr_matrix RandomState
                               permutation select_dtypes global w df) = Ok tt.
Proof.
  unfold create_visualizations. rewrite pbind_show, Hrows.
  destruct (viz_choice w); cbn [needs] in Hnone; rewrite Hnone;
    destruct (select_dtypes ["number"] df) as [|n0 nr];
    destruct (select_dtypes ["object"; "category"] df) as [|c0 cr];
    destruct (select_dtypes ["datetime64"] df) as [|d0 dr];
    try discriminate;
    eexists; cbn; (split; [|reflexivity]); (left; reflexivity) || (right; left; reflexivity).
Qed.

Lemma run_without_frame (self : DatasetExplorer) (global : rng) (w : Widgets) :
  df self = None ->
  button (String.eqb (sidebar_name w) "") (pressed w) && negb (String.eqb (sidebar_name w) "")
  = false ->
  run rnd sqrt other_sum same_column corr_matrix RandomState permutation select_dtypes
      load_hf_dataset memory_usage slider self global w =
  (page_without_data [], Ok self).
Proof.
  intros Hdf Hidle. unfold run, render_sidebar. fold (sidebar_name w).
  rewrite !pbind_show. cbn [fst snd pret pbind app].
  rewrite Hidle. unfold render_overview_tab. cbn [fst snd pret pbind app].
  rewrite Hdf. reflexivity.
Qed.

(** X17: a run in which the load button was not pressed, or no dataset name
    was given, never calls the loader: the explorer, new in every run,
    holds no frame, and each tab shows its notice. *)
Theorem main_without_load_shows_notices (global : rng) (w : Widgets)
        (Hidle : pressed w = false \/ sidebar_name w = "") :
  main rnd sqrt other_sum same_column corr_matrix RandomState permutation select_dtypes
       load_hf_dataset memory_usage slider global w =
  (page_without_data [], Ok (mkExplorer None "")).
Proof.
  unfold main. apply run_without_frame; [reflexivity|].
  unfold button. destruct Hidle as [-> | ->]; [reflexivity|].
  rewrite String.eqb_refl. now destruct (pressed w).
Qed.

Lemma load_pressed (w : Widgets) :
  pressed w = true -> sidebar_name w <> "" ->
  button (String.eqb (sidebar_name w) "") (pressed w) && negb (String.eqb (sidebar_name w) "")
  = true.
Proof.
  intros -> Hname. apply String.eqb_neq in Hname. unfold button. now rewrite Hname.
Qed.

(** X18: when the loader raises, the run shows the error (and the hint, for a
    validation error), keeps no frame, and each tab shows its notice: no
    exception leaves [main]. *)
Theorem main_after_failed_load (global : rng) (w : Widgets) (e : exn)
        (Hpressed : pressed w = true)
        (Hname : sidebar_name w <> "")
        (Hfail : load_hf_dataset (sidebar_name w) (split_choice w) = Raise e) :
  main rnd sqrt other_sum same_column corr_matrix RandomState permutation select_dtypes
       load_hf_dataset memory_usage slider global w =
  (page_without_data (load_failure e), Ok (mkExplorer None "")).
Proof.
  unfold main, run, render_sidebar. fold (sidebar_name w).
  rewrite !pbind_show. cbn [fst snd pret pbind app].
  rewrite (@load_pressed w Hpressed Hname).
  unfold load_dataset. rewrite Hfail. unfold load_failure, render_overview_tab, tip.
  destruct (is_ValueError e); reflexivity.
Qed.

(** X19: a dataset that loads with no row or no column is reported as
    loaded and named as the current dataset, but nothing of it can be
    explored: each tab shows the notice it shows before any load. *)
Theorem main_after_loading_empty_dataset (global : rng) (w : Widgets) (loaded : DataFrame)
        (Hpressed : pressed w = true)
        (Hname : sidebar_name w <> "")
        (Hload : load_hf_dataset (sidebar_name w) (split_choice w) = Ok loaded)
        (Hempty : empty loaded = true) :
  main rnd sqrt other_sum same_column corr_matrix RandomState permutation select_dtypes
       load_hf_dataset memory_usage slider global w =
  (page_without_data (load_report loaded (sidebar_name w) (split_choice w)),
   Ok (mkExplorer (Some loaded) (sidebar_name w))).
Proof.
  unfold main, run, render_sidebar. fold (sidebar_name w).
  rewrite !pbind_show. cbn [fst snd pret pbind app].
  rewrite (@load_pressed w Hpressed Hname).
  unfold load_dataset. rewrite Hload. unfold render_overview_tab, load_report.
  cbn [fst snd pret pbind app embed show emit map df Main.dataset_name].
  rewrite Hempty. reflexivity.
Qed.

End ApplicationPage.

Section ApplicationPageExamples.

Local Open Scope string_scope.
Local Open Scope list_scope.

(** A timeline asked of a frame without a datetime column. *)
Lemma chart_without_its_columns_only_warns_witness :
  snd (create_visualizations exact no_other_sum no_same_column no_corr_matrix
                             (fun _ : Z => tt) toy_permutation toy_select_dtypes tt
                             (toy_viz Linha_Temporal) grades_frame) = Ok tt.
Proof.
  destruct (@chart_without_its_columns_only_warns exact no_other_sum no_same_column
              no_corr_matrix unit (fun _ : Z => tt) toy_permutation toy_select_dtypes tt
              (toy_viz Linha_Temporal) grades_frame eq_refl eq_refl)
    as (text & _ & Hok).
  exact Hok.
Defined.

Lemma main_without_load_shows_notices_witness :
  main exact exact no_other_sum no_same_column no_corr_matrix (fun _ : Z => tt)
       toy_permutation toy_select_dtypes failing_loader no_memory still_slider tt
       idle_widgets =
  (page_without_data [], Ok (mkExplorer None "")).
Proof.
  exact (@main_without_load_shows_notices exact exact no_other_sum no_same_column
           no_corr_matrix unit (fun _ : Z => tt) toy_permutation toy_select_dtypes
           failing_loader no_memory still_slider tt idle_widgets (or_introl eq_refl)).
Defined.

Lemma main_after_failed_load_witness :
  main exact exact no_other_sum no_same_column no_corr_matrix (fun _ : Z => tt)
       toy_permutation toy_select_dtypes failing_loader no_memory still_slider tt
       pressed_widgets =
  (page_without_data (load_failure (mkExn ValueError "not found")),
   Ok (mkExplorer None "")).
Proof.
  assert (Hname : sidebar_name pressed_widgets <> "") by discriminate.
  exact (@main_after_failed_load exact exact no_other_sum no_same_column
           no_corr_matrix unit (fun _ : Z => tt) toy_permutation toy_select_dtypes
           failing_loader no_memory still_slider tt pressed_widgets
           (mkExn ValueError "not found") eq_refl Hname eq_refl).
Defined.

Lemma main_after_loading_empty_dataset_witness :
  snd (main exact exact no_other_sum no_same_column no_corr_matrix (fun _ : Z => tt)
            toy_permutation toy_select_dtypes empty_loader no_memory still_slider tt
            pressed_widgets) =
  Ok (mkExplorer (Some (mkDataFrame 0 [("text", TextSeries object_ [])]))
                 "nitaibezerra/govbrnews").
Proof.
  assert (Hname : sidebar_name pressed_widgets <> "") by discriminate.
  rewrite (@main_after_loading_empty_dataset exact exact no_other_sum no_same_column
             no_corr_matrix unit (fun _ : Z => tt) toy_permutation toy_select_dtypes
             empty_loader no_memory still_slider tt pressed_widgets
             (mkDataFrame 0 [("text", TextSeries object_ [])]) eq_refl Hname eq_refl eq_refl).
  reflexivity.
Defined.

End ApplicationPageExamples.

Section Overview.

Local Open Scope string_scope.
Local Open Scope list_scope.

Variable memory_usage : DataFrame -> nat.
Variable slider : nat -> nat -> nat -> nat -> result nat.

Lemma cells_Series_head n s : cells (Series_head n s) = firstn n (cells s).
Proof. destruct s; simpl; unfold head; now rewrite firstn_map. Qed.

Lemma isna_total_le_size df : wf_frame df -> (isna_total df <= size df)%nat.
Proof.
  intros [Hlen _]. unfold isna_total, size.
  induction (columns df) as [|c r IH]; simpl; [lia|].
  inversion Hlen as [|? ? Hc Hr]; subst. specialize (IH Hr).
  pose proof (isna_sum_le_length (cells (snd c))) as Hle. fold (len (snd c)) in Hle.
  rewrite Hc in Hle.
  rewrite (Nat.mul_comm _ (S _)). simpl. rewrite (Nat.mul_comm (List.length r)). lia.
Qed.

Lemma wf_DataFrame_head n df : wf_frame df -> wf_frame (DataFrame_head n df).
Proof.
  intros [Hlen Hnames]. split.
  - simpl. apply Forall_forall. intros c Hc. apply in_map_iff in Hc as (c0 & <- & Hc0).
    rewrite Forall_forall in Hlen. specialize (Hlen _ Hc0). simpl.
    unfold len in *. rewrite cells_Series_head, length_firstn, Hlen. reflexivity.
  - simpl. rewrite map_map. exact Hnames.
Qed.

Lemma lookup_DataFrame_head n name cols :
  lookup name (map (fun c => (fst c, Series_head n (snd c))) cols) =
  option_map (Series_head n) (lookup name cols).
Proof.
  induction cols as [|[c s] r IH]; simpl; [reflexivity|].
  destruct (String.eqb c name); [reflexivity | exact IH].
Qed.

(** X20: on a well-formed frame with rows and columns, in exact arithmetic,
    the overview tab ends normally once the slider has returned.  The
    completeness it shows is the share of cells that are not missing,
    between 0 and 100; the preview is a well-formed frame of the first
    rows of every column; and the column table has one line per column, in
    the order of the frame, whose distinct and missing counts together
    never exceed the number of rows and whose percentage is a number. *)
Theorem overview_summarises_the_frame dataset_name df n
        (Hwf : wf_frame df)
        (Hrows : empty df = false)
        (Hslider : slider 5 (Nat.min 500 (index_len df)) (Nat.min 100 (index_len df)) 5
                   = Ok n) :
  exists size_mb complete shown table,
    render_overview_tab exact memory_usage slider (mkExplorer (Some df) dataset_name) =
    ([ component (subheader "Visão Geral do Dataset");
       metric "Registros" [Int (Z.of_nat (index_len df))];
       metric "Colunas" [Int (Z.of_nat (List.length (columns df)))];
       metric "Tamanho" [size_mb; Lit " MB"];
       metric "Dados Completos" [fmt 1 (Fin complete); Lit "%"];
       component (subheader "Preview dos Dados");
       preview shown;
       component (subheader "Informações das Colunas");
       column_info table ], Ok tt) /\
    complete == 100 * of_nat (size df - isna_total df) / of_nat (size df) /\
    0 <= complete <= 100 /\
    wf_frame shown /\
    index_len shown = Nat.min n (index_len df) /\
    column_names shown = column_names df /\
    (forall column s, getitem shown column = Ok s ->
       exists s0, getitem df column = Ok s0 /\ cells s = head n (cells s0)) /\
    map (fun r => fst (fst (fst (fst r)))) table = column_names df /\
    (forall column kind distinct missing pct,
       In (column, kind, distinct, missing, pct) table ->
       (distinct + missing <= index_len df)%nat /\ is_nan pct = false).
Proof.
  assert (Hpos : (0 < index_len df)%nat /\ (0 < List.length (columns df))%nat).
  { unfold empty in Hrows. apply orb_false_iff in Hrows as [H1 H2].
    apply Nat.eqb_neq in H1, H2. lia. }
  destruct Hpos as [Hr Hc].
  assert (Hsize : (0 < size df)%nat) by (unfold size; nia).
  pose proof (isna_total_le_size Hwf) as Hle.
  assert (HQ : 0 < of_nat (size df)) by now apply of_nat_pos.
  assert (Hne : Qeq_bool (of_nat (size df)) 0 = false).
  { destruct (Qeq_bool (of_nat (size df)) 0) eqn:E; [|reflexivity].
    apply Qeq_bool_iff in E. lra. }
  eexists. eexists. exists (DataFrame_head n df). eexists.
  split; [|split; [|split; [|split; [|split; [|split; [|split; [|split]]]]]]].
  - unfold render_overview_tab. cbn [Main.df]. rewrite Hrows, !pbind_show.
    cbn [fst snd]. rewrite Hslider, pbind_plift_ok, !pbind_show.
    unfold true_divide. rewrite Hne. cbn [stat_mul stat_rsub fst snd show].
    reflexivity.
  - unfold fsub, fmul, fdiv, exact.
    assert (Hsub : of_nat (size df - isna_total df)
                   == of_nat (size df) - of_nat (isna_total df)).
    { unfold of_nat. rewrite Nat2Z.inj_sub by exact Hle.
      unfold Qminus. rewrite <- inject_Z_opp, <- inject_Z_plus. reflexivity. }
    rewrite Hsub. field. lra.
  - unfold fsub, fmul, fdiv, exact.
    pose proof (of_nat_le Hle) as HleQ. pose proof (of_nat_nonneg (isna_total df)) as H0.
    set (a := of_nat (isna_total df)) in *. set (b := of_nat (size df)) in *.
    clearbody a b.
    assert (H1 : 0 <= a / b) by (apply Qle_shift_div_l; lra).
    assert (H2 : a / b <= 1) by (apply Qle_shift_div_r; lra).
    lra.
  - now apply wf_DataFrame_head.
  - reflexivity.
  - unfold column_names. simpl. now rewrite map_map.
  - intros column s Hget. unfold getitem in *. simpl in Hget.
    rewrite lookup_DataFrame_head in Hget.
    destruct (lookup column (columns df)) as [s0|]; [|discriminate].
    simpl in Hget. injection Hget as <-. exists s0. split; [reflexivity|].
    apply cells_Series_head.
  - rewrite map_map. reflexivity.
  - intros column kind distinct missing pct Hin.
    apply in_map_iff in Hin as ([c s] & E & Hin). simpl in E.
    injection E as _ _ <- <- <-.
    destruct Hwf as [Hlen _]. rewrite Forall_forall in Hlen. specialize (Hlen _ Hin).
    simpl in Hlen. split.
    + pose proof (present_plus_missing (cells s)) as Hpm. fold (len s) in Hpm.
      pose proof (unique_length_le (dropna (cells s))) as Hu.
      unfold nunique. lia.
    + unfold true_divide.
      assert (Hn : Qeq_bool (of_nat (index_len df)) 0 = false).
      { destruct (Qeq_bool (of_nat (index_len df)) 0) eqn:E; [|reflexivity].
        apply Qeq_bool_iff in E. pose proof (of_nat_pos Hr). lra. }
      rewrite Hn. reflexivity.
Qed.

End Overview.

Section OverviewExample.

Local Open Scope string_scope.
Local Open Scope list_scope.

(** One cell missing out of four: 75 percent complete. *)
Lemma overview_summarises_the_frame_witness :
  exists complete shown,
    In (metric "Dados Completos" [fmt 1 (Fin complete); Lit "%"])
       (fst (render_overview_tab exact no_memory still_slider
                                 (mkExplorer (Some ages_frame) "ages"))) /\
    complete == 75 /\ wf_frame shown /\ index_len shown = 4%nat.
Proof.
  assert (Hwf : wf_frame ages_frame).
  { split; [repeat constructor | repeat constructor; simpl; tauto]. }
  destruct (@overview_summarises_the_frame no_memory still_slider "ages" ages_frame 4
              Hwf eq_refl eq_refl)
    as (size_mb & complete & shown & table & Hshown & Hcomplete & _ & Hshape & Hlen & _).
  exists complete, shown. split; [|split; [|split]].
  - rewrite Hshown. simpl. tauto.
  - rewrite Hcomplete. reflexivity.
  - exact Hshape.
  - exact Hlen.
Defined.

End OverviewExample.
